(** * Skill-Cortex: the mutation layer and the serving layer

    A shallow embedding of [skill_cortex/skill_manager.py] and of the
    tool functions of [skill_cortex/server.py], with the properties the
    specification states about them.

    Conventions of the embedding.
    - A Python [str] is a Rocq [string]; a character stands for the code
      point of the same number, so the texts covered are those over code
      points below 256.  The character classes below ([isspace], line
      boundaries, [lower]) are Python's, restricted to that range.
    - A [pathlib.Path] is the list of its components, in resolved
      absolute form; the filesystem is a finite map from paths to nodes.
    - Code that touches the filesystem or the shared [state] dictionary is
      written in a state-and-exception monad over [World]. *)

From Stdlib Require Import String Ascii List Bool Arith Lia DecimalString
  Sorting.Mergesort Sorting.Sorted Sorting.Permutation Structures.OrderedTypeEx.
From stdpp Require Import gmap strings list sorting.

Import ListNotations.
Local Open Scope string_scope.
Local Open Scope list_scope.
Local Open Scope nat_scope.

(** ** Python strings *)

Module PyStr.

Definition nl : string := String (ascii_of_nat 10) "".

Definition code (c : ascii) : nat := nat_of_ascii c.

(** [str.isspace] on one character. *)
Definition isspace (c : ascii) : bool :=
  let n := code c in
  ((9 <=? n) && (n <=? 13)) || ((28 <=? n) && (n <=? 32))
  || (n =? 133) || (n =? 160).

Fixpoint lstrip (s : string) : string :=
  match s with
  | EmptyString => EmptyString
  | String c s' => if isspace c then lstrip s' else s
  end.

Fixpoint rstrip (s : string) : string :=
  match s with
  | EmptyString => EmptyString
  | String c s' =>
      match rstrip s' with
      | EmptyString => if isspace c then EmptyString else String c EmptyString
      | r => String c r
      end
  end.

Definition strip (s : string) : string := lstrip (rstrip s).

(** [s.split(sep)] for a one-character separator. *)
Fixpoint split (sep : ascii) (s : string) : list string :=
  match s with
  | EmptyString => [EmptyString]
  | String c s' =>
      if Ascii.eqb c sep then EmptyString :: split sep s'
      else match split sep s' with
           | h :: t => String c h :: t
           | [] => [String c EmptyString]
           end
  end.

Fixpoint join (sep : string) (l : list string) : string :=
  match l with
  | [] => EmptyString
  | [x] => x
  | x :: l' => x +:+ sep +:+ join sep l'
  end.

Fixpoint startswith (p s : string) : bool :=
  match p, s with
  | EmptyString, _ => true
  | String a p', String b s' => Ascii.eqb a b && startswith p' s'
  | String _ _, EmptyString => false
  end.

(** [p in s] *)
Fixpoint contains (p s : string) : bool :=
  startswith p s ||
  match s with
  | EmptyString => false
  | String _ s' => contains p s'
  end.

Fixpoint last_char (s : string) : option ascii :=
  match s with
  | EmptyString => None
  | String c EmptyString => Some c
  | String _ s' => last_char s'
  end.

(** [s.endswith(c)] for a one-character suffix. *)
Definition endswith_char (c : ascii) (s : string) : bool :=
  match last_char s with
  | Some d => Ascii.eqb d c
  | None => false
  end.

(** [str.lower] on one character: A-Z, and the capital letters of the
    range 192-222 except the multiplication sign 215. *)
Definition lower_char (c : ascii) : ascii :=
  let n := code c in
  if ((65 <=? n) && (n <=? 90))
     || ((192 <=? n) && (n <=? 222) && negb (n =? 215))
  then ascii_of_nat (n + 32) else c.

Fixpoint lower (s : string) : string :=
  match s with
  | EmptyString => EmptyString
  | String c s' => String (lower_char c) (lower s')
  end.

(** A line boundary of [str.splitlines]. *)
Definition islinebreak (c : ascii) : bool :=
  let n := code c in
  ((10 <=? n) && (n <=? 13)) || ((28 <=? n) && (n <=? 30)) || (n =? 133).

(** [s.splitlines(keepends=True)]; [cur] is the line being read. *)
Fixpoint splitlines_from (cur s : string) : list string :=
  match s with
  | EmptyString =>
      match cur with EmptyString => [] | _ => [cur] end
  | String c s' =>
      if Ascii.eqb c (ascii_of_nat 13) then
        match s' with
        | String d s'' =>
            if Ascii.eqb d (ascii_of_nat 10)
            then (cur +:+ String c (String d "")) :: splitlines_from "" s''
            else (cur +:+ String c "") :: splitlines_from "" s'
        | EmptyString => [cur +:+ String c ""]
        end
      else if islinebreak c then
        (cur +:+ String c "") :: splitlines_from "" s'
      else splitlines_from (cur +:+ String c "") s'
  end.

Definition splitlines_keepends (s : string) : list string :=
  splitlines_from "" s.

(** Reading in text mode with universal newlines: CR LF and CR become LF. *)
Fixpoint universal_newlines (s : string) : string :=
  match s with
  | EmptyString => EmptyString
  | String c s' =>
      if Ascii.eqb c (ascii_of_nat 13) then
        match s' with
        | String d s'' =>
            if Ascii.eqb d (ascii_of_nat 10)
            then String d (universal_newlines s'')
            else String (ascii_of_nat 10) (universal_newlines s')
        | EmptyString => nl
        end
      else String c (universal_newlines s')
  end.

(** [str(n)] for a length. *)
Definition str_of_nat (n : nat) : string :=
  NilEmpty.string_of_uint (Nat.to_uint n).

(** Truthiness of a string. *)
Definition truthy (s : string) : bool :=
  match s with EmptyString => false | _ => true end.

End PyStr.

(** ** skill_manager.py: names and paths *)

(** The class [[a-z0-9-]]. *)
Definition name_char (c : ascii) : bool :=
  let n := PyStr.code c in
  ((97 <=? n) && (n <=? 122)) || ((48 <=? n) && (n <=? 57)) || (n =? 45).

(** What is left of [s] after the longest run of [name_char]s, and whether
    the run is non-empty: the greedy [[a-z0-9-]+]. *)
Fixpoint name_run (s : string) : bool * string :=
  match s with
  | EmptyString => (false, EmptyString)
  | String c s' =>
      if name_char c then (true, snd (name_run s')) else (false, s)
  end.

(** [re.match(r"^[a-z0-9-]+$", name)]: after the run, [$] holds at the end
    of the string and just before a newline that ends it. *)
Definition re_match_name (name : string) : bool :=
  let '(some, rest) := name_run name in
  some && (String.eqb rest "" || String.eqb rest PyStr.nl).

Definition validate_skill_name_part (name : string) : bool * string :=
  if negb (PyStr.truthy name) then (false, "Name cannot be empty")
  else if 64 <? String.length name then
    (false, "Name too long (max 64 chars): " +:+ PyStr.str_of_nat (String.length name))
  else if negb (re_match_name name) then
    (false, "Name must contain only lowercase letters, numbers, and hyphens")
  else if PyStr.startswith "-" name || PyStr.endswith_char "-" name then
    (false, "Name cannot start or end with a hyphen")
  else if PyStr.contains "--" name then
    (false, "Name cannot contain consecutive hyphens")
  else (true, "").

(** The loop over [parts]: the message of the first invalid part. *)
Fixpoint first_invalid_part (parts : list string) : option string :=
  match parts with
  | [] => None
  | part :: rest =>
      let '(is_valid, error) := validate_skill_name_part part in
      if negb is_valid
      then Some ("Invalid path component '" +:+ part +:+ "': " +:+ error)
      else first_invalid_part rest
  end.

(** [[p.strip() for p in path.split("/") if p.strip()]] *)
Definition path_parts (path : string) : list string :=
  map PyStr.strip
    (List.filter (fun p => PyStr.truthy (PyStr.strip p)) (PyStr.split "/" path)).

(** [(category_path, skill_name, error_message)] *)
Definition parse_skill_path (path : string)
  : list string * string * option string :=
  if negb (PyStr.truthy path) then ([], "", Some "Path cannot be empty")
  else
    let parts := path_parts path in
    match parts with
    | [] => ([], "", Some "Path cannot be empty")
    | _ =>
        match first_invalid_part parts with
        | Some msg => ([], "", Some msg)
        | None => (removelast parts, List.last parts "", None)
        end
    end.

(** ** Paths and the filesystem *)

Definition Path := list string.

Module PyPath.

(** [str(path)] *)
Definition str (p : Path) : string := "/" +:+ PyStr.join "/" p.

(** [path.name] *)
Definition name (p : Path) : string := List.last p "".

(** [path.parent]; the root is its own parent. *)
Definition parent (p : Path) : Path := removelast p.

(** The components a string contributes to a path. *)
Definition of_str (s : string) : Path :=
  List.filter (fun c => negb (String.eqb c "") && negb (String.eqb c "."))
    (PyStr.split "/" s).

(** [path / s]: an absolute [s] replaces the path. *)
Definition div (p : Path) (s : string) : Path :=
  if PyStr.startswith "/" s then of_str s else p ++ of_str s.

(** [path.relative_to(root)], [None] for the [ValueError]: the parts of
    [path] below [root]. *)
Fixpoint relative_to (path root : Path) {struct root} : option (list string) :=
  match root, path with
  | [], _ => Some path
  | r :: root', c :: path' =>
      if String.eqb r c then relative_to path' root' else None
  | _ :: _, [] => None
  end.

Definition is_under (root path : Path) : bool :=
  match relative_to path root with Some _ => true | None => false end.

End PyPath.

(** What is at a path: a regular file, a directory, or a symbolic link
    to a directory. *)
Inductive Node : Type :=
| NFile (content : string)
| NDir
| NLink.

(** The filesystem: what is at each path.  The root directory [[]] always
    exists and is in no map.  A path is looked up as it is written, also
    below a link.  There are no permissions, quotas or limits on the
    length of a name here: an operation fails only for what is, or is
    not, at a path. *)
Abbreviation FS := (gmap (list string) Node).

Inductive OSError : Type :=
| FileExistsError (p : Path)
| FileNotFoundError (p : Path)
| NotADirectoryError (p : Path)
| IsADirectoryError (p : Path)
| DeviceBusyError (p : Path)
| RmtreeSymlinkError (p : Path).

Inductive exn : Type :=
| EOSError (e : OSError)
| ValueError (msg : string)
| AttributeError (msg : string)
| ExternalError (msg : string).

(** [str(exc)] *)
Definition str_exn (e : exn) : string :=
  match e with
  | EOSError (FileExistsError p) => "[Errno 17] File exists: '" +:+ PyPath.str p +:+ "'"
  | EOSError (FileNotFoundError p) =>
      "[Errno 2] No such file or directory: '" +:+ PyPath.str p +:+ "'"
  | EOSError (NotADirectoryError p) => "[Errno 20] Not a directory: '" +:+ PyPath.str p +:+ "'"
  | EOSError (IsADirectoryError p) => "[Errno 21] Is a directory: '" +:+ PyPath.str p +:+ "'"
  | EOSError (DeviceBusyError p) => "[Errno 16] Device or resource busy: '" +:+ PyPath.str p +:+ "'"
  | EOSError (RmtreeSymlinkError _) => "Cannot call rmtree on a symbolic link"
  | ValueError msg => msg
  | AttributeError msg => msg
  | ExternalError msg => msg
  end.

Module Fs.

Definition lookup (fs : FS) (p : Path) : option Node :=
  match p with
  | [] => Some NDir
  | _ => fs !! p
  end.

Definition exists_ (fs : FS) (p : Path) : bool :=
  match lookup fs p with Some _ => true | None => false end.

(** [Path.is_dir()]; it follows a link. *)
Definition is_dir (fs : FS) (p : Path) : bool :=
  match lookup fs p with Some NDir | Some NLink => true | _ => false end.

(** Whether walking down [rest] from [done] stops at a regular file: the
    first component that is no directory is a file. *)
Fixpoint blocked_by_file (fs : FS) (done : Path) (rest : list string) : bool :=
  match rest with
  | [] => false
  | c :: rest' =>
      match lookup fs (done ++ [c]) with
      | Some (NFile _) => true
      | Some _ => blocked_by_file fs (done ++ [c]) rest'
      | None => false
      end
  end.

(** The error of a system call on [p] when [q], a path on the way to [p],
    is not there: [ENOTDIR] when a regular file is on the way, else
    [ENOENT]. *)
Definition missing_error (fs : FS) (q p : Path) : OSError :=
  if blocked_by_file fs [] q then NotADirectoryError p else FileNotFoundError p.

(** [os.mkdir(p)] *)
Definition os_mkdir (fs : FS) (p : Path) : OSError + FS :=
  match lookup fs p with
  | Some _ => inl (FileExistsError p)
  | None =>
      match lookup fs (PyPath.parent p) with
      | None => inl (missing_error fs (PyPath.parent p) p)
      | Some (NFile _) => inl (NotADirectoryError p)
      | Some _ => inr (<[p := NDir]> fs)
      end
  end.

(** [Path.mkdir(parents=False, exist_ok=exist_ok)] *)
Definition mkdir (exist_ok : bool) (fs : FS) (p : Path) : OSError + FS :=
  match os_mkdir fs p with
  | inr fs' => inr fs'
  | inl e => if exist_ok && is_dir fs p then inr fs else inl e
  end.

(** [Path.mkdir(parents=True, exist_ok=True)] on the path [rev rp]: a
    missing parent is created first, any other failure is an error
    unless the path is a directory already. *)
Fixpoint mkdir_parents_rev (fs : FS) (rp : list string) : OSError + FS :=
  match os_mkdir fs (rev rp) with
  | inr fs' => inr fs'
  | inl (FileNotFoundError q) =>
      match rp with
      | [] => inl (FileNotFoundError q)
      | _ :: rp' =>
          match mkdir_parents_rev fs rp' with
          | inl e => inl e
          | inr fs1 => mkdir true fs1 (rev rp)
          end
      end
  | inl e => if is_dir fs (rev rp) then inr fs else inl e
  end.

Definition mkdir_parents (fs : FS) (p : Path) : OSError + FS :=
  mkdir_parents_rev fs (rev p).

(** [Path.write_text(content)] *)
Definition write_text (fs : FS) (p : Path) (content : string) : OSError + FS :=
  match lookup fs p with
  | Some (NFile _) => inr (<[p := NFile content]> fs)
  | Some _ => inl (IsADirectoryError p)
  | None =>
      match lookup fs (PyPath.parent p) with
      | None => inl (missing_error fs (PyPath.parent p) p)
      | Some (NFile _) => inl (NotADirectoryError p)
      | Some _ => inr (<[p := NFile content]> fs)
      end
  end.

(** [Path.read_text()] *)
Definition read_text (fs : FS) (p : Path) : OSError + string :=
  match lookup fs p with
  | None => inl (missing_error fs p p)
  | Some (NFile content) => inr (PyStr.universal_newlines content)
  | Some _ => inl (IsADirectoryError p)
  end.

(** What [shutil.rmtree(p)] leaves: nothing at [p] or below it. *)
Definition remove_tree (fs : FS) (p : Path) : FS :=
  filter (fun kv => PyPath.is_under p (fst kv) = false) fs.

(** [shutil.rmtree(p)]: the error, if any, and the filesystem left.  A
    symbolic link is refused, also one to a directory; the links found
    below [p] are removed as the entries they are. *)
Definition rmtree (fs : FS) (p : Path) : option OSError * FS :=
  match p with
  | [] => (Some (DeviceBusyError p), remove_tree fs p)
  | _ =>
      match lookup fs p with
      | None => (Some (missing_error fs p p), fs)
      | Some (NFile _) => (Some (NotADirectoryError p), fs)
      | Some NLink => (Some (RmtreeSymlinkError p), fs)
      | Some NDir => (None, remove_tree fs p)
      end
  end.

End Fs.

(** ** Values returned to the caller *)

Local Set Warnings "-register-all".

(** The dictionaries the tools return, and what they hold. *)
Inductive PyVal : Type :=
| VNone
| VBool (b : bool)
| VInt (n : nat)
| VStr (s : string)
| VList (l : list PyVal)
| VDict (d : list (string * PyVal)).

Definition Dict := list (string * PyVal).

(** [d.get(key)] *)
Fixpoint dict_get (d : Dict) (key : string) : option PyVal :=
  match d with
  | [] => None
  | (k, v) :: d' => if String.eqb k key then Some v else dict_get d' key
  end.

(** Truthiness of [result.get("ok")]. *)
Definition dict_ok (d : Dict) : bool :=
  match dict_get d "ok" with
  | Some (VBool true) => true
  | _ => false
  end.

Definition VStrs (l : list string) : PyVal := VList (map VStr l).

(** ** The data model (models.py, config.py, tags_registry.py) *)

(** Modelled from the spec: the record types of [models.py], [config.py]
    and [tags_registry.py], which the code under study only reads; each has
    the fields the code reads.  [children] is a Python dictionary, kept as
    the list of its items in insertion order. *)
Record SkillFrontmatter : Type := {
  title : string;
  description : string;
  tags : list string
}.

Record SkillRecord : Type := {
  skill_id : string;
  skill_path : Path;
  frontmatter : SkillFrontmatter;
  description_snapshot : string;
  tag_issues : list string;
  category_path : list string
}.

Inductive TreeNode : Type :=
| MkTreeNode (children : list (string * TreeNode)) (skills : list SkillRecord).

Definition children (n : TreeNode) : list (string * TreeNode) :=
  match n with MkTreeNode c _ => c end.

Definition node_skills (n : TreeNode) : list SkillRecord :=
  match n with MkTreeNode _ s => s end.

Record ScanResult : Type := {
  tree : TreeNode;
  skills : list SkillRecord
}.

Record TagsRegistry : Type := {
  allowed_tags : gset string
}.

Record AppConfig : Type := {
  roots : list Path;
  cache_path : Path;
  tags_path : Path
}.

(** ** The world and its monad *)

Inductive Event : Type :=
| EvAcquire
| EvRelease
| EvMkdir (p : Path)
| EvWrite (p : Path)
| EvRmtree (p : Path)
| EvScan
| EvSave.

(** The filesystem, the two entries of the shared [state] dictionary, and
    the events so far, oldest first. *)
Record World : Type := {
  fs : FS;
  state_registry : option TagsRegistry;
  state_scan : option ScanResult;
  trace : list Event
}.

Definition with_fs (w : World) (f : FS) : World :=
  {| fs := f; state_registry := state_registry w;
     state_scan := state_scan w; trace := trace w |}.

Definition with_event (w : World) (e : Event) : World :=
  {| fs := fs w; state_registry := state_registry w;
     state_scan := state_scan w; trace := trace w ++ [e] |}.

Inductive Outcome (A : Type) : Type :=
| Ret (a : A)
| Raise (e : exn).
Arguments Ret {A} a.
Arguments Raise {A} e.

Definition M (A : Type) : Type := World -> Outcome A * World.

Definition ret {A} (a : A) : M A := fun w => (Ret a, w).

Definition raise {A} (e : exn) : M A := fun w => (Raise e, w).

Definition bind {A B} (m : M A) (k : A -> M B) : M B :=
  fun w =>
    match m w with
    | (Ret a, w') => k a w'
    | (Raise e, w') => (Raise e, w')
    end.

(** [try: m  except Exception as exc: h(exc)] *)
Definition try_except {A} (m : M A) (h : exn -> M A) : M A :=
  fun w =>
    match m w with
    | (Ret a, w') => (Ret a, w')
    | (Raise e, w') => h e w'
    end.

(** [try: m  finally: f] *)
Definition finally {A} (m : M A) (f : M unit) : M A :=
  fun w =>
    match m w with
    | (Ret a, w') =>
        match f w' with
        | (Ret _, w'') => (Ret a, w'')
        | (Raise e, w'') => (Raise e, w'')
        end
    | (Raise e, w') =>
        match f w' with
        | (Ret _, w'') => (Raise e, w'')
        | (Raise e', w'') => (Raise e', w'')
        end
    end.

Notation "'let*' x ':=' c 'in' k" := (bind c (fun x => k))
  (at level 10, x name, c at level 100, k at level 200).
Notation "c ';;;' k" := (bind c (fun _ => k))
  (at level 100, k at level 200, right associativity).

Definition emit (e : Event) : M unit := fun w => (Ret tt, with_event w e).

Definition get_fs : M FS := fun w => (Ret (fs w), w).

(** Run a filesystem operation, noting [ev] when it succeeds. *)
Definition fs_op (op : FS -> OSError + FS) (ev : Event) : M unit :=
  fun w =>
    match op (fs w) with
    | inl e => (Raise (EOSError e), w)
    | inr f => (Ret tt, with_event (with_fs w f) ev)
    end.

(** [Path.exists()]: on this filesystem [stat] fails only for a missing
    path, which [exists] answers with [False]. *)
Definition path_exists (p : Path) : M bool :=
  fun w => (Ret (Fs.exists_ (fs w) p), w).

Definition mkdir_parents (p : Path) : M unit :=
  fs_op (fun f => Fs.mkdir_parents f p) (EvMkdir p).

Definition mkdir_exist_ok (p : Path) : M unit :=
  fs_op (fun f => Fs.mkdir true f p) (EvMkdir p).

Definition write_text (p : Path) (content : string) : M unit :=
  fs_op (fun f => Fs.write_text f p content) (EvWrite p).

Definition read_text (p : Path) : M string :=
  fun w =>
    match Fs.read_text (fs w) p with
    | inl e => (Raise (EOSError e), w)
    | inr s => (Ret s, w)
    end.

(** [shutil.rmtree(p)] *)
Definition rmtree (p : Path) : M unit :=
  fun w =>
    match Fs.rmtree (fs w) p with
    | (Some e, f) => (Raise (EOSError e), with_fs w f)
    | (None, f) => (Ret tt, with_event (with_fs w f) (EvRmtree p))
    end.

(** [try: m  except Exception as exc: return h(exc)], followed by more
    code: [Some] is the value returned from the handler. *)
Definition attempt {A} (m : M unit) (h : exn -> M A) : M (option A) :=
  try_except (bind m (fun _ => ret None)) (fun exc => bind (h exc) (fun r => ret (Some r))).

(** [shutil.rmtree(p, ignore_errors=True)] *)
Definition rmtree_ignore_errors (p : Path) : M unit :=
  try_except (rmtree p) (fun _ => ret tt).

(** ** The collaborators *)

(** The functions of the repository that the code under study calls and
    that live in other modules ([frontmatter], [tags_registry],
    [index_store], [scanner]).  They are parameters of the development:
    reading functions see the filesystem, [save_index] may change it, and
    each may raise where its Python counterpart may. *)
Class Collaborators : Type := {
  normalize_tags : list string -> list string;
  load_tags_registry : FS -> Path -> exn + TagsRegistry;
  load_index : FS -> Path -> option ScanResult;
  scan_skills : FS -> list Path -> TagsRegistry -> exn + ScanResult;
  save_index : FS -> Path -> ScanResult -> option exn * FS
}.

(** ** skill_manager.py: creating and deleting *)

Definition format_tags (tags : list string) : string :=
  "[" +:+ PyStr.join ", " tags +:+ "]".

Definition skill_template : string :=
  PyStr.join PyStr.nl
    [ ""; ""; "## Instructions"; "";
      "[Provide detailed step-by-step instructions for using this skill]"; "";
      "## Examples"; ""; "[Add examples of how to use this skill]"; "";
      "## Notes"; ""; "[Add any additional notes or considerations]"; "" ].

Definition opt_truthy (o : option string) : bool :=
  match o with Some s => PyStr.truthy s | None => false end.

Definition generate_skill_markdown (name description : string)
    (tags : list string) (instructions license : option string)
    (metadata : option (list (string * string))) : string :=
  let frontmatter_lines :=
    ["---"; "name: " +:+ name; "description: " +:+ description]
    ++ (match tags with [] => [] | _ => ["tags: " +:+ format_tags tags] end)
    ++ (match license with
        | Some l => if PyStr.truthy l then ["license: " +:+ l] else []
        | None => []
        end)
    ++ (match metadata with
        | Some ((_ :: _) as kvs) =>
            "metadata:" :: map (fun kv => "  " +:+ fst kv +:+ ": " +:+ snd kv) kvs
        | _ => []
        end)
    ++ ["---"] in
  let body :=
    match instructions with
    | Some i => if PyStr.truthy i then PyStr.nl +:+ PyStr.nl +:+ i else skill_template
    | None => skill_template
    end in
  PyStr.join PyStr.nl frontmatter_lines +:+ body.

(** The arguments of [create_skill] other than [roots]. *)
Record CreateArgs : Type := {
  arg_path : string;
  arg_description : string;
  arg_tags : option (list string);
  arg_instructions : option string;
  arg_license : option string;
  arg_metadata : option (list (string * string));
  arg_create_scripts_dir : bool;
  arg_create_references_dir : bool;
  arg_create_assets_dir : bool
}.

Definition conventional_name (root : Path) : bool :=
  String.eqb (PyPath.name root) ".skills" || String.eqb (PyPath.name root) "skills".

(** The loop that picks the first root named [.skills] or [skills]. *)
Fixpoint first_conventional (roots : list Path) : option Path :=
  match roots with
  | [] => None
  | root :: rest =>
      if conventional_name root then Some root else first_conventional rest
  end.

(** [target_root] once the loop and the fallback have run. *)
Definition select_target_root (roots : list Path) : option Path :=
  match first_conventional roots with
  | Some root => Some root
  | None =>
      match roots with
      | root :: _ => Some root
      | [] => None
      end
  end.

Definition skill_dir_of (target_root : Path) (category_path : list string)
    (skill_name : string) : Path :=
  PyPath.div (fold_left PyPath.div category_path target_root) skill_name.

Definition error_dict (error detail : string) : Dict :=
  [("ok", VBool false); ("error", VStr error); ("detail", VStr detail)].

(** The three optional [mkdir(exist_ok=True)] calls. *)
Definition create_optional_dirs (skill_dir : Path) (a : CreateArgs) : M unit :=
  (if arg_create_scripts_dir a
   then mkdir_exist_ok (PyPath.div skill_dir "scripts") else ret tt) ;;;
  (if arg_create_references_dir a
   then mkdir_exist_ok (PyPath.div skill_dir "references") else ret tt) ;;;
  (if arg_create_assets_dir a
   then mkdir_exist_ok (PyPath.div skill_dir "assets") else ret tt).

Definition create_skill `{Collaborators} (roots : list Path) (a : CreateArgs)
  : M Dict :=
  let '(category_path, skill_name, error) := parse_skill_path (arg_path a) in
  if opt_truthy error then
    ret (error_dict "invalid_path" (default "" error))
  else if negb (PyStr.truthy (arg_description a))
          || (1024 <? String.length (arg_description a)) then
    ret (error_dict "invalid_description" "Description must be 1-1024 characters")
  else
    let normalized_tags := normalize_tags (default [] (arg_tags a)) in
    match select_target_root roots with
    | None => ret (error_dict "no_root" "No skill root directory configured")
    | Some target_root =>
        let skill_dir := skill_dir_of target_root category_path skill_name in
        let skill_md_path := PyPath.div skill_dir "SKILL.md" in
        let* present := path_exists skill_md_path in
        if (present : bool) then
          ret (error_dict "skill_exists"
                 ("Skill already exists at " +:+ PyPath.str skill_md_path))
        else
          let* failed := attempt (mkdir_parents skill_dir)
            (fun exc => ret (error_dict "mkdir_failed" (str_exn exc))) in
          match failed with Some result => ret result | None =>
          let* failed := attempt
            (write_text skill_md_path
               (generate_skill_markdown skill_name (arg_description a)
                  normalized_tags (arg_instructions a) (arg_license a)
                  (arg_metadata a)))
            (fun exc =>
               rmtree_ignore_errors skill_dir ;;;
               ret (error_dict "write_failed" (str_exn exc))) in
          match failed with Some result => ret result | None =>
          let* failed := attempt (create_optional_dirs skill_dir a)
            (fun exc => ret (error_dict "mkdir_optional_failed" (str_exn exc))) in
          match failed with Some result => ret result | None =>
          ret [ ("ok", VBool true);
                ("skill_path", VStr (PyPath.str skill_md_path));
                ("skill_dir", VStr (PyPath.str skill_dir));
                ("skill_name", VStr skill_name);
                ("category_path", VStrs category_path);
                ("message", VStr ("Skill created successfully at "
                                  +:+ PyPath.str skill_md_path)) ]
          end end end
    end.

Definition contains_imported (parts : list string) : bool :=
  existsb (String.eqb "imported") parts.

(** [(is_deletable, reason)] *)
Fixpoint is_deletable_skill (skill_path : Path) (roots : list Path)
  : bool * string :=
  match roots with
  | [] => (false, "Skill not in a deletable directory")
  | root :: rest =>
      match PyPath.relative_to skill_path root with
      | Some rel_path =>
          if conventional_name root then
            if contains_imported rel_path
            then (false, "Cannot delete imported skills")
            else (true, "")
          else if String.eqb (PyPath.name root) ".skill_cortex_sources" then
            (false, "Cannot delete skills from source repositories")
          else is_deletable_skill skill_path rest
      | None => is_deletable_skill skill_path rest
      end
  end.

Definition delete_skill (skill_path : Path) (roots : list Path) (confirm : bool)
  : M Dict :=
  let* present := path_exists skill_path in
  if negb present then
    ret (error_dict "skill_not_found" ("Skill not found at " +:+ PyPath.str skill_path))
  else
    let '(is_deletable, reason) := is_deletable_skill skill_path roots in
    if negb is_deletable then ret (error_dict "not_deletable" reason)
    else
      let skill_dir := PyPath.parent skill_path in
      if negb confirm then
        ret [ ("ok", VBool false);
              ("error", VStr "confirmation_required");
              ("detail", VStr "Set confirm=true to delete this skill");
              ("skill_path", VStr (PyPath.str skill_path));
              ("skill_dir", VStr (PyPath.str skill_dir));
              ("message", VStr "Preview mode: skill will NOT be deleted") ]
      else
        let* failed := attempt (rmtree skill_dir)
          (fun exc => ret (error_dict "delete_failed" (str_exn exc))) in
        match failed with Some result => ret result | None =>
        ret [ ("ok", VBool true);
              ("skill_path", VStr (PyPath.str skill_path));
              ("skill_dir", VStr (PyPath.str skill_dir));
              ("message", VStr ("Skill deleted successfully from "
                                +:+ PyPath.str skill_dir)) ]
        end.

(** ** server.py: helpers *)

Definition _parse_path_arg (path : option string) : list string :=
  match path with
  | None => []
  | Some p =>
      if negb (PyStr.truthy p) then []
      else List.filter PyStr.truthy (PyStr.split "/" p)
  end.

(** [node.children.get(part)] *)
Fixpoint children_get (items : list (string * TreeNode)) (part : string)
  : option TreeNode :=
  match items with
  | [] => None
  | (k, child) :: items' =>
      if String.eqb k part then Some child else children_get items' part
  end.

Fixpoint _find_node (node : TreeNode) (path : list string) : option TreeNode :=
  match path with
  | [] => Some node
  | part :: path' =>
      match children_get (children node) part with
      | None => None
      | Some child => _find_node child path'
      end
  end.

Definition _summarize_skill (s : SkillRecord) : PyVal :=
  VDict [ ("skill_id", VStr (skill_id s));
          ("title", VStr (title (frontmatter s)));
          ("description_snapshot", VStr (description_snapshot s));
          ("tags", VStrs (tags (frontmatter s)));
          ("tag_issues", VStrs (tag_issues s));
          ("category_path", VStrs (category_path s)) ].

Definition _format_tags_inline (tags : list string) : string :=
  "[" +:+ PyStr.join ", " tags +:+ "]".

Definition is_delim (line : string) : bool :=
  String.eqb (PyStr.strip line) "---".

(** The search for the closing delimiter among [lines[i:]]. *)
Fixpoint find_end_index (i : nat) (lines : list string) : option nat :=
  match lines with
  | [] => None
  | line :: lines' =>
      if is_delim line then Some i else find_end_index (S i) lines'
  end.

Definition is_tags_line (raw : string) : bool :=
  PyStr.startswith "tags:" (PyStr.lower (PyStr.lstrip raw)).

(** The loop over [front]: the rewritten lines and [found]. *)
Fixpoint replace_tags_lines (new_tags_line : string) (front : list string)
  : list string * bool :=
  match front with
  | [] => ([], false)
  | raw :: front' =>
      let '(rest, found) := replace_tags_lines new_tags_line front' in
      if is_tags_line raw then (new_tags_line :: rest, true)
      else (raw :: rest, found)
  end.

Definition concat_str (l : list string) : string := PyStr.join "" l.

Definition _update_tags_in_skill_md (skill_md_path : Path) (new_tags : list string)
  : M unit :=
  let* text := read_text skill_md_path in
  let lines := PyStr.splitlines_keepends text in
  match lines with
  | [] => raise (ValueError "empty_file")
  | open_delim :: after =>
      if negb (is_delim open_delim) then raise (ValueError "missing_frontmatter")
      else
        match find_end_index 1 after with
        | None => raise (ValueError "unterminated_frontmatter")
        | Some end_index =>
            let front := firstn (end_index - 1) (skipn 1 lines) in
            let close_delim := nth end_index lines "" in
            let body := skipn (end_index + 1) lines in
            let new_tags_line :=
              "tags: " +:+ _format_tags_inline new_tags +:+ PyStr.nl in
            let '(replaced, found) := replace_tags_lines new_tags_line front in
            let updated_front :=
              if found then replaced else replaced ++ [new_tags_line] in
            write_text skill_md_path
              (open_delim +:+ concat_str updated_front +:+ close_delim
               +:+ concat_str body)
        end
  end.

(** ** server.py: the shared state *)

Definition with_lock {A} (body : M A) : M A :=
  emit EvAcquire ;;; finally body (emit EvRelease).

Definition set_registry (r : TagsRegistry) : M unit :=
  fun w => (Ret tt, {| fs := fs w; state_registry := Some r;
                       state_scan := state_scan w; trace := trace w |}).

Definition set_scan (s : ScanResult) : M unit :=
  fun w => (Ret tt, {| fs := fs w; state_registry := state_registry w;
                       state_scan := Some s; trace := trace w |}).

(** [state["registry"]] used as a registry. *)
Definition get_registry : M TagsRegistry :=
  fun w =>
    match state_registry w with
    | Some r => (Ret r, w)
    | None => (Raise (AttributeError "'NoneType' object has no attribute 'allowed_tags'"), w)
    end.

(** [state["scan"]] used as a scan result. *)
Definition get_scan : M ScanResult :=
  fun w =>
    match state_scan w with
    | Some s => (Ret s, w)
    | None => (Raise (AttributeError "'NoneType' object has no attribute 'skills'"), w)
    end.

Definition state_is_loaded : M bool :=
  fun w => (Ret (match state_registry w, state_scan w with
                 | Some _, Some _ => true
                 | _, _ => false
                 end), w).

Section Calls.
Context `{Collaborators}.
Variable config : AppConfig.

Definition call_load_tags_registry : M TagsRegistry :=
  fun w =>
    match load_tags_registry (fs w) (tags_path config) with
    | inl e => (Raise e, w)
    | inr r => (Ret r, w)
    end.

Definition call_load_index : M (option ScanResult) :=
  fun w => (Ret (load_index (fs w) (cache_path config)), w).

Definition call_scan_skills (registry : TagsRegistry) : M ScanResult :=
  fun w =>
    match scan_skills (fs w) (roots config) registry with
    | inl e => (Raise e, w)
    | inr s => (Ret s, with_event w EvScan)
    end.

Definition call_save_index (scan : ScanResult) : M unit :=
  fun w =>
    match save_index (fs w) (cache_path config) scan with
    | (Some e, f) => (Raise e, with_fs w f)
    | (None, f) => (Ret tt, with_event (with_fs w f) EvSave)
    end.

Definition _ensure_state_loaded : M unit :=
  with_lock
    (let* loaded := state_is_loaded in
     if (loaded : bool) then ret tt
     else
       let* registry := call_load_tags_registry in
       let* cached := call_load_index in
       let* scan :=
         match cached with
         | Some scan => ret scan
         | None =>
             let* scan := call_scan_skills registry in
             call_save_index scan ;;; ret scan
         end in
       set_registry registry ;;; set_scan scan).

(** [state["scan"] = scan_skills(...); save_index(...)].  The tools run it
    after [_ensure_state_loaded], when the registry is set. *)
Definition rescan_and_save : M unit :=
  let* registry := get_registry in
  let* scan := call_scan_skills registry in
  set_scan scan ;;;
  let* scan := get_scan in
  call_save_index scan.

End Calls.

(** ** server.py: the tools *)

(** [sorted] on strings: the order is by code point, a shorter prefix
    first. *)
Module StringOrder <: Orders.TotalLeBool.
Definition t := string.
Definition leb (a b : string) : bool := String.leb a b.
Lemma leb_total : forall a b, leb a b = true \/ leb b a = true.
Proof. intros a b. apply String.leb_total. Qed.
End StringOrder.

Module StringSort := Sort StringOrder.

Definition sorted (l : list string) : list string := StringSort.sort l.

(** One entry of the [updates] argument of [update_tags]: the values under
    the keys [skill_id] and [tags], when present. *)
Record Update : Type := {
  upd_skill_id : option string;
  upd_tags : option (list string)
}.

Section Tools.
Context `{Collaborators}.
Variable config : AppConfig.

Definition list_skill_tree (path : option string) : M Dict :=
  _ensure_state_loaded config ;;;
  let parts := _parse_path_arg path in
  let* scan := get_scan in
  match _find_node (tree scan) parts with
  | None =>
      ret [ ("ok", VBool false); ("error", VStr "path_not_found");
            ("path", VStrs parts) ]
  | Some node =>
      ret [ ("ok", VBool true);
            ("path", VStrs parts);
            ("categories", VStrs (sorted (map fst (children node))));
            ("skills", VList (map _summarize_skill (node_skills node))) ]
  end.

(** The body of the loop over [updates]: the entry appended to
    [results]. *)
Definition apply_update (allowed : gset string) (upd : Update) : M PyVal :=
  let skill_id_arg := PyStr.strip (default "" (upd_skill_id upd)) in
  let tags_tuple := normalize_tags (default [] (upd_tags upd)) in
  if negb (PyStr.truthy skill_id_arg) then
    ret (VDict [("ok", VBool false); ("error", VStr "missing_skill_id")])
  else
    match tags_tuple with
    | [] =>
        ret (VDict [ ("ok", VBool false); ("skill_id", VStr skill_id_arg);
                     ("error", VStr "missing_tags") ])
    | _ =>
        let invalid :=
          List.filter (fun t => negb (bool_decide (t ∈ allowed))) tags_tuple in
        match invalid with
        | _ :: _ =>
            ret (VDict [ ("ok", VBool false); ("skill_id", VStr skill_id_arg);
                         ("error", VStr "invalid_tags");
                         ("invalid", VStrs invalid) ])
        | [] =>
            let* scan := get_scan in
            match List.find (fun s => String.eqb (skill_id s) skill_id_arg)
                    (skills scan) with
            | None =>
                ret (VDict [ ("ok", VBool false); ("skill_id", VStr skill_id_arg);
                             ("error", VStr "skill_not_found") ])
            | Some skill =>
                try_except
                  (_update_tags_in_skill_md (skill_path skill) tags_tuple ;;;
                   ret (VDict [ ("ok", VBool true); ("skill_id", VStr skill_id_arg);
                                ("tags", VStrs tags_tuple) ]))
                  (fun exc =>
                     ret (VDict [ ("ok", VBool false);
                                  ("skill_id", VStr skill_id_arg);
                                  ("error", VStr "write_failed");
                                  ("detail", VStr (str_exn exc)) ]))
            end
        end
    end.

Fixpoint apply_updates (allowed : gset string) (updates : list Update)
  : M (list PyVal) :=
  match updates with
  | [] => ret []
  | upd :: updates' =>
      let* r := apply_update allowed upd in
      let* rs := apply_updates allowed updates' in
      ret (r :: rs)
  end.

Definition update_tags (mode : string) (updates : option (list Update))
  : M Dict :=
  _ensure_state_loaded config ;;;
  let m := PyStr.lower (PyStr.strip (if PyStr.truthy mode then mode else "list")) in
  if String.eqb m "list" then
    let* scan := get_scan in
    let bad :=
      List.filter (fun s => match tag_issues s with [] => false | _ => true end)
        (skills scan) in
    ret [ ("ok", VBool true); ("count", VInt (List.length bad));
          ("skills", VList (map _summarize_skill bad)) ]
  else if negb (String.eqb m "apply") then
    ret [ ("ok", VBool false); ("error", VStr "invalid_mode"); ("mode", VStr mode) ]
  else
    match updates with
    | None | Some [] => ret [ ("ok", VBool false); ("error", VStr "missing_updates") ]
    | Some updates =>
        let* registry := get_registry in
        let allowed := allowed_tags registry in
        let* results := apply_updates allowed updates in
        rescan_and_save config ;;;
        ret [ ("ok", VBool true); ("results", VList results) ]
    end.

Definition create_new_skill (a : CreateArgs) : M Dict :=
  _ensure_state_loaded config ;;;
  let* result := create_skill (roots config) a in
  (if dict_ok result then rescan_and_save config else ret tt) ;;;
  ret result.

Definition delete_existing_skill (skill_id_arg : string) (confirm : bool)
  : M Dict :=
  _ensure_state_loaded config ;;;
  let* scan := get_scan in
  match List.find (fun s => String.eqb (skill_id s) skill_id_arg) (skills scan) with
  | None =>
      ret [ ("ok", VBool false); ("error", VStr "skill_not_found");
            ("skill_id", VStr skill_id_arg) ]
  | Some skill =>
      let* result := delete_skill (skill_path skill) (roots config) confirm in
      (if dict_ok result then rescan_and_save config else ret tt) ;;;
      ret result
  end.

End Tools.

(** ** server.py: reading skills *)

Module PyText.

(** [s.splitlines()]: the lines without their terminators; [cur] is the
    line being read. *)
Fixpoint splitlines_from (cur s : string) : list string :=
  match s with
  | EmptyString =>
      match cur with EmptyString => [] | _ => [cur] end
  | String c s' =>
      if Ascii.eqb c (ascii_of_nat 13) then
        match s' with
        | String d s'' =>
            if Ascii.eqb d (ascii_of_nat 10)
            then cur :: splitlines_from "" s''
            else cur :: splitlines_from "" s'
        | EmptyString => [cur]
        end
      else if PyStr.islinebreak c then cur :: splitlines_from "" s'
      else splitlines_from (cur +:+ String c "") s'
  end.

Definition splitlines (s : string) : list string := splitlines_from "" s.

(** [s.lstrip(c)] for one character [c]. *)
Fixpoint lstrip_char (c : ascii) (s : string) : string :=
  match s with
  | EmptyString => EmptyString
  | String d s' => if Ascii.eqb d c then lstrip_char c s' else s
  end.

(** [lines[a:b]] for [0 <= a] and [0 <= b]. *)
Definition slice {A} (a b : nat) (l : list A) : list A :=
  firstn (b - a) (skipn a l).

End PyText.

(** [max_lines] is an [int] or [None]. *)
Definition _apply_max_lines (text : string) (max_lines : option Z) : string :=
  match max_lines with
  | None => text
  | Some n =>
      if (n <=? 0)%Z then text
      else
        let lines := PyText.splitlines text in
        if List.length lines <=? Z.to_nat n then text
        else
          PyStr.join PyStr.nl (firstn (Z.to_nat n) lines)
          +:+ PyStr.nl +:+ "... [truncated, "
          +:+ PyStr.str_of_nat (List.length lines - Z.to_nat n)
          +:+ " more lines]"
  end.

(** The index after the frontmatter: past the first closing delimiter when
    the first line is a delimiter and a closing one exists, else 0. *)
Definition body_start (lines : list string) : nat :=
  match lines with
  | [] => 0
  | first :: after =>
      if is_delim first then
        match find_end_index 1 after with
        | Some i => i + 1
        | None => 0
        end
      else 0
  end.

Definition is_header (raw : string) : bool :=
  PyStr.startswith "#" (PyStr.strip raw).

(** [line.lstrip("#").strip().lower()] for [line = raw.strip()]. *)
Definition header_text (raw : string) : string :=
  PyStr.lower (PyStr.strip (PyText.lstrip_char "#" (PyStr.strip raw))).

(** The loop that looks for the section among [lines[i:]]:
    [(section_start, section_end)] when it ends. *)
Fixpoint find_section (section_lower : string) (i : nat) (lines : list string)
    (section_start : option nat) : option nat * option nat :=
  match lines with
  | [] => (section_start, None)
  | raw :: lines' =>
      if is_header raw then
        match section_start with
        | None =>
            if PyStr.contains section_lower (header_text raw)
            then find_section section_lower (S i) lines' (Some i)
            else find_section section_lower (S i) lines' None
        | Some _ => (section_start, Some i)
        end
      else find_section section_lower (S i) lines' section_start
  end.

(** The loop of the fallback for [instructions]: the lines before the
    first one that starts with ["## "]. *)
Fixpoint lines_before_h2 (lines : list string) : list string :=
  match lines with
  | [] => []
  | raw :: lines' =>
      if PyStr.startswith "## " (PyStr.strip raw) then []
      else raw :: lines_before_h2 lines'
  end.

Definition _extract_section (content section : string) : string :=
  let lines := PyText.splitlines content in
  let start_idx := body_start lines in
  let section_lower := PyStr.lower section in
  match find_section section_lower start_idx (skipn start_idx lines) None with
  | (None, _) =>
      if String.eqb section_lower "instructions" then
        let text := PyStr.strip
                      (PyStr.join PyStr.nl (lines_before_h2 (skipn start_idx lines))) in
        if PyStr.truthy text then text else "[No instructions section found]"
      else "[Section '" +:+ section +:+ "' not found]"
  | (Some section_start, section_end) =>
      let section_end :=
        match section_end with
        | Some (S e) => S e
        | _ => List.length lines
        end in
      PyStr.strip
        (PyStr.join PyStr.nl (PyText.slice section_start section_end lines))
  end.

(** [set(filter_tags).issubset(set(tags))] *)
Definition tags_subset (filter_tags tags : list string) : bool :=
  forallb (fun t => existsb (String.eqb t) tags) filter_tags.

Section ReadingTools.
Context `{Collaborators}.
Variable config : AppConfig.

(** The text searched for the query. *)
Definition haystack (s : SkillRecord) : string :=
  PyStr.lower
    (PyStr.join " "
       [ skill_id s; title (frontmatter s); description_snapshot s;
         PyStr.join "/" (category_path s) ]).

(** Whether the loop of [search_skills] keeps the skill. *)
Definition search_keeps (q : string) (filter_tags : list string) (s : SkillRecord)
  : bool :=
  (if PyStr.truthy q then PyStr.contains q (haystack s) else true)
  && (match filter_tags with
      | [] => true
      | _ => tags_subset filter_tags (tags (frontmatter s))
      end).

Definition search_skills (query : option string) (tags_arg : option (list string))
  : M Dict :=
  _ensure_state_loaded config ;;;
  let q := PyStr.lower (PyStr.strip (default "" query)) in
  let filter_tags := normalize_tags (default [] tags_arg) in
  let* scan := get_scan in
  let results :=
    map _summarize_skill (List.filter (search_keeps q filter_tags) (skills scan)) in
  ret [ ("ok", VBool true); ("count", VInt (List.length results));
        ("results", VList results) ].

(** The loop of [get_skill_details]: the first skill with the identifier. *)
Definition get_skill_details (skill_id_arg : string) (section : string)
    (max_lines : option Z) : M Dict :=
  _ensure_state_loaded config ;;;
  let* scan := get_scan in
  match List.find (fun s => String.eqb (skill_id s) skill_id_arg) (skills scan) with
  | None =>
      ret [ ("ok", VBool false); ("error", VStr "skill_not_found");
            ("skill_id", VStr skill_id_arg) ]
  | Some s =>
      let* content := read_text (skill_path s) in
      let result :=
        [ ("ok", VBool true);
          ("skill_id", VStr (skill_id s));
          ("title", VStr (title (frontmatter s)));
          ("description", VStr (description (frontmatter s)));
          ("tags", VStrs (tags (frontmatter s))) ] in
      let section_lower :=
        PyStr.lower (PyStr.strip (if PyStr.truthy section then section else "summary")) in
      if String.eqb section_lower "summary" then
        ret (result
             ++ [ ("description_snapshot", VStr (description_snapshot s));
                  ("hint", VStr "Use section='instructions' or 'full' for complete content") ])
      else if String.eqb section_lower "full" then
        ret (result ++ [("content", VStr (_apply_max_lines content max_lines))])
      else
        ret (result
             ++ [ ("section", VStr section_lower);
                  ("content",
                   VStr (_apply_max_lines (_extract_section content section_lower)
                           max_lines)) ])
  end.

End ReadingTools.

(** ** A concrete instance of the collaborators

    The properties below hold for every instance of [Collaborators].  To
    run the tools on concrete worlds, this module gives one small instance:
    tags are trimmed, lower-cased, hyphenated and deduplicated; the
    registry is the set of the lines of the vocabulary file, empty when the
    file is missing; there is never a usable cache; a scan lists the
    [SKILL.md] files below the roots; saving writes a marker file. *)
Module Sample.

Fixpoint words_from (cur s : string) : list string :=
  match s with
  | EmptyString => match cur with EmptyString => [] | _ => [cur] end
  | String c s' =>
      if PyStr.isspace c
      then match cur with
           | EmptyString => words_from "" s'
           | _ => cur :: words_from "" s'
           end
      else words_from (cur +:+ String c "") s'
  end.

Definition normalize_tag (t : string) : string :=
  PyStr.join "-" (words_from "" (PyStr.lower t)).

Fixpoint dedup (l : list string) : list string :=
  match l with
  | [] => []
  | x :: l' => x :: List.filter (fun y => negb (String.eqb x y)) (dedup l')
  end.

Definition normalize (tags : list string) : list string :=
  dedup (List.filter PyStr.truthy (map normalize_tag tags)).

Definition load_registry (f : FS) (p : Path) : exn + TagsRegistry :=
  match Fs.read_text f p with
  | inr text =>
      inr {| allowed_tags :=
               list_to_set (normalize (PyStr.splitlines_keepends text)) |}
  | inl (FileNotFoundError _) => inr {| allowed_tags := ∅ |}
  | inl e => inl (EOSError e)
  end.

Definition record_of (root skill_md : Path) : option SkillRecord :=
  match PyPath.relative_to skill_md root with
  | Some rel =>
      if String.eqb (PyPath.name skill_md) "SKILL.md" then
        let dir := removelast rel in
        Some {| skill_id := PyStr.join "/" dir;
                skill_path := skill_md;
                frontmatter := {| title := List.last dir ""; description := "";
                                  tags := [] |};
                description_snapshot := "";
                tag_issues := [];
                category_path := removelast dir |}
      else None
  | None => None
  end.

Definition scan (f : FS) (roots : list Path) (_ : TagsRegistry)
  : exn + ScanResult :=
  match List.find (fun r => negb (Fs.is_dir f r)) roots with
  | Some r => inl (EOSError (FileNotFoundError r))
  | None =>
      let found :=
        flat_map (fun r => omap (fun kv => record_of r (fst kv)) (map_to_list f))
          roots in
      inr {| tree := MkTreeNode [] found; skills := found |}
  end.

Definition save (f : FS) (p : Path) (_ : ScanResult) : option exn * FS :=
  match Fs.write_text f p "index" with
  | inl e => (Some (EOSError e), f)
  | inr f' => (None, f')
  end.

Definition collaborators : Collaborators :=
  {| normalize_tags := normalize;
     load_tags_registry := load_registry;
     load_index := fun _ _ => None;
     scan_skills := scan;
     save_index := save |}.

Definition dir (p : Path) : Path * Node := (p, NDir).
Definition file (p : Path) (content : string) : Path * Node := (p, NFile content).

(** A world with nothing loaded yet. *)
Definition world (entries : list (Path * Node)) : World :=
  {| fs := list_to_map entries; state_registry := None; state_scan := None;
     trace := [] |}.

Definition args (path description : string) : CreateArgs :=
  {| arg_path := path; arg_description := description; arg_tags := None;
     arg_instructions := None; arg_license := None; arg_metadata := None;
     arg_create_scripts_dir := false; arg_create_references_dir := false;
     arg_create_assets_dir := false |}.

Definition config (roots : list Path) : AppConfig :=
  {| roots := roots; cache_path := ["cache"; "index"]; tags_path := ["cache"; "tags"] |}.

End Sample.

(** The sample collaborators with a cache that holds [cached]. *)
Definition cached_collaborators (cached : ScanResult) : Collaborators :=
  {| normalize_tags := Sample.normalize;
     load_tags_registry := Sample.load_registry;
     load_index := fun _ _ => Some cached;
     scan_skills := Sample.scan;
     save_index := Sample.save |}.

(** ** The statements

    The predicates the properties below are stated with. *)

(** A skill path that [delete_skill] must leave alone: no root named
    [.skills] or [skills] contains it, or the first such root that contains
    it has an [imported] component between itself and the path. *)
Definition protected_path (skill_path : Path) (roots : list Path) : Prop :=
  (forall r, In r roots -> conventional_name r = true ->
             PyPath.relative_to skill_path r = None)
  \/ (exists pre root post rel,
        roots = pre ++ root :: post
        /\ (forall r, In r pre -> conventional_name r = true ->
                      PyPath.relative_to skill_path r = None)
        /\ conventional_name root = true
        /\ PyPath.relative_to skill_path root = Some rel
        /\ In "imported" rel).

(** The event is a change to the filesystem at [dir] or below it. *)
Definition touches_under (dir : Path) (ev : Event) : Prop :=
  match ev with
  | EvMkdir p | EvWrite p | EvRmtree p => PyPath.is_under dir p = true
  | _ => False
  end.

(** [target] is the first root of [roots] named [.skills] or [skills], or
    the first root when none has such a name. *)
Definition chosen_root (roots : list Path) (target : Path) : Prop :=
  (exists pre post,
     roots = pre ++ target :: post
     /\ conventional_name target = true
     /\ Forall (fun r => conventional_name r = false) pre)
  \/ (Forall (fun r => conventional_name r = false) roots
      /\ exists rest, roots = target :: rest).

(** The acceptance condition in the words of the specification, to be
    compared with [parse_skill_path]. *)
Module Claimed.

Definition is_lower (c : ascii) : bool :=
  (97 <=? PyStr.code c) && (PyStr.code c <=? 122).

Definition is_digit (c : ascii) : bool :=
  (48 <=? PyStr.code c) && (PyStr.code c <=? 57).

Definition is_hyphen (c : ascii) : bool := Ascii.eqb c "-".

Fixpoint all_chars (P : ascii -> bool) (s : string) : bool :=
  match s with
  | EmptyString => true
  | String c s' => P c && all_chars P s'
  end.

Definition first_char (s : string) : option ascii :=
  match s with
  | EmptyString => None
  | String c _ => Some c
  end.

Definition is_hyphen_opt (o : option ascii) : bool :=
  match o with Some c => is_hyphen c | None => false end.

Fixpoint consecutive_hyphens (s : string) : bool :=
  match s with
  | String a ((String b _) as s') =>
      (is_hyphen a && is_hyphen b) || consecutive_hyphens s'
  | _ => false
  end.

(** A non-empty string of at most 64 characters drawn from lowercase
    letters, digits and hyphens, with no leading, trailing or consecutive
    hyphens. *)
Definition valid_component (s : string) : bool :=
  negb (String.eqb s "")
  && (String.length s <=? 64)
  && all_chars (fun c => is_lower c || is_digit c || is_hyphen c) s
  && negb (is_hyphen_opt (first_char s))
  && negb (is_hyphen_opt (PyStr.last_char s))
  && negb (consecutive_hyphens s).

Definition whitespace_only (s : string) : bool := all_chars PyStr.isspace s.

(** The components left after splitting on ["/"] and dropping the
    whitespace-only ones. *)
Definition components (path : string) : list string :=
  List.filter (fun p => negb (whitespace_only p)) (PyStr.split "/" path).

Definition accepts_components (comps : list string) : bool :=
  match comps with
  | [] => false
  | _ => forallb valid_component comps
  end.

(** The claim as stated: the components are taken as they are. *)
Definition accepts (path : string) : bool := accepts_components (components path).

(** The claim as amended: each component is trimmed first. *)
Definition trimmed_components (path : string) : list string :=
  map PyStr.strip (components path).

Definition accepts_trimmed (path : string) : bool :=
  accepts_components (trimmed_components path).

End Claimed.

(** The order of [sorted] on strings. *)
Definition str_le (a b : string) : Prop := String.leb a b = true.

(** The three tools that change skill files. *)
Inductive MutationCall : Type :=
| CallUpdateTags (mode : string) (updates : option (list Update))
| CallCreateNewSkill (a : CreateArgs)
| CallDeleteExistingSkill (skill_id_arg : string) (confirm : bool).

Definition run_mutation `{Collaborators} (config : AppConfig) (call : MutationCall)
  : M Dict :=
  match call with
  | CallUpdateTags mode updates => update_tags config mode updates
  | CallCreateNewSkill a => create_new_skill config a
  | CallDeleteExistingSkill skill_id_arg confirm =>
      delete_existing_skill config skill_id_arg confirm
  end.

(** The changes, scans and saves of a trace that happen while the guard is
    not held; [held] tells whether it is held at the start. *)
Fixpoint unguarded (held : bool) (evs : list Event) : list Event :=
  match evs with
  | [] => []
  | EvAcquire :: rest => unguarded true rest
  | EvRelease :: rest => unguarded false rest
  | e :: rest => if held then unguarded held rest else e :: unguarded held rest
  end.

Definition not_lock (e : Event) : Prop := e <> EvAcquire /\ e <> EvRelease.

Definition fs_change (e : Event) : Prop :=
  match e with
  | EvMkdir _ | EvWrite _ | EvRmtree _ => True
  | _ => False
  end.

(** A rescan followed by a resave, as far as it got. *)
Definition refresh_shape (evs : list Event) : Prop :=
  evs = [] \/ evs = [EvScan] \/ evs = [EvScan; EvSave].

(** Every event that [m] adds to the trace satisfies [P]. *)
Definition emits (P : Event -> Prop) {A} (m : M A) : Prop :=
  forall w, exists evs, trace (snd (m w)) = trace w ++ evs /\ Forall P evs.

(** The events [m] adds are a rescan and resave, as far as they got. *)
Definition refreshes {A} (m : M A) : Prop :=
  forall w, exists refresh,
    trace (snd (m w)) = trace w ++ refresh /\ refresh_shape refresh.

(** The events [m] adds are filesystem changes, then a rescan and resave. *)
Definition changes_then_refreshes {A} (m : M A) : Prop :=
  forall w, exists changes refresh,
    trace (snd (m w)) = trace w ++ changes ++ refresh
    /\ Forall fs_change changes /\ refresh_shape refresh.

(** Nothing that exists in [f] is removed or changed in [f']. *)
Definition keeps_entries (f f' : FS) : Prop :=
  forall q x, Fs.lookup f q = Some x -> Fs.lookup f' q = Some x.

(** The two entries of the shared state are the same in both worlds. *)
Definition same_state (w w' : World) : Prop :=
  state_registry w' = state_registry w /\ state_scan w' = state_scan w.

(** [m] leaves the shared state as it finds it. *)
Definition keeps_state {A} (m : M A) : Prop :=
  forall w, same_state w (snd (m w)).

(** A text that holds no line boundary of [str.splitlines]. *)
Fixpoint no_linebreak (s : string) : bool :=
  match s with
  | EmptyString => true
  | String c s' => negb (PyStr.islinebreak c) && no_linebreak s'
  end.

(** The line [_apply_max_lines] puts after the lines it keeps. *)
Definition truncation_marker (more : nat) : string :=
  "... [truncated, " +:+ PyStr.str_of_nat more +:+ " more lines]".

(** A line that starts the section: a header whose text contains the
    name. *)
Definition starts_section (section_lower raw : string) : bool :=
  is_header raw && PyStr.contains section_lower (header_text raw).

(** The delimiter of the frontmatter with its line feed. *)
Definition delim_line : string := "---" +:+ PyStr.nl.

(** * Properties *)

(** ** The definitions at work *)

Example parse_nested :
  parse_skill_path "coding/python-helper" = (["coding"], "python-helper", None).
Proof. reflexivity. Qed.

Example parse_trimmed :
  parse_skill_path " a / b " = (["a"], "b", None).
Proof. reflexivity. Qed.

Example parse_bad :
  parse_skill_path "a//B" =
    ([], "", Some "Invalid path component 'B': Name must contain only lowercase letters, numbers, and hyphens").
Proof. reflexivity. Qed.

Example sample_create_trace :
  let w := Sample.world [Sample.dir ["cache"]; Sample.dir ["r"]; Sample.dir ["r"; "skills"]] in
  trace (snd (@create_new_skill Sample.collaborators (Sample.config [["r"; "skills"]])
                (Sample.args "coding/helper" "d") w))
  = [EvAcquire; EvScan; EvSave; EvRelease;
     EvMkdir ["r"; "skills"; "coding"; "helper"];
     EvWrite ["r"; "skills"; "coding"; "helper"; "SKILL.md"];
     EvScan; EvSave].
Proof. vm_compute. reflexivity. Qed.

(** ** Deleting *)

Ltac run_monad :=
  unfold bind, ret, raise, try_except, attempt, finally, emit, path_exists; simpl.

Lemma is_deletable_no_conventional skill_path roots :
  (forall r, In r roots -> conventional_name r = true ->
             PyPath.relative_to skill_path r = None) ->
  fst (is_deletable_skill skill_path roots) = false.
Proof.
  induction roots as [|root rest IH]; intros Hnone; simpl; [reflexivity|].
  destruct (PyPath.relative_to skill_path root) as [rel|] eqn:Hrel.
  - destruct (conventional_name root) eqn:Hconv.
    + rewrite (Hnone root) in Hrel by (simpl; auto). discriminate.
    + destruct (String.eqb _ _); [reflexivity|].
      apply IH. intros r Hr. apply Hnone. simpl; auto.
  - apply IH. intros r Hr. apply Hnone. simpl; auto.
Qed.

Lemma is_deletable_imported skill_path pre root post rel :
  (forall r, In r pre -> conventional_name r = true ->
             PyPath.relative_to skill_path r = None) ->
  conventional_name root = true ->
  PyPath.relative_to skill_path root = Some rel ->
  In "imported" rel ->
  fst (is_deletable_skill skill_path (pre ++ root :: post)) = false.
Proof.
  intros Hpre Hconv Hrel Himp.
  induction pre as [|r pre IH]; simpl.
  - rewrite Hrel, Hconv.
    assert (contains_imported rel = true) as ->; [|reflexivity].
    unfold contains_imported. apply existsb_exists.
    exists "imported". split; [exact Himp | reflexivity].
  - destruct (PyPath.relative_to skill_path r) as [rel'|] eqn:Hr.
    + destruct (conventional_name r) eqn:Hc.
      * rewrite (Hpre r) in Hr by (simpl; auto). discriminate.
      * destruct (String.eqb _ _); [reflexivity|].
        apply IH. intros r0 Hr0. apply Hpre. simpl; auto.
    + apply IH. intros r0 Hr0. apply Hpre. simpl; auto.
Qed.

Lemma delete_skill_not_deletable skill_path roots confirm w :
  Fs.exists_ (fs w) skill_path = true ->
  fst (is_deletable_skill skill_path roots) = false ->
  delete_skill skill_path roots confirm w
  = (Ret (error_dict "not_deletable" (snd (is_deletable_skill skill_path roots))), w).
Proof.
  intros Hex Hdel. unfold delete_skill. run_monad. rewrite Hex. simpl.
  destruct (is_deletable_skill skill_path roots) as [b reason].
  simpl in Hdel. subst b. reflexivity.
Qed.

(** What [is_deletable_skill] refuses, [delete_skill] leaves alone: for an
    existing skill path that lies under no root named [.skills] or
    [skills], or whose path relative to the first such root containing it
    has an [imported] component, [delete_skill] returns [ok=false] with
    error [not_deletable] and leaves the world, hence the filesystem, as it
    was, whatever [confirm] is. *)
Theorem delete_skill_protected skill_path roots confirm w :
  Fs.exists_ (fs w) skill_path = true ->
  protected_path skill_path roots ->
  exists reason,
    delete_skill skill_path roots confirm w
    = (Ret [("ok", VBool false); ("error", VStr "not_deletable");
            ("detail", VStr reason)], w).
Proof.
  intros Hex Hprot.
  exists (snd (is_deletable_skill skill_path roots)).
  apply delete_skill_not_deletable; [exact Hex|].
  destruct Hprot as [Hnone | (pre & root & post & rel & -> & Hpre & Hconv & Hrel & Himp)].
  - apply is_deletable_no_conventional. exact Hnone.
  - eapply is_deletable_imported; eauto.
Qed.

(** C9: for an existing, deletable skill, [delete_skill] with
    [confirm=false] returns [ok=false] with error [confirmation_required],
    carrying the skill path and its directory, and changes nothing. *)
Theorem delete_skill_preview skill_path roots w :
  Fs.exists_ (fs w) skill_path = true ->
  fst (is_deletable_skill skill_path roots) = true ->
  delete_skill skill_path roots false w
  = (Ret [ ("ok", VBool false);
           ("error", VStr "confirmation_required");
           ("detail", VStr "Set confirm=true to delete this skill");
           ("skill_path", VStr (PyPath.str skill_path));
           ("skill_dir", VStr (PyPath.str (PyPath.parent skill_path)));
           ("message", VStr "Preview mode: skill will NOT be deleted") ], w).
Proof.
  intros Hex Hdel. unfold delete_skill. run_monad. rewrite Hex. simpl.
  destruct (is_deletable_skill skill_path roots) as [b reason].
  simpl in Hdel. subst b. reflexivity.
Qed.

Lemma delete_skill_protected_witness :
  exists reason,
    delete_skill ["r"; "skills"; "imported"; "foo"; "SKILL.md"] [["r"; "skills"]] true
      (Sample.world
         [ Sample.dir ["r"]; Sample.dir ["r"; "skills"];
           Sample.dir ["r"; "skills"; "imported"];
           Sample.dir ["r"; "skills"; "imported"; "foo"];
           Sample.file ["r"; "skills"; "imported"; "foo"; "SKILL.md"] "---" ])
    = (Ret [("ok", VBool false); ("error", VStr "not_deletable");
            ("detail", VStr reason)],
       Sample.world
         [ Sample.dir ["r"]; Sample.dir ["r"; "skills"];
           Sample.dir ["r"; "skills"; "imported"];
           Sample.dir ["r"; "skills"; "imported"; "foo"];
           Sample.file ["r"; "skills"; "imported"; "foo"; "SKILL.md"] "---" ]).
Proof.
  apply delete_skill_protected.
  - vm_compute. reflexivity.
  - right. exists [], ["r"; "skills"], [], ["imported"; "foo"; "SKILL.md"].
    split; [reflexivity|]. split; [intros r []|].
    split; [reflexivity|]. split; [reflexivity|].
    simpl. left. reflexivity.
Defined.

(** C8: [delete_skill] removes an imported skill.  A root named [skills]
    lies below the [imported] directory of another root named [skills] and
    comes first in the list; [is_deletable_skill] answers at the first
    root that contains the path, where the relative path has no
    [imported] component, and never looks at the second one.  The skill,
    whose path relative to the root [/r/skills] has an [imported]
    component, is deleted with its directory. *)
Theorem delete_skill_removes_imported_skill :
  let inner := ["r"; "skills"; "imported"; "skills"] in
  let outer := ["r"; "skills"] in
  let skill := ["r"; "skills"; "imported"; "skills"; "foo"; "SKILL.md"] in
  let w := Sample.world
             [ Sample.dir ["r"]; Sample.dir outer;
               Sample.dir ["r"; "skills"; "imported"]; Sample.dir inner;
               Sample.dir ["r"; "skills"; "imported"; "skills"; "foo"];
               Sample.file skill "---" ] in
  let out := delete_skill skill [inner; outer] true w in
  Fs.exists_ (fs w) skill = true
  /\ In outer [inner; outer]
  /\ conventional_name outer = true
  /\ PyPath.relative_to skill outer = Some ["imported"; "skills"; "foo"; "SKILL.md"]
  /\ is_deletable_skill skill [inner; outer] = (true, "")
  /\ dict_get (match fst out with Ret d => d | Raise _ => [] end) "ok"
     = Some (VBool true)
  /\ Fs.exists_ (fs (snd out)) skill = false
  /\ Fs.exists_ (fs (snd out)) ["r"; "skills"; "imported"; "skills"; "foo"] = false.
Proof. vm_compute. repeat split; try reflexivity. right. left. reflexivity. Qed.

(** The same happens with one root: a skill file that sits in the root
    itself is deletable, its directory is the root, and the confirmed
    deletion removes the root with the imported skills below it. *)
Lemma delete_skill_at_root_removes_imported :
  let root := ["r"; "skills"] in
  let skill := ["r"; "skills"; "SKILL.md"] in
  let imported := ["r"; "skills"; "imported"; "foo"; "SKILL.md"] in
  let w := Sample.world
             [ Sample.dir ["r"]; Sample.dir root; Sample.file skill "---";
               Sample.dir ["r"; "skills"; "imported"];
               Sample.dir ["r"; "skills"; "imported"; "foo"];
               Sample.file imported "---" ] in
  let out := delete_skill skill [root] true w in
  Fs.exists_ (fs w) imported = true
  /\ fst (is_deletable_skill imported [root]) = false
  /\ dict_get (match fst out with Ret d => d | Raise _ => [] end) "ok"
     = Some (VBool true)
  /\ Fs.exists_ (fs (snd out)) imported = false
  /\ Fs.exists_ (fs (snd out)) root = false.
Proof. vm_compute. repeat split; reflexivity. Qed.

Lemma delete_skill_preview_witness :
  delete_skill ["r"; "skills"; "foo"; "SKILL.md"] [["r"; "skills"]] false
    (Sample.world
       [ Sample.dir ["r"]; Sample.dir ["r"; "skills"];
         Sample.dir ["r"; "skills"; "foo"];
         Sample.file ["r"; "skills"; "foo"; "SKILL.md"] "---" ])
  = (Ret [ ("ok", VBool false);
           ("error", VStr "confirmation_required");
           ("detail", VStr "Set confirm=true to delete this skill");
           ("skill_path", VStr "/r/skills/foo/SKILL.md");
           ("skill_dir", VStr "/r/skills/foo");
           ("message", VStr "Preview mode: skill will NOT be deleted") ],
     Sample.world
       [ Sample.dir ["r"]; Sample.dir ["r"; "skills"];
         Sample.dir ["r"; "skills"; "foo"];
         Sample.file ["r"; "skills"; "foo"; "SKILL.md"] "---" ]).
Proof.
  apply (delete_skill_preview ["r"; "skills"; "foo"; "SKILL.md"] [["r"; "skills"]]).
  - vm_compute. reflexivity.
  - vm_compute. reflexivity.
Defined.

(** ** Names that passed validation *)

Lemma name_char_not_slash c : name_char c = true -> Ascii.eqb c "/" = false.
Proof.
  intros Hc. destruct (Ascii.eqb_spec c "/") as [->|]; [|reflexivity].
  vm_compute in Hc. discriminate.
Qed.

Lemma name_run_split s :
  snd (name_run s) = "" \/ snd (name_run s) = PyStr.nl ->
  PyStr.split "/" s = [s].
Proof.
  induction s as [|c s IH]; intros Hrest; [reflexivity|].
  simpl in *. destruct (name_char c) eqn:Hc; simpl in Hrest.
  - rewrite (name_char_not_slash c Hc), (IH Hrest). reflexivity.
  - destruct Hrest as [Hrest|Hrest]; [discriminate|].
    injection Hrest as -> ->. reflexivity.
Qed.

Lemma re_match_name_split s :
  re_match_name s = true -> PyStr.split "/" s = [s].
Proof.
  unfold re_match_name. destruct (name_run s) as [some rest] eqn:Hrun.
  intros Hm. apply andb_true_iff in Hm as [_ Hm].
  apply name_run_split. rewrite Hrun. simpl.
  apply orb_true_iff in Hm as [Hm|Hm]; apply String.eqb_eq in Hm; auto.
Qed.

Lemma re_match_name_head s :
  re_match_name s = true ->
  exists c s', s = String c s' /\ name_char c = true.
Proof.
  unfold re_match_name. destruct s as [|c s']; simpl; [discriminate|].
  destruct (name_char c) eqn:Hc; simpl; [eauto | discriminate].
Qed.

Lemma validate_re_match s :
  fst (validate_skill_name_part s) = true -> re_match_name s = true.
Proof.
  unfold validate_skill_name_part.
  destruct (negb (PyStr.truthy s)); [discriminate|].
  destruct (64 <? String.length s); [discriminate|].
  destruct (re_match_name s); [reflexivity | discriminate].
Qed.

(** Joining a validated name to a path appends one component. *)
Lemma div_valid_part p s :
  fst (validate_skill_name_part s) = true -> PyPath.div p s = p ++ [s].
Proof.
  intros Hv. apply validate_re_match in Hv.
  destruct (re_match_name_head s Hv) as (c & s' & -> & Hc).
  unfold PyPath.div, PyPath.of_str.
  rewrite (re_match_name_split _ Hv).
  cbn [PyStr.startswith]. rewrite Ascii.eqb_sym, (name_char_not_slash c Hc).
  cbn [andb List.filter String.eqb negb].
  destruct s' as [|d s'']; [|destruct (Ascii.eqb c "."); reflexivity].
  destruct (Ascii.eqb_spec c ".") as [->|]; [vm_compute in Hc; discriminate|].
  reflexivity.
Qed.

Lemma first_invalid_none parts :
  first_invalid_part parts = None ->
  Forall (fun s => fst (validate_skill_name_part s) = true) parts.
Proof.
  induction parts as [|part rest IH]; simpl; intros Hnone; [constructor|].
  destruct (validate_skill_name_part part) as [ok msg] eqn:Hv.
  destruct ok; simpl in Hnone; [|discriminate].
  constructor; [rewrite Hv; reflexivity | auto].
Qed.

Lemma first_invalid_some parts msg :
  first_invalid_part parts = Some msg -> PyStr.truthy msg = true.
Proof.
  induction parts as [|part rest IH]; simpl; [discriminate|].
  destruct (validate_skill_name_part part) as [ok m].
  destruct ok; simpl; [exact IH|].
  intros [= <-]. reflexivity.
Qed.

Lemma parse_error_truthy path cat name msg :
  parse_skill_path path = (cat, name, Some msg) -> PyStr.truthy msg = true.
Proof.
  unfold parse_skill_path.
  destruct (negb (PyStr.truthy path)); [intros [= <- <- <-]; reflexivity|].
  destruct (path_parts path) as [|p ps] eqn:Hparts;
    [intros [= <- <- <-]; reflexivity|].
  destruct (first_invalid_part (p :: ps)) as [m|] eqn:Hinv; [|discriminate].
  intros [= <- <- <-]. eapply first_invalid_some; eauto.
Qed.

Lemma parse_success_parts path cat name :
  parse_skill_path path = (cat, name, None) ->
  path_parts path = cat ++ [name]
  /\ Forall (fun s => fst (validate_skill_name_part s) = true) (cat ++ [name]).
Proof.
  unfold parse_skill_path.
  destruct (negb (PyStr.truthy path)); [discriminate|].
  destruct (path_parts path) as [|p ps] eqn:Hparts; [discriminate|].
  destruct (first_invalid_part (p :: ps)) as [m|] eqn:Hinv; [discriminate|].
  intros [= <- <-].
  assert (p :: ps = removelast (p :: ps) ++ [List.last (p :: ps) ""]) as Heq
    by (apply app_removelast_last; discriminate).
  change (p :: ps = removelast (p :: ps) ++ [List.last (p :: ps) ""]
          /\ Forall (fun s => fst (validate_skill_name_part s) = true)
               (removelast (p :: ps) ++ [List.last (p :: ps) ""])).
  rewrite <- Heq. split; [reflexivity|]. apply first_invalid_none. exact Hinv.
Qed.

Lemma fold_div_valid parts p :
  Forall (fun s => fst (validate_skill_name_part s) = true) parts ->
  fold_left PyPath.div parts p = p ++ parts.
Proof.
  revert p. induction parts as [|s parts IH]; intros p Hall; simpl.
  - rewrite app_nil_r. reflexivity.
  - inversion Hall as [|? ? Hs Hrest]; subst.
    rewrite (div_valid_part p s Hs), (IH _ Hrest), <- app_assoc. reflexivity.
Qed.

Lemma skill_dir_of_parsed path cat name target :
  parse_skill_path path = (cat, name, None) ->
  skill_dir_of target cat name = target ++ cat ++ [name].
Proof.
  intros Hparse. destruct (parse_success_parts _ _ _ Hparse) as [_ Hall].
  apply Forall_app in Hall as [Hcat Hname]. inversion Hname; subst.
  unfold skill_dir_of. rewrite (fold_div_valid cat target Hcat).
  rewrite div_valid_part by assumption. rewrite <- app_assoc. reflexivity.
Qed.

(** ** Creating *)

Lemma first_conventional_some roots target :
  first_conventional roots = Some target ->
  exists pre post,
    roots = pre ++ target :: post
    /\ conventional_name target = true
    /\ Forall (fun r => conventional_name r = false) pre.
Proof.
  induction roots as [|r rest IH]; simpl; [discriminate|].
  destruct (conventional_name r) eqn:Hr.
  - intros [= ->]. exists [], rest. auto.
  - intros Hrest. destruct (IH Hrest) as (pre & post & -> & Hc & Hpre).
    exists (r :: pre), post. auto.
Qed.

Lemma first_conventional_none roots :
  first_conventional roots = None ->
  Forall (fun r => conventional_name r = false) roots.
Proof.
  induction roots as [|r rest IH]; simpl; [constructor|].
  destruct (conventional_name r) eqn:Hr; [discriminate|]. auto.
Qed.

Lemma select_target_root_chosen r rest :
  exists target,
    select_target_root (r :: rest) = Some target
    /\ chosen_root (r :: rest) target.
Proof.
  unfold select_target_root.
  destruct (first_conventional (r :: rest)) as [t|] eqn:Hfirst.
  - exists t. split; [reflexivity|]. left. apply first_conventional_some. exact Hfirst.
  - exists r. split; [reflexivity|]. right.
    split; [apply first_conventional_none; exact Hfirst | eauto].
Qed.

Lemma relative_to_app dir rest : PyPath.relative_to (dir ++ rest) dir = Some rest.
Proof.
  induction dir as [|c dir IH]; simpl; [reflexivity|].
  rewrite String.eqb_refl. exact IH.
Qed.

Lemma is_under_app dir rest : PyPath.is_under dir (dir ++ rest) = true.
Proof. unfold PyPath.is_under. rewrite relative_to_app. reflexivity. Qed.

Lemma is_under_refl dir : PyPath.is_under dir dir = true.
Proof. rewrite <- (app_nil_r dir) at 2. apply is_under_app. Qed.

Lemma fs_lookup_insert_ne (f : FS) p q x :
  p <> q -> q <> [] -> Fs.lookup (<[p := x]> f) q = Fs.lookup f q.
Proof.
  intros Hne Hq. destruct q as [|c q]; [contradiction|].
  unfold Fs.lookup. apply lookup_insert_ne. exact Hne.
Qed.

Lemma fs_lookup_insert_eq (f : FS) p x :
  p <> [] -> Fs.lookup (<[p := x]> f) p = Some x.
Proof.
  intros Hp. destruct p as [|c p]; [contradiction|].
  unfold Fs.lookup. apply lookup_insert_eq.
Qed.

(** One [mkdir(exist_ok=True)] below [dir] keeps what is at another path. *)
Lemma mkdir_exist_ok_run dir leaf q x w :
  dir ++ [leaf] <> q -> q <> [] ->
  Fs.lookup (fs w) q = Some x ->
  exists out w' evs,
    mkdir_exist_ok (dir ++ [leaf]) w = (out, w')
    /\ trace w' = trace w ++ evs
    /\ Forall (touches_under dir) evs
    /\ Fs.lookup (fs w') q = Some x.
Proof.
  intros Hne Hq Hx. unfold mkdir_exist_ok, fs_op, Fs.mkdir, Fs.os_mkdir.
  assert (Forall (touches_under dir) [EvMkdir (dir ++ [leaf])]) as Hev
    by (constructor; [apply is_under_app | constructor]).
  destruct (Fs.lookup (fs w) (dir ++ [leaf])) as [n|];
    [|destruct (Fs.lookup (fs w) (PyPath.parent (dir ++ [leaf]))) as [[c| |]|]];
    try destruct (true && Fs.is_dir (fs w) (dir ++ [leaf]));
    (eexists _, _, [_] + eexists _, _, []);
    solve [ split; [reflexivity|];
            cbn [fs with_fs with_event trace]; rewrite ?app_nil_r;
            repeat split; auto; rewrite fs_lookup_insert_ne; auto ].
Qed.

Lemma optional_dir_run (wanted : bool) dir leaf q x w :
  dir ++ [leaf] <> q -> q <> [] ->
  Fs.lookup (fs w) q = Some x ->
  exists out w' evs,
    (if wanted then mkdir_exist_ok (dir ++ [leaf]) else ret tt) w = (out, w')
    /\ trace w' = trace w ++ evs
    /\ Forall (touches_under dir) evs
    /\ Fs.lookup (fs w') q = Some x.
Proof.
  intros Hne Hq Hx. destruct wanted.
  - apply mkdir_exist_ok_run; assumption.
  - exists (Ret tt), w, []. rewrite app_nil_r. auto.
Qed.

Lemma create_optional_dirs_run dir a q x w :
  (forall leaf, In leaf ["scripts"; "references"; "assets"] -> dir ++ [leaf] <> q) ->
  q <> [] ->
  Fs.lookup (fs w) q = Some x ->
  exists out w' evs,
    create_optional_dirs dir a w = (out, w')
    /\ trace w' = trace w ++ evs
    /\ Forall (touches_under dir) evs
    /\ Fs.lookup (fs w') q = Some x.
Proof.
  intros Hne Hq Hx. unfold create_optional_dirs, bind.
  change (PyPath.div dir "scripts") with (dir ++ ["scripts"]).
  change (PyPath.div dir "references") with (dir ++ ["references"]).
  change (PyPath.div dir "assets") with (dir ++ ["assets"]).
  destruct (optional_dir_run (arg_create_scripts_dir a) dir "scripts" q x w
              (Hne "scripts" ltac:(simpl; auto)) Hq Hx) as (o1 & w1 & e1 & -> & Ht1 & He1 & Hx1).
  destruct o1 as [[]|exc]; [|exists (Raise exc), w1, e1; auto].
  destruct (optional_dir_run (arg_create_references_dir a) dir "references" q x w1
              (Hne "references" ltac:(simpl; auto)) Hq Hx1) as (o2 & w2 & e2 & -> & Ht2 & He2 & Hx2).
  assert (trace w2 = trace w ++ (e1 ++ e2)) as Ht12
    by (rewrite Ht2, Ht1, <- app_assoc; reflexivity).
  assert (Forall (touches_under dir) (e1 ++ e2)) as He12
    by (apply Forall_app; auto).
  destruct o2 as [[]|exc]; [|exists (Raise exc), w2, (e1 ++ e2); auto].
  destruct (optional_dir_run (arg_create_assets_dir a) dir "assets" q x w2
              (Hne "assets" ltac:(simpl; auto)) Hq Hx2) as (o3 & w3 & e3 & -> & Ht3 & He3 & Hx3).
  exists o3, w3, ((e1 ++ e2) ++ e3).
  split; [reflexivity|]. split; [rewrite Ht3, Ht12, <- app_assoc; reflexivity|].
  split; [apply Forall_app; auto | exact Hx3].
Qed.

Lemma write_text_lookup (f f' : FS) p content :
  p <> [] -> Fs.write_text f p content = inr f' ->
  Fs.lookup f' p = Some (NFile content).
Proof.
  intros Hp. unfold Fs.write_text.
  destruct (Fs.lookup f p) as [[c| |]|].
  - intros [= <-]. apply fs_lookup_insert_eq. exact Hp.
  - discriminate.
  - discriminate.
  - destruct (Fs.lookup f (PyPath.parent p)) as [[c| |]|]; try discriminate;
      intros [= <-]; apply fs_lookup_insert_eq; exact Hp.
Qed.

Lemma truthy_nonempty s : PyStr.truthy s = true <-> s <> "".
Proof. destruct s; simpl; split; congruence. Qed.

Lemma dict_ok_error error detail : dict_ok (error_dict error detail) = false.
Proof. reflexivity. Qed.

Section Creating.
Context `{Collaborators}.

(** C5 (amended): a call of [create_skill] with an empty description
  changes nothing and returns [ok=false]: with error
  [invalid_description] when the path is valid, with error [invalid_path]
  when it is not, the path being checked first. *)
Theorem create_skill_empty_description roots a w :
arg_description a = "" ->
exists d,
  create_skill roots a w = (Ret d, w)
  /\ dict_ok d = false
  /\ dict_get d "error"
     = Some (VStr (match snd (parse_skill_path (arg_path a)) with
                   | None => "invalid_description"
                   | Some _ => "invalid_path"
                   end)).
Proof.
intros Hdesc. unfold create_skill.
destruct (parse_skill_path (arg_path a)) as [[cat name] [msg|]] eqn:Hparse.
- cbn [opt_truthy]. rewrite (parse_error_truthy _ _ _ _ Hparse).
  eexists. split; [reflexivity|]. split; reflexivity.
- cbn [opt_truthy]. rewrite Hdesc. cbn [PyStr.truthy negb orb].
  eexists. split; [reflexivity|]. split; reflexivity.
Qed.

(** C7 (amended): once the path and the description have passed validation,
  [create_skill] fails with [no_root] when the root list is empty, and
  otherwise works in the first root named [.skills] or [skills], or in
  the first root when there is none: every change it makes is at the
  skill directory below that root, and on success the file is there. *)
Theorem create_skill_target roots a w cat name :
parse_skill_path (arg_path a) = (cat, name, None) ->
arg_description a <> "" ->
String.length (arg_description a) <= 1024 ->
match roots with
| [] =>
    create_skill roots a w
    = (Ret (error_dict "no_root" "No skill root directory configured"), w)
| _ :: _ =>
    exists target d w' evs,
      chosen_root roots target
      /\ create_skill roots a w = (Ret d, w')
      /\ trace w' = trace w ++ evs
      /\ Forall (touches_under (target ++ cat ++ [name])) evs
      /\ (dict_ok d = true ->
          dict_get d "skill_dir"
          = Some (VStr (PyPath.str (target ++ cat ++ [name])))
          /\ In (EvWrite (target ++ cat ++ [name; "SKILL.md"])) evs
          /\ exists content,
               Fs.lookup (fs w') (target ++ cat ++ [name; "SKILL.md"])
               = Some (NFile content))
end.
Proof.
intros Hparse Hdesc Hlen. unfold create_skill. rewrite Hparse.
cbn [opt_truthy].
apply truthy_nonempty in Hdesc. rewrite Hdesc.
apply Nat.ltb_ge in Hlen. rewrite Hlen. cbn [negb orb].
destruct roots as [|r rest]; [reflexivity|].
destruct (select_target_root_chosen r rest) as (target & -> & Hchosen).
rewrite (skill_dir_of_parsed _ _ _ target Hparse).
exists target.
set (dir := target ++ cat ++ [name]).
change (PyPath.div dir "SKILL.md") with (dir ++ ["SKILL.md"]).
assert (target ++ cat ++ [name; "SKILL.md"] = dir ++ ["SKILL.md"]) as ->
  by (unfold dir; rewrite <- !app_assoc; reflexivity).
set (md := dir ++ ["SKILL.md"]).
assert (md <> []) as Hmd by (unfold md; destruct dir; discriminate).
unfold bind at 1, path_exists.
destruct (Fs.exists_ (fs w) md).
{ eexists _, w, []. rewrite app_nil_r.
  split; [exact Hchosen|]. split; [reflexivity|]. split; [reflexivity|].
  split; [constructor|]. rewrite dict_ok_error. discriminate. }
unfold bind at 1, attempt at 1, try_except at 1, bind at 1, mkdir_parents, fs_op.
destruct (Fs.mkdir_parents (fs w) dir) as [e|f1].
{ eexists _, w, []. rewrite app_nil_r.
  split; [exact Hchosen|]. split; [reflexivity|]. split; [reflexivity|].
  split; [constructor|]. rewrite dict_ok_error. discriminate. }
cbn [ret].
unfold bind at 1, attempt at 1, try_except at 1, bind at 1, write_text, fs_op.
cbn [fs with_fs with_event].
destruct (Fs.write_text f1 md _) as [e|f2] eqn:Hwrite.
{ unfold bind, rmtree_ignore_errors, try_except, rmtree.
  cbn [fs with_fs with_event].
  destruct (Fs.rmtree f1 dir) as [[e'|] f3]; cbn [ret].
  - eexists _, _, [EvMkdir dir].
    split; [exact Hchosen|]. split; [reflexivity|].
    cbn [trace with_fs with_event]. split; [reflexivity|].
    split; [|rewrite dict_ok_error; discriminate].
    constructor; [apply is_under_refl | constructor].
  - eexists _, _, [EvMkdir dir; EvRmtree dir].
    split; [exact Hchosen|]. split; [reflexivity|].
    cbn [trace with_fs with_event].
    split; [rewrite <- app_assoc; reflexivity|].
    split; [|rewrite dict_ok_error; discriminate].
    repeat constructor; apply is_under_refl. }
cbn [ret].
set (w2 := with_event (with_fs (with_event (with_fs w f1) (EvMkdir dir)) f2)
             (EvWrite md)).
assert (Fs.lookup (fs w2) md = Some (NFile
          (generate_skill_markdown name (arg_description a)
             (normalize_tags (default [] (arg_tags a))) (arg_instructions a)
             (arg_license a) (arg_metadata a)))) as Hlook
  by (apply (write_text_lookup f1 f2 md _ Hmd Hwrite)).
destruct (fun Hne => create_optional_dirs_run dir a md _ w2 Hne Hmd Hlook)
  as (out & w3 & evs & Hrun & Htr & Hev & Hlook3).
{ intros leaf Hin Heq. unfold md in Heq. apply app_inj_tail in Heq as [_ Heq].
  simpl in Hin. destruct Hin as [<-|[<-|[<-|[]]]]; discriminate. }
unfold bind at 1, attempt at 1, try_except at 1, bind at 1. rewrite Hrun.
assert (trace w3 = trace w ++ [EvMkdir dir; EvWrite md] ++ evs) as Htr3.
{ rewrite Htr. unfold w2. cbn [trace with_fs with_event].
  rewrite <- !app_assoc. reflexivity. }
assert (Forall (touches_under dir) ([EvMkdir dir; EvWrite md] ++ evs)) as Hev3.
{ apply Forall_app. split; [|exact Hev].
  repeat constructor; [apply is_under_refl | apply is_under_app]. }
destruct out as [[]|exc]; cbn [ret bind].
- eexists _, w3, _. split; [exact Hchosen|]. split; [reflexivity|].
  split; [exact Htr3|]. split; [exact Hev3|]. intros _.
  split; [reflexivity|]. split; [simpl; auto|]. eauto.
- eexists _, w3, _. split; [exact Hchosen|]. split; [reflexivity|].
  split; [exact Htr3|]. split; [exact Hev3|].
  rewrite dict_ok_error. discriminate.
Qed.

End Creating.

Lemma create_skill_empty_description_witness :
  exists d,
    @create_skill Sample.collaborators [["r"; "skills"]] (Sample.args "coding/helper" "")
      (Sample.world [Sample.dir ["r"]; Sample.dir ["r"; "skills"]])
    = (Ret d, Sample.world [Sample.dir ["r"]; Sample.dir ["r"; "skills"]])
    /\ dict_ok d = false
    /\ dict_get d "error" = Some (VStr "invalid_description").
Proof.
  apply (@create_skill_empty_description Sample.collaborators
           [["r"; "skills"]] (Sample.args "coding/helper" "")).
  reflexivity.
Defined.

(** C5 as stated fails when the path is invalid as well: the path is
    checked first and the error is [invalid_path]. *)
Lemma create_skill_empty_description_counterexample :
  arg_description (Sample.args "" "") = ""
  /\ @create_skill Sample.collaborators [["r"; "skills"]] (Sample.args "" "")
       (Sample.world [Sample.dir ["r"]; Sample.dir ["r"; "skills"]])
     = (Ret (error_dict "invalid_path" "Path cannot be empty"),
        Sample.world [Sample.dir ["r"]; Sample.dir ["r"; "skills"]]).
Proof. split; reflexivity. Qed.

Lemma create_skill_target_witness :
  exists target d w' evs,
    chosen_root [["r"; "data"]; ["r"; ".skills"]; ["r"; "skills"]] target
    /\ @create_skill Sample.collaborators
         [["r"; "data"]; ["r"; ".skills"]; ["r"; "skills"]]
         (Sample.args "coding/helper" "d")
         (Sample.world [Sample.dir ["r"]; Sample.dir ["r"; ".skills"]])
       = (Ret d, w')
    /\ trace w' = [] ++ evs
    /\ Forall (touches_under (target ++ ["coding"] ++ ["helper"])) evs
    /\ (dict_ok d = true ->
        dict_get d "skill_dir"
        = Some (VStr (PyPath.str (target ++ ["coding"] ++ ["helper"])))
        /\ In (EvWrite (target ++ ["coding"] ++ ["helper"; "SKILL.md"])) evs
        /\ exists content,
             Fs.lookup (fs w') (target ++ ["coding"] ++ ["helper"; "SKILL.md"])
             = Some (NFile content)).
Proof.
  apply (@create_skill_target Sample.collaborators
           [["r"; "data"]; ["r"; ".skills"]; ["r"; "skills"]]
           (Sample.args "coding/helper" "d")
           (Sample.world [Sample.dir ["r"]; Sample.dir ["r"; ".skills"]])
           ["coding"] "helper").
  - reflexivity.
  - discriminate.
  - simpl. lia.
Defined.

(** C7 as stated fails on an empty root list when the path is invalid:
    the path is checked before a root is looked for, and the error is
    [invalid_path]. *)
Lemma create_skill_target_counterexample :
  @create_skill Sample.collaborators [] (Sample.args "Not A Name" "d")
    (Sample.world [])
  = (Ret (error_dict "invalid_path"
            "Invalid path component 'Not A Name': Name must contain only lowercase letters, numbers, and hyphens"),
     Sample.world []).
Proof. reflexivity. Qed.

Example create_skill_prefers_conventional :
  fst (@create_skill Sample.collaborators
         [["r"; "data"]; ["r"; ".skills"]; ["r"; "skills"]]
         (Sample.args "coding/helper" "d")
         (Sample.world [Sample.dir ["r"]; Sample.dir ["r"; ".skills"]]))
  = Ret [ ("ok", VBool true);
          ("skill_path", VStr "/r/.skills/coding/helper/SKILL.md");
          ("skill_dir", VStr "/r/.skills/coding/helper");
          ("skill_name", VStr "helper");
          ("category_path", VList [VStr "coding"]);
          ("message", VStr "Skill created successfully at /r/.skills/coding/helper/SKILL.md") ].
Proof. vm_compute. reflexivity. Qed.

(** ** Skill paths *)

Lemma rstrip_empty s :
  PyStr.rstrip s = "" <-> Claimed.all_chars PyStr.isspace s = true.
Proof.
  induction s as [|c s IH]; simpl; [tauto|].
  destruct (PyStr.rstrip s) as [|d r] eqn:Hr.
  - destruct (PyStr.isspace c); simpl.
    + split; [intros _; apply IH; reflexivity | reflexivity].
    + split; discriminate.
  - split; [discriminate|]. intros Hall.
    apply andb_true_iff in Hall as [_ Hall]. apply IH in Hall. discriminate.
Qed.

Lemma rstrip_last s c :
  PyStr.last_char (PyStr.rstrip s) = Some c -> PyStr.isspace c = false.
Proof.
  revert c. induction s as [|a s IH]; intros c; simpl; [discriminate|].
  destruct (PyStr.rstrip s) as [|d r] eqn:Hr.
  - destruct (PyStr.isspace a) eqn:Ha; simpl; [discriminate|].
    intros [= <-]. exact Ha.
  - intros Hlast. apply IH. exact Hlast.
Qed.

Lemma lstrip_empty s :
  PyStr.lstrip s = "" <-> Claimed.all_chars PyStr.isspace s = true.
Proof.
  induction s as [|c s IH]; simpl; [tauto|].
  destruct (PyStr.isspace c); simpl; [exact IH|]. split; discriminate.
Qed.

Lemma last_char_cons c s :
  s <> "" -> PyStr.last_char (String c s) = PyStr.last_char s.
Proof. destruct s; [congruence | reflexivity]. Qed.

Lemma lstrip_last s :
  PyStr.lstrip s <> "" -> PyStr.last_char (PyStr.lstrip s) = PyStr.last_char s.
Proof.
  induction s as [|c s IH]; simpl; [congruence|].
  destruct (PyStr.isspace c); [|reflexivity].
  intros Hne. rewrite (IH Hne). symmetry. apply last_char_cons.
  intros ->. apply Hne. reflexivity.
Qed.

Lemma last_char_all_space s c :
  PyStr.last_char s = Some c -> PyStr.isspace c = false ->
  Claimed.all_chars PyStr.isspace s = false.
Proof.
  induction s as [|a s IH]; simpl; [discriminate|].
  destruct s as [|b s'].
  - intros [= ->] ->. reflexivity.
  - intros Hlast Hc. rewrite (IH Hlast Hc). apply andb_false_r.
Qed.

Lemma last_char_none s : PyStr.last_char s = None -> s = "".
Proof.
  induction s as [|a s IH]; [reflexivity|]. simpl.
  destruct s; [discriminate|]. intros Hl. specialize (IH Hl). discriminate.
Qed.

(** The test [if p.strip()] keeps the components that are not made of
    whitespace only. *)
Lemma strip_truthy s :
  PyStr.truthy (PyStr.strip s) = negb (Claimed.whitespace_only s).
Proof.
  unfold PyStr.strip, Claimed.whitespace_only.
  destruct (Claimed.all_chars PyStr.isspace s) eqn:Hall.
  - apply rstrip_empty in Hall. rewrite Hall. reflexivity.
  - destruct (PyStr.lstrip (PyStr.rstrip s)) eqn:Hl; [|reflexivity].
    exfalso. apply lstrip_empty in Hl.
    destruct (PyStr.last_char (PyStr.rstrip s)) as [c|] eqn:Hlast.
    + rewrite (last_char_all_space _ c Hlast (rstrip_last _ _ Hlast)) in Hl.
      discriminate.
    + apply last_char_none in Hlast. apply rstrip_empty in Hlast. congruence.
Qed.

(** A trimmed string does not end with whitespace. *)
Lemma strip_last s c :
  PyStr.last_char (PyStr.strip s) = Some c -> PyStr.isspace c = false.
Proof.
  unfold PyStr.strip. intros Hlast.
  destruct (PyStr.lstrip (PyStr.rstrip s)) eqn:Hl; [discriminate|].
  rewrite <- Hl in Hlast. rewrite lstrip_last in Hlast by (rewrite Hl; discriminate).
  eapply rstrip_last; eauto.
Qed.

Lemma code_hyphen c : (PyStr.code c =? 45) = Ascii.eqb c "-".
Proof.
  destruct (Ascii.eqb_spec c "-") as [->|Hne]; [reflexivity|].
  apply Nat.eqb_neq. intros Hcode. apply Hne.
  rewrite <- (ascii_nat_embedding c). unfold PyStr.code in Hcode.
  rewrite Hcode. reflexivity.
Qed.

Lemma name_char_claimed c :
  name_char c = Claimed.is_lower c || Claimed.is_digit c || Claimed.is_hyphen c.
Proof.
  unfold name_char, Claimed.is_lower, Claimed.is_digit, Claimed.is_hyphen.
  cbv zeta. rewrite code_hyphen. reflexivity.
Qed.

Lemma all_chars_ext P Q s :
  (forall c, P c = Q c) -> Claimed.all_chars P s = Claimed.all_chars Q s.
Proof.
  intros Hext. induction s as [|c s IH]; simpl; [reflexivity|].
  rewrite Hext, IH. reflexivity.
Qed.

Lemma name_run_all s :
  snd (name_run s) = "" <-> Claimed.all_chars name_char s = true.
Proof.
  induction s as [|c s IH]; simpl; [tauto|].
  destruct (name_char c); simpl; [exact IH|]. split; discriminate.
Qed.

Lemma name_run_newline s :
  snd (name_run s) = PyStr.nl ->
  PyStr.last_char s = Some (ascii_of_nat 10).
Proof.
  induction s as [|c s IH]; simpl; [discriminate|].
  destruct (name_char c); simpl.
  - intros Hrest. specialize (IH Hrest).
    destruct s; [discriminate | exact IH].
  - intros [= -> ->]. reflexivity.
Qed.

(** On a string that does not end with whitespace the pattern accepts
    exactly the non-empty strings over its class. *)
Lemma re_match_name_trimmed s :
  (forall c, PyStr.last_char s = Some c -> PyStr.isspace c = false) ->
  re_match_name s = negb (String.eqb s "") && Claimed.all_chars name_char s.
Proof.
  intros Hlast. unfold re_match_name.
  destruct (name_run s) as [some rest] eqn:Hrun.
  destruct s as [|c s']; [injection Hrun as <- <-; reflexivity|].
  cbn [String.eqb negb andb].
  destruct (Claimed.all_chars name_char (String c s')) eqn:Hall.
  - assert (rest = "") as ->
      by (apply name_run_all in Hall; rewrite Hrun in Hall; exact Hall).
    simpl in Hall, Hrun. apply andb_true_iff in Hall as [Hc _].
    rewrite Hc in Hrun. injection Hrun as <-. reflexivity.
  - assert (String.eqb rest "" = false) as ->.
    { apply String.eqb_neq. intros ->.
      assert (snd (name_run (String c s')) = "") as Hsnd by (rewrite Hrun; reflexivity).
      apply name_run_all in Hsnd. congruence. }
    assert (String.eqb rest PyStr.nl = false) as ->.
    { apply String.eqb_neq. intros ->.
      assert (snd (name_run (String c s')) = PyStr.nl) as Hsnd
        by (rewrite Hrun; reflexivity).
      apply name_run_newline in Hsnd. apply Hlast in Hsnd.
      vm_compute in Hsnd. discriminate. }
    apply andb_false_r.
Qed.

Lemma contains_consecutive s :
  PyStr.contains "--" s = Claimed.consecutive_hyphens s.
Proof.
  induction s as [|a s IH]; [reflexivity|].
  destruct s as [|b r].
  - simpl. rewrite andb_false_r. reflexivity.
  - change (PyStr.contains "--" (String a (String b r)))
      with ((Ascii.eqb "-" a && (Ascii.eqb "-" b && true))
            || PyStr.contains "--" (String b r)).
    rewrite IH, andb_true_r.
    change (Claimed.consecutive_hyphens (String a (String b r)))
      with ((Claimed.is_hyphen a && Claimed.is_hyphen b)
            || Claimed.consecutive_hyphens (String b r)).
    unfold Claimed.is_hyphen.
    rewrite (Ascii.eqb_sym a), (Ascii.eqb_sym b). reflexivity.
Qed.

(** On a string that does not end with whitespace, the checks of
    [validate_skill_name_part] are the claimed ones. *)
Lemma validate_trimmed s :
  (forall c, PyStr.last_char s = Some c -> PyStr.isspace c = false) ->
  fst (validate_skill_name_part s) = Claimed.valid_component s.
Proof.
  intros Hlast. unfold validate_skill_name_part, Claimed.valid_component.
  rewrite (re_match_name_trimmed s Hlast), contains_consecutive.
  rewrite (all_chars_ext _ _ s name_char_claimed).
  destruct s as [|c s']; [reflexivity|].
  cbn [PyStr.truthy negb String.eqb andb].
  rewrite Nat.ltb_antisym.
  destruct (String.length (String c s') <=? 64); [|reflexivity].
  cbn [negb andb].
  destruct (Claimed.all_chars _ (String c s')); [|reflexivity].
  cbn [negb andb PyStr.startswith Claimed.first_char Claimed.is_hyphen_opt].
  unfold PyStr.endswith_char, Claimed.is_hyphen_opt, Claimed.is_hyphen.
  rewrite (Ascii.eqb_sym "-" c), andb_true_r.
  destruct (Ascii.eqb c "-"); [reflexivity|]. cbn [orb negb andb].
  destruct (PyStr.last_char (String c s')) as [d|];
    [destruct (Ascii.eqb d "-")|]; cbn [negb andb];
    destruct (Claimed.consecutive_hyphens (String c s')); reflexivity.
Qed.

Lemma path_parts_trimmed path : path_parts path = Claimed.trimmed_components path.
Proof.
  unfold path_parts, Claimed.trimmed_components, Claimed.components.
  f_equal. apply List.filter_ext. intros p. apply strip_truthy.
Qed.

Lemma first_invalid_forallb parts :
  first_invalid_part parts = None
  <-> forallb (fun s => fst (validate_skill_name_part s)) parts = true.
Proof.
  induction parts as [|part rest IH]; simpl; [tauto|].
  destruct (validate_skill_name_part part) as [ok msg].
  destruct ok; simpl; [exact IH|]. split; discriminate.
Qed.

Lemma forallb_validate_trimmed comps :
  forallb (fun s => fst (validate_skill_name_part s)) (map PyStr.strip comps)
  = forallb Claimed.valid_component (map PyStr.strip comps).
Proof.
  induction comps as [|p comps IH]; simpl; [reflexivity|].
  rewrite IH, (validate_trimmed (PyStr.strip p) (strip_last p)). reflexivity.
Qed.

(** C10 (amended): [parse_skill_path] accepts a path exactly when, after
    splitting on ["/"], dropping the whitespace-only components and
    trimming the others, at least one component remains and every one is a
    valid name; the last trimmed component is then the skill name and the
    ones before it, in order, the category path. *)
Theorem parse_skill_path_accepts path :
  (snd (parse_skill_path path) = None <-> Claimed.accepts_trimmed path = true)
  /\ (Claimed.accepts_trimmed path = true ->
      parse_skill_path path
      = (removelast (Claimed.trimmed_components path),
         List.last (Claimed.trimmed_components path) "", None)).
Proof.
  unfold parse_skill_path, Claimed.accepts_trimmed.
  rewrite path_parts_trimmed.
  destruct path as [|c path']; [split; [split|]; discriminate|].
  cbn [PyStr.truthy negb].
  set (path := String c path').
  pose proof (first_invalid_forallb (Claimed.trimmed_components path)) as Hiff.
  unfold Claimed.trimmed_components in Hiff at 2.
  rewrite forallb_validate_trimmed in Hiff.
  fold (Claimed.trimmed_components path) in Hiff.
  unfold Claimed.accepts_components.
  destruct (Claimed.trimmed_components path) as [|p ps] eqn:Hcomps;
    [split; [split|]; discriminate|].
  destruct (first_invalid_part (p :: ps)) as [msg|] eqn:Hinv.
  - split; [split; [discriminate|]|]; intros Hall;
      apply Hiff in Hall; discriminate.
  - split; [split; [intros _; apply Hiff; reflexivity | reflexivity]|].
    reflexivity.
Qed.

(** C10 as stated fails on a component with surrounding whitespace: the
    component is not a valid name as it is, yet the path is accepted, and
    the skill name returned is the trimmed component. *)
Lemma parse_skill_path_accepts_counterexample :
  Claimed.components " a/b " = [" a"; "b "]
  /\ Claimed.accepts " a/b " = false
  /\ parse_skill_path " a/b " = (["a"], "b", None).
Proof. repeat split; reflexivity. Qed.

(** ** Updating the tags of a skill file *)

Lemma find_end_index_none i lines :
  Forall (fun line => PyStr.strip line <> "---") lines ->
  find_end_index i lines = None.
Proof.
  intros Hall. revert i. induction Hall as [|line lines Hline _ IH]; intros i;
    simpl; [reflexivity|].
  unfold is_delim. apply String.eqb_neq in Hline. rewrite Hline. apply IH.
Qed.

(** C4: when the text of a skill file starts with a delimiter line and no
    later line is a delimiter, [_update_tags_in_skill_md] raises
    [ValueError("unterminated_frontmatter")] and leaves the world, hence
    the file, as it was. *)
Theorem update_tags_unterminated_frontmatter
    skill_md_path new_tags w content open_delim after :
  Fs.lookup (fs w) skill_md_path = Some (NFile content) ->
  PyStr.splitlines_keepends (PyStr.universal_newlines content)
  = open_delim :: after ->
  PyStr.strip open_delim = "---" ->
  Forall (fun line => PyStr.strip line <> "---") after ->
  _update_tags_in_skill_md skill_md_path new_tags w
  = (Raise (ValueError "unterminated_frontmatter"), w).
Proof.
  intros Hfile Hlines Hopen Hafter.
  unfold _update_tags_in_skill_md, bind, read_text, Fs.read_text.
  rewrite Hfile, Hlines.
  assert (is_delim open_delim = true) as ->
    by (unfold is_delim; rewrite Hopen; reflexivity).
  cbn [negb].
  rewrite (find_end_index_none 1 after Hafter). reflexivity.
Qed.

Lemma update_tags_unterminated_frontmatter_witness :
  _update_tags_in_skill_md ["r"; "skills"; "foo"; "SKILL.md"] ["coding"]
    (Sample.world
       [ Sample.dir ["r"]; Sample.dir ["r"; "skills"];
         Sample.dir ["r"; "skills"; "foo"];
         Sample.file ["r"; "skills"; "foo"; "SKILL.md"]
           ("---" +:+ PyStr.nl +:+ "name: foo" +:+ PyStr.nl +:+ "tags: [a]") ])
  = (Raise (ValueError "unterminated_frontmatter"),
     Sample.world
       [ Sample.dir ["r"]; Sample.dir ["r"; "skills"];
         Sample.dir ["r"; "skills"; "foo"];
         Sample.file ["r"; "skills"; "foo"; "SKILL.md"]
           ("---" +:+ PyStr.nl +:+ "name: foo" +:+ PyStr.nl +:+ "tags: [a]") ]).
Proof.
  apply (update_tags_unterminated_frontmatter
           ["r"; "skills"; "foo"; "SKILL.md"] ["coding"] _
           ("---" +:+ PyStr.nl +:+ "name: foo" +:+ PyStr.nl +:+ "tags: [a]")
           ("---" +:+ PyStr.nl) ["name: foo" +:+ PyStr.nl; "tags: [a]"]).
  - vm_compute. reflexivity.
  - vm_compute. reflexivity.
  - vm_compute. reflexivity.
  - repeat constructor; intros Heq; vm_compute in Heq; discriminate.
Defined.

Example update_tags_rewrites_line :
  let md := ["r"; "skills"; "foo"; "SKILL.md"] in
  let w := Sample.world
             [ Sample.dir ["r"]; Sample.dir ["r"; "skills"];
               Sample.dir ["r"; "skills"; "foo"];
               Sample.file md
                 (PyStr.join PyStr.nl ["---"; "name: foo"; "Tags: [a]"; "---"; "body"]) ] in
  Fs.lookup (fs (snd (_update_tags_in_skill_md md ["coding"; "python"] w))) md
  = Some (NFile (PyStr.join PyStr.nl
                   ["---"; "name: foo"; "tags: [coding, python]"; "---"; "body"])).
Proof. vm_compute. reflexivity. Qed.

(** ** Tag updates against an empty registry *)

Section EmptyRegistry.
Context `{Collaborators}.

Lemma filter_not_allowed_empty (tags_tuple : list string) :
  List.filter (fun t => negb (bool_decide (t ∈ (∅ : gset string)))) tags_tuple
  = tags_tuple.
Proof.
  induction tags_tuple as [|t rest IH]; [reflexivity|].
  cbn [List.filter].
  rewrite bool_decide_eq_false_2 by apply not_elem_of_empty.
  cbn [negb]. rewrite IH. reflexivity.
Qed.

(** With an empty allowed set the loop of [update_tags] rejects every
    update that names a skill and has tags, whatever the tags are. *)
Lemma apply_updates_empty_registry updates w :
  Forall (fun upd =>
            PyStr.strip (default "" (upd_skill_id upd)) <> ""
            /\ normalize_tags (default [] (upd_tags upd)) <> []) updates ->
  apply_updates ∅ updates w
  = (Ret (map (fun upd =>
                 VDict [ ("ok", VBool false);
                         ("skill_id",
                          VStr (PyStr.strip (default "" (upd_skill_id upd))));
                         ("error", VStr "invalid_tags");
                         ("invalid",
                          VStrs (normalize_tags (default [] (upd_tags upd)))) ])
            updates), w).
Proof.
  intros Hall. induction Hall as [|upd rest [Hid Htags] _ IH]; [reflexivity|].
  cbn [apply_updates map]. unfold bind at 1. unfold apply_update.
  apply truthy_nonempty in Hid. rewrite Hid. cbn [negb].
  rewrite filter_not_allowed_empty.
  destruct (normalize_tags (default [] (upd_tags upd))) as [|t ts] eqn:Hnorm;
    [congruence|].
  cbn [ret]. unfold bind at 1. rewrite IH. reflexivity.
Qed.

End EmptyRegistry.

(** C2 (the code departs from it): with no vocabulary file the registry
    is empty, and [update_tags] in apply mode rejects an update whose
    normalized tag list is non-empty with error [invalid_tags]; the skill
    file keeps its tags. *)
Theorem update_tags_empty_registry_rejects :
  let md := ["r"; "skills"; "foo"; "SKILL.md"] in
  let text := PyStr.join PyStr.nl ["---"; "name: foo"; "tags: [old]"; "---"; "body"] in
  let w := Sample.world
             [ Sample.dir ["cache"]; Sample.dir ["r"]; Sample.dir ["r"; "skills"];
               Sample.dir ["r"; "skills"; "foo"]; Sample.file md text ] in
  let out := @update_tags Sample.collaborators (Sample.config [["r"; "skills"]])
               "apply"
               (Some [ {| upd_skill_id := Some "foo"; upd_tags := Some ["Coding"] |} ])
               w in
  Fs.lookup (fs w) ["cache"; "tags"] = None
  /\ (state_registry (snd out)) = Some {| allowed_tags := ∅ |}
  /\ fst out
     = Ret [ ("ok", VBool true);
             ("results",
              VList [ VDict [ ("ok", VBool false); ("skill_id", VStr "foo");
                              ("error", VStr "invalid_tags");
                              ("invalid", VList [VStr "coding"]) ] ]) ]
  /\ Fs.lookup (fs (snd out)) md = Some (NFile text).
Proof. vm_compute. repeat split; reflexivity. Qed.

(** ** Creation that fails after the skill file is written *)

(** C3 (the code departs from it): when the skill directory already holds
    a regular file named [scripts], [create_new_skill] with
    [create_scripts_dir] writes [SKILL.md], fails on the optional
    directory, and returns without rescanning or saving: no scan or save
    follows the write, and the skill list in memory still lacks the new
    skill. *)
Theorem create_new_skill_stale_after_optional_failure :
  let dir := ["r"; "skills"; "foo"] in
  let w := Sample.world
             [ Sample.dir ["cache"]; Sample.dir ["r"]; Sample.dir ["r"; "skills"];
               Sample.dir dir; Sample.file (dir ++ ["scripts"]) "#!/bin/sh" ] in
  let a := {| arg_path := "foo"; arg_description := "d"; arg_tags := None;
              arg_instructions := None; arg_license := None; arg_metadata := None;
              arg_create_scripts_dir := true; arg_create_references_dir := false;
              arg_create_assets_dir := false |} in
  let out := @create_new_skill Sample.collaborators (Sample.config [["r"; "skills"]]) a w in
  fst out
  = Ret (error_dict "mkdir_optional_failed"
           "[Errno 17] File exists: '/r/skills/foo/scripts'")
  /\ Fs.exists_ (fs w) (dir ++ ["SKILL.md"]) = false
  /\ Fs.exists_ (fs (snd out)) (dir ++ ["SKILL.md"]) = true
  /\ trace (snd out)
     = [ EvAcquire; EvScan; EvSave; EvRelease;
         EvMkdir dir; EvWrite (dir ++ ["SKILL.md"]) ]
  /\ option_map skills (state_scan (snd out)) = Some [].
Proof. vm_compute. repeat split; reflexivity. Qed.

(** ** Listing the tree *)

Lemma str_le_cases a b : str_le a b <-> a = b \/ String_as_OT.lt a b.
Proof.
  unfold str_le, String.leb. rewrite <- String_as_OT.cmp_lt, <- String_as_OT.cmp_eq.
  unfold String_as_OT.cmp. destruct (String.compare a b); intuition discriminate.
Qed.

#[local] Instance str_le_trans : Transitive str_le.
Proof.
  intros a b c Hab Hbc. apply str_le_cases in Hab, Hbc. apply str_le_cases.
  destruct Hab as [->|Hab]; [exact Hbc|].
  destruct Hbc as [<-|Hbc]; [auto|].
  right. eapply String_as_OT.lt_trans; eauto.
Qed.

#[local] Instance str_le_antisym : AntiSymm (=) str_le.
Proof. intros a b Hab Hba. apply String.leb_antisym; assumption. Qed.

Lemma sorted_strongly l : StronglySorted str_le (sorted l).
Proof.
  apply (StringSort.StronglySorted_sort l).
  intros a b c Hab Hbc. exact (str_le_trans a b c Hab Hbc).
Qed.

Lemma sorted_permutation l : Permutation (sorted l) l.
Proof. symmetry. apply StringSort.Permuted_sort. Qed.

(** The result of [sorted] depends on the elements only, not on the order
    they are stored in. *)
Lemma sorted_order_independent l1 l2 :
  Permutation l1 l2 -> sorted l1 = sorted l2.
Proof.
  intros Hperm. apply (StronglySorted_unique str_le).
  - apply sorted_strongly.
  - apply sorted_strongly.
  - rewrite !sorted_permutation. exact Hperm.
Qed.

Example sorted_by_code_point :
  sorted ["b"; "a-long"; "a"; "Z"; "10"; "9"] = ["10"; "9"; "Z"; "a"; "a-long"; "b"].
Proof. reflexivity. Qed.

Section Listing.
Context `{Collaborators}.
Variable config : AppConfig.

(** C6: when the path argument resolves to a node of the tree held in
  memory, [list_skill_tree] returns the names of the node's child
  categories in sorted order: the list is ordered, holds exactly the keys
  of the children mapping, and is the same whatever order the mapping
  stores them in. *)
Theorem list_skill_tree_sorted path w w1 scan node :
_ensure_state_loaded config w = (Ret tt, w1) ->
state_scan w1 = Some scan ->
_find_node (tree scan) (_parse_path_arg path) = Some node ->
exists categories,
  list_skill_tree config path w
  = (Ret [ ("ok", VBool true);
           ("path", VStrs (_parse_path_arg path));
           ("categories", VStrs categories);
           ("skills", VList (map _summarize_skill (node_skills node))) ], w1)
  /\ StronglySorted str_le categories
  /\ Permutation categories (map fst (children node))
  /\ (forall stored,
        Permutation stored (map fst (children node)) ->
        sorted stored = categories).
Proof.
intros Hensure Hscan Hnode.
exists (sorted (map fst (children node))).
split; [|split; [apply sorted_strongly|split; [apply sorted_permutation|]]].
- unfold list_skill_tree, bind. rewrite Hensure.
  unfold get_scan. rewrite Hscan, Hnode. reflexivity.
- intros stored Hperm. apply sorted_order_independent. exact Hperm.
Qed.

End Listing.

Lemma list_skill_tree_sorted_witness :
  exists categories,
    @list_skill_tree Sample.collaborators (Sample.config [["r"; "skills"]])
      (Some "coding")
      {| fs := ∅; state_registry := Some {| allowed_tags := ∅ |};
         state_scan :=
           Some {| tree :=
                     MkTreeNode
                       [ ("coding",
                          MkTreeNode [ ("web", MkTreeNode [] []);
                                       ("python", MkTreeNode [] []);
                                       ("go", MkTreeNode [] []) ] []) ] [];
                   skills := [] |};
         trace := [] |}
    = (Ret [ ("ok", VBool true);
             ("path", VStrs (_parse_path_arg (Some "coding")));
             ("categories", VStrs categories);
             ("skills", VList (map _summarize_skill (node_skills
                (MkTreeNode [ ("web", MkTreeNode [] []);
                              ("python", MkTreeNode [] []);
                              ("go", MkTreeNode [] []) ] [])))) ],
       {| fs := ∅; state_registry := Some {| allowed_tags := ∅ |};
          state_scan :=
            Some {| tree :=
                      MkTreeNode
                        [ ("coding",
                           MkTreeNode [ ("web", MkTreeNode [] []);
                                        ("python", MkTreeNode [] []);
                                        ("go", MkTreeNode [] []) ] []) ] [];
                    skills := [] |};
          trace := [EvAcquire; EvRelease] |})
    /\ StronglySorted str_le categories
    /\ Permutation categories ["web"; "python"; "go"]
    /\ (forall stored,
          Permutation stored ["web"; "python"; "go"] -> sorted stored = categories).
Proof.
  apply (@list_skill_tree_sorted Sample.collaborators
           (Sample.config [["r"; "skills"]]) (Some "coding") _ _
           {| tree :=
                MkTreeNode
                  [ ("coding",
                     MkTreeNode [ ("web", MkTreeNode [] []);
                                  ("python", MkTreeNode [] []);
                                  ("go", MkTreeNode [] []) ] []) ] [];
              skills := [] |}).
  - reflexivity.
  - reflexivity.
  - reflexivity.
Defined.

Example list_skill_tree_categories :
  fst (@list_skill_tree Sample.collaborators (Sample.config [["r"; "skills"]])
         (Some "coding")
         {| fs := ∅; state_registry := Some {| allowed_tags := ∅ |};
            state_scan :=
              Some {| tree :=
                        MkTreeNode
                          [ ("coding",
                             MkTreeNode [ ("web", MkTreeNode [] []);
                                          ("python", MkTreeNode [] []);
                                          ("go", MkTreeNode [] []) ] []) ] [];
                      skills := [] |};
            trace := [] |})
  = Ret [ ("ok", VBool true);
          ("path", VList [VStr "coding"]);
          ("categories", VList [VStr "go"; VStr "python"; VStr "web"]);
          ("skills", VList []) ].
Proof. reflexivity. Qed.

(** ** The guard and the mutations *)

Lemma emits_silent P {A} (m : M A) :
  (forall w, trace (snd (m w)) = trace w) -> emits P m.
Proof. intros Hm w. exists []. rewrite app_nil_r. auto. Qed.

Lemma emits_ret P {A} (a : A) : emits P (ret a).
Proof. apply emits_silent. reflexivity. Qed.

Lemma emits_raise P {A} e : emits P (@raise A e).
Proof. apply emits_silent. reflexivity. Qed.

Lemma emits_bind P {A B} (m : M A) (k : A -> M B) :
  emits P m -> (forall a, emits P (k a)) -> emits P (bind m k).
Proof.
  intros Hm Hk w. unfold bind.
  destruct (Hm w) as (e1 & Ht1 & He1).
  destruct (m w) as [[a|exc] w1]; simpl in Ht1.
  - destruct (Hk a w1) as (e2 & Ht2 & He2). exists (e1 ++ e2).
    rewrite Ht2, Ht1, <- app_assoc. split; [reflexivity | apply Forall_app; auto].
  - exists e1. auto.
Qed.

Lemma emits_try_except P {A} (m : M A) (h : exn -> M A) :
  emits P m -> (forall e, emits P (h e)) -> emits P (try_except m h).
Proof.
  intros Hm Hh w. unfold try_except.
  destruct (Hm w) as (e1 & Ht1 & He1).
  destruct (m w) as [[a|exc] w1]; simpl in Ht1.
  - exists e1. auto.
  - destruct (Hh exc w1) as (e2 & Ht2 & He2). exists (e1 ++ e2).
    rewrite Ht2, Ht1, <- app_assoc. split; [reflexivity | apply Forall_app; auto].
Qed.

Lemma emits_attempt P {A} (m : M unit) (h : exn -> M A) :
  emits P m -> (forall e, emits P (h e)) -> emits P (attempt m h).
Proof.
  intros Hm Hh. unfold attempt. apply emits_try_except.
  - apply emits_bind; [exact Hm | intros; apply emits_ret].
  - intros e. apply emits_bind; [apply Hh | intros; apply emits_ret].
Qed.

Lemma emits_fs_op P op ev : P ev -> emits P (fs_op op ev).
Proof.
  intros Hev w. unfold fs_op. destruct (op (fs w)) as [e|f].
  - exists []. rewrite app_nil_r. auto.
  - exists [ev]. auto.
Qed.

Lemma emits_rmtree P p : P (EvRmtree p) -> emits P (rmtree p).
Proof.
  intros Hev w. unfold rmtree. destruct (Fs.rmtree (fs w) p) as [[e|] f].
  - exists []. rewrite app_nil_r. auto.
  - exists [EvRmtree p]. auto.
Qed.

Lemma emits_read_text P p : emits P (read_text p).
Proof.
  apply emits_silent. intros w. unfold read_text.
  destruct (Fs.read_text (fs w) p); reflexivity.
Qed.

Lemma emits_get_scan P : emits P get_scan.
Proof.
  apply emits_silent. intros w. unfold get_scan.
  destruct (state_scan w); reflexivity.
Qed.

Lemma emits_get_registry P : emits P get_registry.
Proof.
  apply emits_silent. intros w. unfold get_registry.
  destruct (state_registry w); reflexivity.
Qed.

Lemma emits_weaken (P Q : Event -> Prop) {A} (m : M A) :
  (forall e, P e -> Q e) -> emits P m -> emits Q m.
Proof.
  intros HPQ Hm w. destruct (Hm w) as (evs & Ht & He).
  exists evs. split; [exact Ht|]. eapply Forall_impl; eauto.
Qed.

Ltac emits_step :=
  first
    [ apply emits_ret | apply emits_raise
    | apply emits_read_text | apply emits_get_scan | apply emits_get_registry
    | apply emits_fs_op; exact I | apply emits_rmtree; exact I
    | apply emits_silent; reflexivity
    | apply emits_attempt; [|intros ?]
    | apply emits_try_except; [|intros ?]
    | apply emits_bind; [|intros ?]
    | match goal with
      | |- emits _ (if ?b then _ else _) => destruct b
      | |- emits _ (match ?x with _ => _ end) => destruct x
      | |- emits _ (let '(_, _) := ?x in _) => destruct x
      end ].

Ltac emits_auto := repeat emits_step.

Lemma delete_skill_emits skill_path roots confirm :
  emits fs_change (delete_skill skill_path roots confirm).
Proof.
  unfold delete_skill, path_exists. emits_auto.
Qed.

Lemma update_tags_in_skill_md_emits p new_tags :
  emits fs_change (_update_tags_in_skill_md p new_tags).
Proof.
  unfold _update_tags_in_skill_md, write_text. emits_auto.
Qed.

Section Guard.
Context `{Collaborators}.
Variable config : AppConfig.

Lemma create_skill_emits roots a : emits fs_change (create_skill roots a).
Proof.
  unfold create_skill, create_optional_dirs, rmtree_ignore_errors, path_exists,
    mkdir_parents, mkdir_exist_ok, write_text.
  destruct (parse_skill_path (arg_path a)) as [[cat name] error].
  emits_auto.
Qed.

Lemma apply_updates_emits allowed updates :
  emits fs_change (apply_updates allowed updates).
Proof.
  induction updates as [|upd rest IH]; cbn [apply_updates]; [apply emits_ret|].
  apply emits_bind; [|intros r; apply emits_bind; [exact IH | intros; apply emits_ret]].
  unfold apply_update.
  repeat first [apply update_tags_in_skill_md_emits | emits_step].
Qed.

Lemma rescan_and_save_refresh w :
  exists refresh,
    trace (snd (rescan_and_save config w)) = trace w ++ refresh
    /\ refresh_shape refresh.
Proof.
  unfold rescan_and_save, bind, get_registry, call_scan_skills, set_scan,
    get_scan, call_save_index.
  destruct (state_registry w) as [registry|];
    [|exists []; rewrite app_nil_r; split; [reflexivity | left; reflexivity]].
  destruct (scan_skills (fs w) (roots config) registry) as [e|scan];
    [exists []; rewrite app_nil_r; split; [reflexivity | left; reflexivity]|].
  cbn [state_scan fs with_event].
  destruct (save_index (fs w) (cache_path config) scan) as [[e|] f].
  - exists [EvScan]. split; [reflexivity | right; left; reflexivity].
  - exists [EvScan; EvSave]. cbn [snd trace with_fs with_event].
    rewrite <- app_assoc. split; [reflexivity | right; right; reflexivity].
Qed.

(** [_ensure_state_loaded] takes the guard, works, and gives it back. *)
Lemma ensure_state_loaded_trace w :
  exists mid,
    trace (snd (_ensure_state_loaded config w))
    = trace w ++ EvAcquire :: mid ++ [EvRelease]
    /\ Forall not_lock mid.
Proof.
  unfold _ensure_state_loaded, with_lock, bind at 1, emit at 1.
  set (w1 := with_event w EvAcquire).
  set (body := bind state_is_loaded _).
  assert (emits not_lock body) as Hbody.
  { unfold body, state_is_loaded, call_load_tags_registry, call_load_index,
      call_scan_skills, call_save_index, set_registry, set_scan.
    apply emits_bind; [apply emits_silent; reflexivity|].
    intros loaded. destruct loaded; [apply emits_ret|].
    apply emits_bind.
    { apply emits_silent. intros w0.
      destruct (load_tags_registry _ _); reflexivity. }
    intros registry. apply emits_bind; [apply emits_silent; reflexivity|].
    intros cached. apply emits_bind.
    - destruct cached as [scan|]; [apply emits_ret|].
      apply emits_bind.
      + intros w0. destruct (scan_skills _ _ _).
        * exists []. rewrite app_nil_r. auto.
        * exists [EvScan]. split; [reflexivity|].
          repeat constructor; discriminate.
      + intros scan. apply emits_bind; [|intros; apply emits_ret].
        intros w0. destruct (save_index _ _ _) as [[e|] f].
        * exists []. rewrite app_nil_r. auto.
        * exists [EvSave]. split; [reflexivity|].
          repeat constructor; discriminate.
    - intros scan. apply emits_bind; [apply emits_silent; reflexivity|].
      intros _. apply emits_silent. reflexivity. }
  destruct (Hbody w1) as (mid & Htrace & Hmid). exists mid.
  split; [|exact Hmid].
  unfold finally, emit. destruct (body w1) as [[a|e] w2];
    cbn [snd trace with_event] in *; rewrite Htrace; unfold w1;
    cbn [trace with_event]; rewrite <- !app_assoc; reflexivity.
Qed.

End Guard.

Lemma refreshes_silent {A} (m : M A) :
  (forall w, trace (snd (m w)) = trace w) -> refreshes m.
Proof.
  intros Hm w. exists []. rewrite app_nil_r. split; [apply Hm | left; reflexivity].
Qed.

Lemma refreshes_then_ret {A B} (m : M A) (b : B) :
  refreshes m -> refreshes (bind m (fun _ => ret b)).
Proof.
  intros Hm w. destruct (Hm w) as (refresh & Ht & Hr). exists refresh.
  split; [|exact Hr]. unfold bind, ret. destruct (m w) as [[a|e] w1]; exact Ht.
Qed.

Lemma changes_then_refreshes_silent {A B} (m : M A) (k : A -> M B) :
  (forall w, trace (snd (m w)) = trace w) ->
  (forall a, changes_then_refreshes (k a)) ->
  changes_then_refreshes (bind m k).
Proof.
  intros Hm Hk w. unfold bind. specialize (Hm w).
  destruct (m w) as [[a|e] w1]; simpl in Hm.
  - destruct (Hk a w1) as (changes & refresh & Ht & Hc & Hr).
    exists changes, refresh. rewrite Ht, Hm. auto.
  - exists [], []. simpl. rewrite app_nil_r. repeat split; auto. left; reflexivity.
Qed.

Lemma changes_then_refreshes_bind {A B} (m : M A) (k : A -> M B) :
  emits fs_change m -> (forall a, refreshes (k a)) ->
  changes_then_refreshes (bind m k).
Proof.
  intros Hm Hk w. unfold bind. destruct (Hm w) as (changes & Ht & Hc).
  destruct (m w) as [[a|e] w1]; simpl in Ht.
  - destruct (Hk a w1) as (refresh & Ht2 & Hr). exists changes, refresh.
    rewrite Ht2, Ht, <- app_assoc. auto.
  - exists changes, []. rewrite app_nil_r. repeat split; auto. left; reflexivity.
Qed.

Lemma changes_then_refreshes_ret {A} (a : A) : changes_then_refreshes (ret a).
Proof.
  intros w. exists [], []. simpl. rewrite app_nil_r.
  repeat split; auto. left; reflexivity.
Qed.

Lemma unguarded_held mid rest :
  Forall not_lock mid -> unguarded true (mid ++ rest) = unguarded true rest.
Proof.
  intros Hmid. induction Hmid as [|e mid [Ha Hr] _ IH]; [reflexivity|].
  destruct e; try contradiction; exact IH.
Qed.

Lemma unguarded_free post :
  Forall not_lock post -> unguarded false post = post.
Proof.
  intros Hpost. induction Hpost as [|e post [Ha Hr] _ IH]; [reflexivity|].
  destruct e; try contradiction; simpl; rewrite IH; reflexivity.
Qed.

Lemma fs_change_not_lock e : fs_change e -> not_lock e.
Proof. destruct e; simpl; intros []; split; discriminate. Qed.

Lemma refresh_shape_not_lock refresh :
  refresh_shape refresh -> Forall not_lock refresh.
Proof.
  intros [-> | [-> | ->]]; repeat constructor; discriminate.
Qed.

Section Serialization.
Context `{Collaborators}.
Variable config : AppConfig.

Lemma refresh_if_ok (result : Dict) :
  refreshes (bind (if dict_ok result then rescan_and_save config else ret tt)
               (fun _ => ret result)).
Proof.
  apply refreshes_then_ret. destruct (dict_ok result).
  - intros w. apply rescan_and_save_refresh.
  - apply refreshes_silent. reflexivity.
Qed.

(** What each mutation does once [_ensure_state_loaded] has returned. *)
Lemma mutation_body_trace (call : MutationCall) (w0 : World) :
  forall w, _ensure_state_loaded config w = (Ret tt, w0) ->
  exists changes refresh,
    trace (snd (run_mutation config call w)) = trace w0 ++ changes ++ refresh
    /\ Forall fs_change changes /\ refresh_shape refresh.
Proof.
  intros w Hensure. destruct call as [mode updates | a | sid confirm];
    cbn [run_mutation].
  - unfold update_tags, bind at 1. rewrite Hensure.
    destruct (String.eqb _ "list").
    { apply changes_then_refreshes_silent; [|intros; apply changes_then_refreshes_ret].
      intros w1. unfold get_scan. destruct (state_scan w1); reflexivity. }
    destruct (negb _); [apply changes_then_refreshes_ret|].
    destruct updates as [[|upd rest]|]; try apply changes_then_refreshes_ret.
    apply changes_then_refreshes_silent.
    { intros w1. unfold get_registry. destruct (state_registry w1); reflexivity. }
    intros registry. apply changes_then_refreshes_bind.
    + apply apply_updates_emits.
    + intros results. apply refreshes_then_ret.
      intros w1. apply rescan_and_save_refresh.
  - unfold create_new_skill, bind at 1. rewrite Hensure.
    apply changes_then_refreshes_bind; [apply create_skill_emits|].
    intros result. apply refresh_if_ok.
  - unfold delete_existing_skill, bind at 1. rewrite Hensure.
    apply changes_then_refreshes_silent.
    { intros w1. unfold get_scan. destruct (state_scan w1); reflexivity. }
    intros scan. destruct (List.find _ _) as [skill|];
      [|apply changes_then_refreshes_ret].
    apply changes_then_refreshes_bind; [apply delete_skill_emits|].
    intros result. apply refresh_if_ok.
Qed.

Lemma mutation_starts_with_ensure (call : MutationCall) w e w0 :
  _ensure_state_loaded config w = (Raise e, w0) ->
  run_mutation config call w = (Raise e, w0).
Proof.
  intros Hensure. destruct call; cbn [run_mutation];
    unfold update_tags, create_new_skill, delete_existing_skill, bind at 1;
    rewrite Hensure; reflexivity.
Qed.

(** C1 (amended): in every mutation tool the guard is taken and released
  by [_ensure_state_loaded] alone; the filesystem changes of the
  mutation, then its rescan, then its resave all come after the release
  and the guard is not taken again, so none of them runs under it. *)
Theorem mutation_runs_after_release (call : MutationCall) (w : World) :
exists mid changes refresh,
  trace (snd (_ensure_state_loaded config w))
  = trace w ++ EvAcquire :: mid ++ [EvRelease]
  /\ trace (snd (run_mutation config call w))
     = trace w ++ (EvAcquire :: mid ++ [EvRelease]) ++ changes ++ refresh
  /\ Forall not_lock mid
  /\ Forall fs_change changes
  /\ refresh_shape refresh
  /\ unguarded false ((EvAcquire :: mid ++ [EvRelease]) ++ changes ++ refresh)
     = changes ++ refresh.
Proof.
destruct (ensure_state_loaded_trace config w) as (mid & Hensure & Hmid).
assert (forall changes refresh,
          Forall fs_change changes -> refresh_shape refresh ->
          unguarded false ((EvAcquire :: mid ++ [EvRelease]) ++ changes ++ refresh)
          = changes ++ refresh) as Hunguarded.
{ intros changes refresh Hc Hr. cbn [app unguarded].
  rewrite <- app_assoc, (unguarded_held mid _ Hmid). cbn [app unguarded].
  apply unguarded_free. apply Forall_app. split.
  - eapply Forall_impl; [exact Hc | exact fs_change_not_lock].
  - apply refresh_shape_not_lock. exact Hr. }
destruct (_ensure_state_loaded config w) as [[[]|e] w0] eqn:Hrun.
- destruct (mutation_body_trace call w0 w Hrun) as (changes & refresh & Ht & Hc & Hr).
  exists mid, changes, refresh. simpl in Hensure.
  rewrite Ht, Hensure, <- !app_assoc. repeat split; auto.
- exists mid, [], []. rewrite (mutation_starts_with_ensure call w e w0 Hrun).
  simpl in Hensure. simpl snd. rewrite Hensure, !app_nil_r.
  repeat split; auto; [left; reflexivity|].
  rewrite <- (app_nil_r (EvAcquire :: mid ++ [EvRelease])) at 1.
  apply (Hunguarded [] []); [constructor | left; reflexivity].
Qed.

End Serialization.

(** C1 as stated fails: in a call of [create_new_skill] the directory is
    made, the file written, the tree rescanned and the cache saved after
    the guard has been released. *)
Lemma mutation_unguarded_counterexample :
  let w := Sample.world [Sample.dir ["cache"]; Sample.dir ["r"]; Sample.dir ["r"; "skills"]] in
  let out := @run_mutation Sample.collaborators (Sample.config [["r"; "skills"]])
               (CallCreateNewSkill (Sample.args "coding/helper" "d")) w in
  dict_ok (match fst out with Ret d => d | Raise _ => [] end) = true
  /\ trace (snd out)
     = [ EvAcquire; EvScan; EvSave; EvRelease;
         EvMkdir ["r"; "skills"; "coding"; "helper"];
         EvWrite ["r"; "skills"; "coding"; "helper"; "SKILL.md"];
         EvScan; EvSave ]
  /\ unguarded false (trace (snd out))
     = [ EvMkdir ["r"; "skills"; "coding"; "helper"];
         EvWrite ["r"; "skills"; "coding"; "helper"; "SKILL.md"];
         EvScan; EvSave ].
Proof. vm_compute. repeat split; reflexivity. Qed.

(** * Further properties *)

(** ** Deleting, in full *)



(** Without [confirm], [delete_skill] leaves the world as it was,
    whatever the path and the roots, and a result it returns is a
    refusal. *)
Theorem delete_skill_unconfirmed_changes_nothing skill_path roots w :
  snd (delete_skill skill_path roots false w) = w
  /\ forall d,
       fst (delete_skill skill_path roots false w) = Ret d -> dict_ok d = false.
Proof.
  unfold delete_skill. run_monad.
  destruct (Fs.exists_ (fs w) skill_path); simpl;
    [|split; [reflexivity | intros d [= <-]; reflexivity]].
  destruct (is_deletable_skill skill_path roots) as [[] reason]; simpl;
    (split; [reflexivity | intros d [= <-]; reflexivity]).
Qed.

(** A failure of [shutil.rmtree] does not escape [delete_skill]: for an
    existing, deletable skill file and [confirm=true], when removing its
    directory raises, the call returns [ok=false] with error
    [delete_failed] and the text of the exception, and the filesystem is
    what the failed removal left. *)
Theorem delete_skill_reports_rmtree_failure skill_path roots w e f' :
  Fs.exists_ (fs w) skill_path = true ->
  fst (is_deletable_skill skill_path roots) = true ->
  Fs.rmtree (fs w) (PyPath.parent skill_path) = (Some e, f') ->
  delete_skill skill_path roots true w
  = (Ret (error_dict "delete_failed" (str_exn (EOSError e))), with_fs w f').
Proof.
  intros Hex Hdel Hrm. unfold delete_skill. run_monad. rewrite Hex. simpl.
  destruct (is_deletable_skill skill_path roots) as [b reason].
  simpl in Hdel. subst b. simpl.
  unfold attempt, rmtree. run_monad. rewrite Hrm. reflexivity.
Qed.

(** The skill directory is a symbolic link: [shutil.rmtree] refuses it. *)
Lemma delete_skill_reports_rmtree_failure_witness :
  delete_skill ["r"; "skills"; "foo"; "SKILL.md"] [["r"; "skills"]] true
    (Sample.world
       [ Sample.dir ["r"]; Sample.dir ["r"; "skills"];
         (["r"; "skills"; "foo"], NLink);
         Sample.file ["r"; "skills"; "foo"; "SKILL.md"] "---" ])
  = (Ret (error_dict "delete_failed"
            (str_exn (EOSError (RmtreeSymlinkError ["r"; "skills"; "foo"])))),
     with_fs
       (Sample.world
          [ Sample.dir ["r"]; Sample.dir ["r"; "skills"];
            (["r"; "skills"; "foo"], NLink);
            Sample.file ["r"; "skills"; "foo"; "SKILL.md"] "---" ])
       (fs (Sample.world
              [ Sample.dir ["r"]; Sample.dir ["r"; "skills"];
                (["r"; "skills"; "foo"], NLink);
                Sample.file ["r"; "skills"; "foo"; "SKILL.md"] "---" ]))).
Proof.
  apply (delete_skill_reports_rmtree_failure
           ["r"; "skills"; "foo"; "SKILL.md"] [["r"; "skills"]]).
  - vm_compute. reflexivity.
  - vm_compute. reflexivity.
  - vm_compute. reflexivity.
Defined.



(** A path is deletable only if some root named [.skills] or [skills]
    contains it with no [imported] component in between. *)
Theorem is_deletable_skill_sound skill_path roots :
  fst (is_deletable_skill skill_path roots) = true ->
  exists root rel,
    In root roots
    /\ conventional_name root = true
    /\ PyPath.relative_to skill_path root = Some rel
    /\ ~ In "imported" rel.
Proof.
  induction roots as [|root rest IH]; simpl; [discriminate|].
  destruct (PyPath.relative_to skill_path root) as [rel|] eqn:Hrel.
  - destruct (conventional_name root) eqn:Hconv.
    + destruct (contains_imported rel) eqn:Himp; simpl; [discriminate|].
      intros _. exists root, rel. repeat split; auto.
      intros Hin. unfold contains_imported in Himp.
      assert (existsb (String.eqb "imported") rel = true) as Htrue
        by (apply existsb_exists; exists "imported"; split;
            [exact Hin | apply String.eqb_refl]).
      congruence.
    + destruct (String.eqb _ _); simpl; [discriminate|].
      intros Hd. destruct (IH Hd) as (r & rl & Hin & Hrest). exists r, rl. auto.
  - intros Hd. destruct (IH Hd) as (r & rl & Hin & Hrest). exists r, rl. auto.
Qed.

Lemma is_deletable_skill_sound_witness :
  exists root rel,
    In root [["opt"; "data"]; ["r"; ".skills"]]
    /\ conventional_name root = true
    /\ PyPath.relative_to ["r"; ".skills"; "foo"; "SKILL.md"] root = Some rel
    /\ ~ In "imported" rel.
Proof.
  apply (is_deletable_skill_sound ["r"; ".skills"; "foo"; "SKILL.md"]
           [["opt"; "data"]; ["r"; ".skills"]]).
  vm_compute. reflexivity.
Defined.

(** ** Creating, in full *)

Lemma keeps_entries_refl f : keeps_entries f f.
Proof. intros q x Hq. exact Hq. Qed.

Lemma keeps_entries_trans f1 f2 f3 :
  keeps_entries f1 f2 -> keeps_entries f2 f3 -> keeps_entries f1 f3.
Proof. intros H12 H23 q x Hq. apply H23, H12, Hq. Qed.

Lemma keeps_entries_insert_absent (f : FS) p x :
  Fs.lookup f p = None -> keeps_entries f (<[p := x]> f).
Proof.
  intros Habsent q y Hq. destruct q as [|c q]; [exact Hq|].
  rewrite fs_lookup_insert_ne; [exact Hq | | discriminate].
  intros ->. congruence.
Qed.

(** [f'] is [f] with some directories added. *)
Lemma adds_dirs_refl (f : FS) q :
  Fs.lookup f q = Fs.lookup f q
  \/ (Fs.lookup f q = None /\ Fs.lookup f q = Some NDir).
Proof. left. reflexivity. Qed.

Lemma os_mkdir_adds_dirs f p f' :
  Fs.os_mkdir f p = inr f' ->
  forall q, Fs.lookup f' q = Fs.lookup f q
            \/ (Fs.lookup f q = None /\ Fs.lookup f' q = Some NDir).
Proof.
  unfold Fs.os_mkdir. destruct (Fs.lookup f p) as [n|] eqn:Hp; [discriminate|].
  destruct (Fs.lookup f (PyPath.parent p)) as [[c| |]|]; try discriminate;
    intros [= <-] q; (destruct q as [|d q]; [left; reflexivity|]);
    (destruct (decide (p = d :: q)) as [->|Hne];
     [ right; split; [exact Hp | apply fs_lookup_insert_eq; discriminate]
     | left; apply fs_lookup_insert_ne; [exact Hne | discriminate] ]).
Qed.

Lemma mkdir_adds_dirs exist_ok f p f' :
  Fs.mkdir exist_ok f p = inr f' ->
  forall q, Fs.lookup f' q = Fs.lookup f q
            \/ (Fs.lookup f q = None /\ Fs.lookup f' q = Some NDir).
Proof.
  unfold Fs.mkdir. destruct (Fs.os_mkdir f p) as [e|f1] eqn:Hos.
  - destruct (exist_ok && Fs.is_dir f p); [|discriminate].
    intros [= <-] q. left. reflexivity.
  - intros [= <-]. eapply os_mkdir_adds_dirs; eauto.
Qed.

Lemma adds_dirs_trans (f1 f2 f3 : FS) :
  (forall q, Fs.lookup f2 q = Fs.lookup f1 q
             \/ (Fs.lookup f1 q = None /\ Fs.lookup f2 q = Some NDir)) ->
  (forall q, Fs.lookup f3 q = Fs.lookup f2 q
             \/ (Fs.lookup f2 q = None /\ Fs.lookup f3 q = Some NDir)) ->
  forall q, Fs.lookup f3 q = Fs.lookup f1 q
            \/ (Fs.lookup f1 q = None /\ Fs.lookup f3 q = Some NDir).
Proof.
  intros H12 H23 q. destruct (H12 q) as [H1|[H1 H1']], (H23 q) as [H2|[H2 H2']].
  - left. congruence.
  - right. split; congruence.
  - right. split; congruence.
  - congruence.
Qed.

Lemma mkdir_parents_rev_adds_dirs rp :
  forall f f', Fs.mkdir_parents_rev f rp = inr f' ->
  forall q, Fs.lookup f' q = Fs.lookup f q
            \/ (Fs.lookup f q = None /\ Fs.lookup f' q = Some NDir).
Proof.
  induction rp as [|c rp IH]; intros f f'; cbn [Fs.mkdir_parents_rev].
  - destruct (Fs.os_mkdir f (rev [])) as [e|f1] eqn:Hos.
    + destruct e; try discriminate;
        (destruct (Fs.is_dir f (rev []));
         [intros [= <-] q; left; reflexivity | discriminate]).
    + intros [= <-]. eapply os_mkdir_adds_dirs; eauto.
  - destruct (Fs.os_mkdir f (rev (c :: rp))) as [e|f1] eqn:Hos.
    + destruct e;
        try (destruct (Fs.is_dir f (rev (c :: rp)));
             [intros [= <-] q; left; reflexivity | discriminate]).
      destruct (Fs.mkdir_parents_rev f rp) as [e|f1] eqn:Hrec; [discriminate|].
      intros Hmk. eapply adds_dirs_trans; [apply (IH _ _ Hrec)|].
      eapply mkdir_adds_dirs; eauto.
    + intros [= <-]. eapply os_mkdir_adds_dirs; eauto.
Qed.

Lemma adds_dirs_keeps (f f' : FS) :
  (forall q, Fs.lookup f' q = Fs.lookup f q
             \/ (Fs.lookup f q = None /\ Fs.lookup f' q = Some NDir)) ->
  keeps_entries f f'.
Proof.
  intros Hadd q x Hq. destruct (Hadd q) as [Heq|[Hnone _]]; congruence.
Qed.

Lemma mkdir_keeps exist_ok f p f' :
  Fs.mkdir exist_ok f p = inr f' -> keeps_entries f f'.
Proof. intros Hmk. apply adds_dirs_keeps. eapply mkdir_adds_dirs; eauto. Qed.

Lemma mkdir_parents_keeps f p f' :
  Fs.mkdir_parents f p = inr f' -> keeps_entries f f'.
Proof.
  intros Hmk. apply adds_dirs_keeps.
  apply (mkdir_parents_rev_adds_dirs (rev p)). exact Hmk.
Qed.

Lemma write_text_absent_keeps f p content f' :
  Fs.exists_ f p = false -> Fs.write_text f p content = inr f' ->
  keeps_entries f f'.
Proof.
  unfold Fs.exists_, Fs.write_text.
  destruct (Fs.lookup f p) as [n|] eqn:Hp; [discriminate|]. intros _.
  destruct (Fs.lookup f (PyPath.parent p)) as [[c| |]|]; try discriminate;
    intros [= <-]; apply keeps_entries_insert_absent; exact Hp.
Qed.

Lemma optional_dir_keeps (wanted : bool) p w :
  keeps_entries (fs w)
    (fs (snd ((if wanted then mkdir_exist_ok p else ret tt) w))).
Proof.
  destruct wanted; [|apply keeps_entries_refl].
  unfold mkdir_exist_ok, fs_op.
  destruct (Fs.mkdir true (fs w) p) as [e|f] eqn:Hmk; [apply keeps_entries_refl|].
  cbn [snd fs with_fs with_event]. eapply mkdir_keeps; eauto.
Qed.

Lemma create_optional_dirs_keeps dir a w :
  keeps_entries (fs w) (fs (snd (create_optional_dirs dir a w))).
Proof.
  unfold create_optional_dirs, bind.
  pose proof (optional_dir_keeps (arg_create_scripts_dir a)
                (PyPath.div dir "scripts") w) as H1.
  destruct ((if arg_create_scripts_dir a
             then mkdir_exist_ok (PyPath.div dir "scripts") else ret tt) w)
    as [[[]|e] w1]; [|exact H1].
  pose proof (optional_dir_keeps (arg_create_references_dir a)
                (PyPath.div dir "references") w1) as H2.
  destruct ((if arg_create_references_dir a
             then mkdir_exist_ok (PyPath.div dir "references") else ret tt) w1)
    as [[[]|e] w2]; [|exact (keeps_entries_trans _ _ _ H1 H2)].
  pose proof (optional_dir_keeps (arg_create_assets_dir a)
                (PyPath.div dir "assets") w2) as H3.
  exact (keeps_entries_trans _ _ _ H1 (keeps_entries_trans _ _ _ H2 H3)).
Qed.

Lemma os_mkdir_is_dir f p f' : Fs.os_mkdir f p = inr f' -> Fs.is_dir f' p = true.
Proof.
  unfold Fs.os_mkdir, Fs.is_dir.
  destruct (Fs.lookup f p) as [n|] eqn:Hp; [discriminate|].
  destruct (Fs.lookup f (PyPath.parent p)) as [[c| |]|]; try discriminate;
    intros [= <-]; (rewrite fs_lookup_insert_eq; [reflexivity|]);
    intros ->; discriminate.
Qed.

Lemma mkdir_exist_ok_is_dir f p f' :
  Fs.mkdir true f p = inr f' -> Fs.is_dir f' p = true.
Proof.
  unfold Fs.mkdir. destruct (Fs.os_mkdir f p) as [e|f1] eqn:Hos.
  - cbn [andb]. destruct (Fs.is_dir f p) eqn:Hd; [|discriminate].
    intros [= <-]. exact Hd.
  - intros [= <-]. eapply os_mkdir_is_dir; eauto.
Qed.

(** After a successful [mkdir(parents=True, exist_ok=True)] the path is a
    directory. *)
Lemma mkdir_parents_is_dir f p f' :
  Fs.mkdir_parents f p = inr f' -> Fs.is_dir f' p = true.
Proof.
  unfold Fs.mkdir_parents. rewrite <- (rev_involutive p) at 2.
  generalize (rev p) as rp. clear p. intros rp.
  destruct rp as [|c rp]; cbn [Fs.mkdir_parents_rev].
  - destruct (Fs.os_mkdir f (rev [])) as [e|f1] eqn:Hos.
    + destruct e; try discriminate;
        (destruct (Fs.is_dir f (rev [])) eqn:Hd;
         [intros [= <-]; exact Hd | discriminate]).
    + intros [= <-]. eapply os_mkdir_is_dir; eauto.
  - destruct (Fs.os_mkdir f (rev (c :: rp))) as [e|f1] eqn:Hos.
    + destruct e;
        try (destruct (Fs.is_dir f (rev (c :: rp))) eqn:Hd;
             [intros [= <-]; exact Hd | discriminate]).
      destruct (Fs.mkdir_parents_rev f rp) as [e|f1]; [discriminate|].
      apply mkdir_exist_ok_is_dir.
    + intros [= <-]. eapply os_mkdir_is_dir; eauto.
Qed.

Lemma select_target_root_some roots target :
  select_target_root roots = Some target -> chosen_root roots target.
Proof.
  destruct roots as [|r rest]; [discriminate|].
  destruct (select_target_root_chosen r rest) as (t & Hsel & Hch).
  rewrite Hsel. intros [= <-]. exact Hch.
Qed.

Section CreatingMore.
Context `{Collaborators}.

(** A failure to make the skill directory does not escape
    [create_skill]: with a valid path and description, a root selected and
    no skill file there yet, when [mkdir(parents=True, exist_ok=True)]
    raises, the call returns [ok=false] with error [mkdir_failed] and the
    text of the exception, and nothing has been created. *)
Theorem create_skill_reports_mkdir_failure roots a w cat name target e :
  parse_skill_path (arg_path a) = (cat, name, None) ->
  arg_description a <> "" ->
  String.length (arg_description a) <= 1024 ->
  select_target_root roots = Some target ->
  Fs.exists_ (fs w) (target ++ cat ++ [name; "SKILL.md"]) = false ->
  Fs.mkdir_parents (fs w) (target ++ cat ++ [name]) = inl e ->
  create_skill roots a w
  = (Ret (error_dict "mkdir_failed" (str_exn (EOSError e))), w).
Proof.
  intros Hparse Hdesc Hlen Hsel Hexists Hmk.
  unfold create_skill. rewrite Hparse. cbn [opt_truthy].
  apply truthy_nonempty in Hdesc. rewrite Hdesc. cbn [negb orb].
  apply Nat.ltb_ge in Hlen. rewrite Hlen, Hsel.
  rewrite (skill_dir_of_parsed _ _ _ target Hparse).
  change (PyPath.div (target ++ cat ++ [name]) "SKILL.md")
    with ((target ++ cat ++ [name]) ++ ["SKILL.md"]).
  replace ((target ++ cat ++ [name]) ++ ["SKILL.md"])
    with (target ++ cat ++ [name; "SKILL.md"])
    by (rewrite <- !app_assoc; reflexivity).
  unfold bind at 1, path_exists. rewrite Hexists.
  unfold bind at 1, attempt at 1, try_except at 1, bind at 1, mkdir_parents, fs_op.
  rewrite Hmk. reflexivity.
Qed.

Lemma create_skill_keeps_or_cleans roots a w o w' :
  create_skill roots a w = (o, w') ->
  (exists detail, o = Ret (error_dict "write_failed" detail))
  \/ keeps_entries (fs w) (fs w').
Proof.
  unfold create_skill.
  destruct (parse_skill_path (arg_path a)) as [[cat name] error].
  destruct (opt_truthy error);
    [intros [= <- <-]; right; apply keeps_entries_refl|].
  destruct (_ || _); [intros [= <- <-]; right; apply keeps_entries_refl|].
  destruct (select_target_root roots) as [target|];
    [|intros [= <- <-]; right; apply keeps_entries_refl].
  set (dir := skill_dir_of target cat name).
  set (md := PyPath.div dir "SKILL.md").
  unfold bind at 1, path_exists.
  destruct (Fs.exists_ (fs w) md) eqn:Hexists;
    [intros [= <- <-]; right; apply keeps_entries_refl|].
  unfold bind at 1, attempt at 1, try_except at 1, bind at 1, mkdir_parents, fs_op.
  destruct (Fs.mkdir_parents (fs w) dir) as [e|f1] eqn:Hmk;
    [intros [= <- <-]; right; apply keeps_entries_refl|].
  pose proof (mkdir_parents_keeps _ _ _ Hmk) as H1.
  cbn [ret].
  unfold bind at 1, attempt at 1, try_except at 1, bind at 1, write_text, fs_op.
  cbn [fs with_fs with_event].
  destruct (Fs.write_text f1 md _) as [e|f2] eqn:Hwrite.
  { unfold bind, rmtree_ignore_errors, try_except, rmtree.
    cbn [fs with_fs with_event].
    destruct (Fs.rmtree f1 dir) as [[e'|] f3]; cbn [ret];
      intros [= <- <-]; left; eauto. }
  cbn [ret].
  assert (Fs.exists_ f1 md = false) as Habsent.
  { unfold Fs.exists_ in *.
    destruct (mkdir_parents_rev_adds_dirs (rev dir) _ _ Hmk md) as [Heq|[_ Hdir]].
    - rewrite Heq. exact Hexists.
    - unfold Fs.write_text in Hwrite. rewrite Hdir in Hwrite. discriminate. }
  assert (keeps_entries f1 f2) as H2
    by (eapply write_text_absent_keeps; eauto).
  set (w2 := with_event (with_fs (with_event (with_fs w f1) (EvMkdir dir)) f2)
               (EvWrite md)).
  pose proof (create_optional_dirs_keeps dir a w2) as H3.
  unfold bind at 1, attempt at 1, try_except at 1, bind at 1.
  destruct (create_optional_dirs dir a w2) as [[[]|e] w3]; cbn [ret bind snd] in *;
    intros [= <- <-]; right;
    exact (keeps_entries_trans _ _ _ H1 (keeps_entries_trans _ _ _ H2 H3)).
Qed.

(** Unless it reports [write_failed], after which it removes the skill
    directory, [create_skill] removes and overwrites nothing: whatever
    existed before the call is still there, unchanged. *)
Theorem create_skill_keeps_entries roots a w :
  dict_get (match fst (create_skill roots a w) with Ret d => d | Raise _ => [] end)
    "error" <> Some (VStr "write_failed") ->
  keeps_entries (fs w) (fs (snd (create_skill roots a w))).
Proof.
  destruct (create_skill roots a w) as [o w'] eqn:Hrun. cbn [fst snd].
  destruct (create_skill_keeps_or_cleans _ _ _ _ _ Hrun) as [[detail ->]|Hkeeps].
  - intros Herr. exfalso. apply Herr. reflexivity.
  - intros _. exact Hkeeps.
Qed.

Lemma create_skill_ok_inv roots a w d w' :
  create_skill roots a w = (Ret d, w') ->
  dict_ok d = true ->
  exists cat name target,
    parse_skill_path (arg_path a) = (cat, name, None)
    /\ arg_description a <> ""
    /\ String.length (arg_description a) <= 1024
    /\ chosen_root roots target
    /\ Fs.exists_ (fs w) (target ++ cat ++ [name; "SKILL.md"]) = false
    /\ Fs.lookup (fs w') (target ++ cat ++ [name; "SKILL.md"])
       = Some (NFile (generate_skill_markdown name (arg_description a)
                        (normalize_tags (default [] (arg_tags a)))
                        (arg_instructions a) (arg_license a) (arg_metadata a)))
    /\ Fs.is_dir (fs w') (target ++ cat ++ [name]) = true
    /\ dict_get d "skill_path"
       = Some (VStr (PyPath.str (target ++ cat ++ [name; "SKILL.md"]))).
Proof.
  unfold create_skill.
  destruct (parse_skill_path (arg_path a)) as [[cat name] error] eqn:Hparse.
  destruct (opt_truthy error) eqn:Herror;
    [intros [= <- <-]; rewrite dict_ok_error; discriminate|].
  assert (error = None) as ->.
  { destruct error as [msg|]; [|reflexivity].
    cbn [opt_truthy] in Herror.
    rewrite (parse_error_truthy _ _ _ _ Hparse) in Herror. discriminate. }
  destruct (negb (PyStr.truthy (arg_description a))) eqn:Hdesc;
    [intros [= <- <-]; rewrite dict_ok_error; discriminate|].
  destruct (1024 <? String.length (arg_description a)) eqn:Hlen;
    [intros [= <- <-]; rewrite dict_ok_error; discriminate|].
  cbn [orb].
  destruct (select_target_root roots) as [target|] eqn:Hsel;
    [|intros [= <- <-]; rewrite dict_ok_error; discriminate].
  rewrite (skill_dir_of_parsed _ _ _ target Hparse).
  set (dir := target ++ cat ++ [name]).
  change (PyPath.div dir "SKILL.md") with (dir ++ ["SKILL.md"]).
  set (md := dir ++ ["SKILL.md"]).
  assert (md <> []) as Hmd by (unfold md; destruct dir; discriminate).
  unfold bind at 1, path_exists.
  destruct (Fs.exists_ (fs w) md) eqn:Hexists;
    [intros [= <- <-]; rewrite dict_ok_error; discriminate|].
  unfold bind at 1, attempt at 1, try_except at 1, bind at 1, mkdir_parents, fs_op.
  destruct (Fs.mkdir_parents (fs w) dir) as [e|f1] eqn:Hmk;
    [intros [= <- <-]; rewrite dict_ok_error; discriminate|].
  cbn [ret].
  unfold bind at 1, attempt at 1, try_except at 1, bind at 1, write_text, fs_op.
  cbn [fs with_fs with_event].
  destruct (Fs.write_text f1 md _) as [e|f2] eqn:Hwrite.
  { unfold bind, rmtree_ignore_errors, try_except, rmtree.
    cbn [fs with_fs with_event].
    destruct (Fs.rmtree f1 dir) as [[e'|] f3]; cbn [ret];
      intros [= <- <-]; rewrite dict_ok_error; discriminate. }
  cbn [ret].
  set (w2 := with_event (with_fs (with_event (with_fs w f1) (EvMkdir dir)) f2)
               (EvWrite md)).
  pose proof (create_optional_dirs_keeps dir a w2) as H3.
  unfold bind at 1, attempt at 1, try_except at 1, bind at 1.
  destruct (create_optional_dirs dir a w2) as [[[]|e] w3]; cbn [ret bind snd] in *;
    [|intros [= <- <-]; rewrite dict_ok_error; discriminate].
  intros [= <- <-] _. exists cat, name, target.
  assert (target ++ cat ++ [name; "SKILL.md"] = md) as ->
    by (unfold md, dir; rewrite <- !app_assoc; reflexivity).
  split; [reflexivity|].
  split; [apply truthy_nonempty; apply negb_false_iff; exact Hdesc|].
  split; [apply Nat.ltb_ge; exact Hlen|].
  split; [apply select_target_root_some; exact Hsel|].
  split; [exact Hexists|].
  split.
  - apply H3. unfold w2. cbn [fs with_fs with_event].
    apply (write_text_lookup f1 f2 md _ Hmd Hwrite).
  - pose proof (mkdir_parents_is_dir _ _ _ Hmk) as Hd.
    assert (Fs.lookup f2 dir = Fs.lookup f1 dir) as Hsame.
    { revert Hwrite. unfold Fs.write_text.
      destruct (Fs.lookup f1 md) as [[c| |]|];
        [| discriminate | discriminate
         | destruct (Fs.lookup f1 (PyPath.parent md)) as [[c| |]|]; try discriminate];
        intros [= <-];
        (destruct dir as [|x dir'];
         [reflexivity
         |apply fs_lookup_insert_ne;
          [unfold md; intros Heq;
           apply (f_equal (@List.length string)) in Heq;
           rewrite length_app in Heq; simpl in Heq; lia
          |discriminate]]). }
    change (target ++ cat ++ [name]) with dir.
    unfold Fs.is_dir in *. rewrite <- Hsame in Hd.
    destruct (Fs.lookup f2 dir) as [n|] eqn:Hn; [|discriminate].
    rewrite (H3 dir n Hn). split; [exact Hd | reflexivity].
Qed.

(** When [create_skill] answers [ok], its arguments were valid, the skill
    file did not exist before, and afterwards it holds exactly the
    generated markdown, in a directory, below the chosen root. *)
Theorem create_skill_ok_file roots a w d w' :
  create_skill roots a w = (Ret d, w') ->
  dict_ok d = true ->
  exists cat name target,
    parse_skill_path (arg_path a) = (cat, name, None)
    /\ arg_description a <> ""
    /\ String.length (arg_description a) <= 1024
    /\ chosen_root roots target
    /\ Fs.exists_ (fs w) (target ++ cat ++ [name; "SKILL.md"]) = false
    /\ Fs.lookup (fs w') (target ++ cat ++ [name; "SKILL.md"])
       = Some (NFile (generate_skill_markdown name (arg_description a)
                        (normalize_tags (default [] (arg_tags a)))
                        (arg_instructions a) (arg_license a) (arg_metadata a)))
    /\ Fs.is_dir (fs w') (target ++ cat ++ [name]) = true.
Proof.
  intros Hrun Hok.
  destruct (create_skill_ok_inv roots a w d w' Hrun Hok)
    as (cat & name & target & H1 & H2 & H3 & H4 & H5 & H6 & H7 & _).
  exists cat, name, target. auto 10.
Qed.

End CreatingMore.

Lemma create_skill_keeps_entries_witness :
  keeps_entries
    (fs (Sample.world
           [ Sample.dir ["r"]; Sample.dir ["r"; "skills"];
             Sample.file ["r"; "skills"; "README.md"] "readme" ]))
    (fs (snd (@create_skill Sample.collaborators [["r"; "skills"]]
                (Sample.args "coding/helper" "d")
                (Sample.world
                   [ Sample.dir ["r"]; Sample.dir ["r"; "skills"];
                     Sample.file ["r"; "skills"; "README.md"] "readme" ])))).
Proof.
  apply (@create_skill_keeps_entries Sample.collaborators).
  intros Herr. vm_compute in Herr. discriminate.
Defined.

Lemma create_skill_ok_file_witness :
  exists cat name target,
    parse_skill_path "coding/helper" = (cat, name, None)
    /\ "d" <> ""
    /\ String.length "d" <= 1024
    /\ chosen_root [["r"; "skills"]] target
    /\ Fs.exists_ (fs (Sample.world [Sample.dir ["r"]; Sample.dir ["r"; "skills"]]))
         (target ++ cat ++ [name; "SKILL.md"]) = false
    /\ Fs.lookup
         (fs (snd (@create_skill Sample.collaborators [["r"; "skills"]]
                     (Sample.args "coding/helper" "d")
                     (Sample.world [Sample.dir ["r"]; Sample.dir ["r"; "skills"]]))))
         (target ++ cat ++ [name; "SKILL.md"])
       = Some (NFile (generate_skill_markdown name "d" (Sample.normalize [])
                        None None None))
    /\ Fs.is_dir
         (fs (snd (@create_skill Sample.collaborators [["r"; "skills"]]
                     (Sample.args "coding/helper" "d")
                     (Sample.world [Sample.dir ["r"]; Sample.dir ["r"; "skills"]]))))
         (target ++ cat ++ [name]) = true.
Proof.
  apply (@create_skill_ok_file Sample.collaborators [["r"; "skills"]]
           (Sample.args "coding/helper" "d")
           (Sample.world [Sample.dir ["r"]; Sample.dir ["r"; "skills"]])
           (match fst (@create_skill Sample.collaborators [["r"; "skills"]]
                         (Sample.args "coding/helper" "d")
                         (Sample.world [Sample.dir ["r"]; Sample.dir ["r"; "skills"]]))
            with Ret d => d | Raise _ => [] end)).
  - vm_compute. reflexivity.
  - vm_compute. reflexivity.
Defined.

(** The root is a regular file: no directory can be made below it. *)
Lemma create_skill_reports_mkdir_failure_witness :
  @create_skill Sample.collaborators [["r"; "skills"]]
    (Sample.args "coding/helper" "d")
    (Sample.world [Sample.dir ["r"]; Sample.file ["r"; "skills"] "x"])
  = (Ret (error_dict "mkdir_failed"
            (str_exn (EOSError (NotADirectoryError ["r"; "skills"; "coding"; "helper"])))),
     Sample.world [Sample.dir ["r"]; Sample.file ["r"; "skills"] "x"]).
Proof.
  apply (@create_skill_reports_mkdir_failure Sample.collaborators [["r"; "skills"]]
           (Sample.args "coding/helper" "d")
           (Sample.world [Sample.dir ["r"]; Sample.file ["r"; "skills"] "x"])
           ["coding"] "helper" ["r"; "skills"]).
  - vm_compute. reflexivity.
  - discriminate.
  - vm_compute. lia.
  - vm_compute. reflexivity.
  - vm_compute. reflexivity.
  - vm_compute. reflexivity.
Defined.

(** ** Names and paths, in full *)

Lemma split_app_sep sep a b :
  PyStr.split sep (a +:+ String sep b) = PyStr.split sep a ++ PyStr.split sep b.
Proof.
  induction a as [|c a IH]; simpl.
  - rewrite Ascii.eqb_refl. reflexivity.
  - destruct (Ascii.eqb c sep); [rewrite IH; reflexivity|].
    rewrite IH. destruct (PyStr.split sep a) as [|h t] eqn:Hs; [|reflexivity].
    exfalso. clear -Hs. destruct a as [|d a]; simpl in Hs; [discriminate|].
    destruct (Ascii.eqb d sep); [discriminate|].
    destruct (PyStr.split sep a); discriminate.
Qed.

(** [_parse_path_arg] reads a path piece by piece: empty pieces, hence
    leading, trailing and doubled slashes, count for nothing. *)
Theorem parse_path_arg_concat a b :
  _parse_path_arg (Some (a +:+ "/" +:+ b))
  = _parse_path_arg (Some a) ++ _parse_path_arg (Some b).
Proof.
  assert (forall s, _parse_path_arg (Some s)
                    = List.filter PyStr.truthy (PyStr.split "/" s)) as Hparse.
  { intros s. unfold _parse_path_arg. destruct s; reflexivity. }
  rewrite !Hparse.
  change (a +:+ "/" +:+ b) with (a +:+ String "/" b).
  rewrite split_app_sep. apply List.filter_app.
Qed.

Lemma find_node_step node part path :
  _find_node node (part :: path)
  = match children_get (children node) part with
    | None => None
    | Some child => _find_node child path
    end.
Proof. reflexivity. Qed.

(** Looking up a path made of two parts is looking up the first part and
    then the second from the node found. *)
Theorem find_node_app path1 path2 node :
  _find_node node (path1 ++ path2)
  = match _find_node node path1 with
    | None => None
    | Some mid => _find_node mid path2
    end.
Proof.
  revert node. induction path1 as [|part path1 IH]; intros node; [reflexivity|].
  cbn [app]. rewrite !find_node_step.
  destruct (children_get (children node) part) as [child|]; [apply IH | reflexivity].
Qed.

Lemma valid_component_parts s :
  Claimed.valid_component s = true ->
  s <> ""
  /\ String.length s <= 64
  /\ Claimed.all_chars name_char s = true
  /\ PyStr.startswith "-" s = false
  /\ Claimed.is_hyphen_opt (PyStr.last_char s) = false
  /\ Claimed.consecutive_hyphens s = false.
Proof.
  unfold Claimed.valid_component. intros Hv.
  repeat (apply andb_true_iff in Hv; destruct Hv as [Hv ?]).
  repeat match goal with
         | Hn : negb _ = true |- _ => apply negb_true_iff in Hn
         end.
  split; [apply String.eqb_neq; assumption|].
  split; [apply Nat.leb_le; assumption|].
  split; [rewrite (all_chars_ext _ _ s name_char_claimed); assumption|].
  split; [|split; assumption].
  destruct s as [|c s']; [reflexivity|].
  cbn [PyStr.startswith Claimed.first_char Claimed.is_hyphen_opt] in *.
  unfold Claimed.is_hyphen in *. rewrite Ascii.eqb_sym, andb_true_r. assumption.
Qed.

Lemma name_run_before_newline s :
  Claimed.all_chars name_char s = true ->
  snd (name_run (s +:+ PyStr.nl)) = PyStr.nl.
Proof.
  induction s as [|c s IH]; [reflexivity|]. simpl.
  intros Hall. apply andb_true_iff in Hall as [Hc Hs]. rewrite Hc. simpl.
  apply IH. exact Hs.
Qed.

Lemma last_char_before_newline s :
  PyStr.last_char (s +:+ PyStr.nl) = Some (ascii_of_nat 10).
Proof.
  induction s as [|c s IH]; [reflexivity|].
  change (String c s +:+ PyStr.nl) with (String c (s +:+ PyStr.nl)).
  rewrite last_char_cons; [exact IH|]. destruct s; discriminate.
Qed.

Lemma consecutive_before_newline s :
  Claimed.consecutive_hyphens (s +:+ PyStr.nl) = Claimed.consecutive_hyphens s.
Proof.
  induction s as [|a s IH]; [reflexivity|].
  destruct s as [|b r].
  - simpl. rewrite andb_false_r. reflexivity.
  - change (Claimed.consecutive_hyphens (String a (String b (r +:+ PyStr.nl)))
            = Claimed.consecutive_hyphens (String a (String b r))).
    change ((Claimed.is_hyphen a && Claimed.is_hyphen b)
            || Claimed.consecutive_hyphens (String b r +:+ PyStr.nl)
            = (Claimed.is_hyphen a && Claimed.is_hyphen b)
              || Claimed.consecutive_hyphens (String b r)).
    rewrite IH. reflexivity.
Qed.

(** [validate_skill_name_part] also accepts a valid name of fewer than 64
    characters followed by one newline, which is not a valid name: the
    [$] of its pattern matches before a final newline. *)
Theorem validate_accepts_trailing_newline s :
  Claimed.valid_component s = true ->
  String.length s < 64 ->
  validate_skill_name_part (s +:+ PyStr.nl) = (true, "")
  /\ Claimed.valid_component (s +:+ PyStr.nl) = false.
Proof.
  intros Hv Hlen.
  destruct (valid_component_parts s Hv) as (Hne & _ & Hall & Hstart & _ & Hcons).
  destruct s as [|c s']; [congruence|]. split.
  - unfold validate_skill_name_part.
    change (String c s' +:+ PyStr.nl) with (String c (s' +:+ PyStr.nl)).
    cbn [PyStr.truthy negb].
    assert (String.length (String c (s' +:+ PyStr.nl)) = S (String.length (String c s')))
      as Hlen'.
    { clear. simpl. f_equal. induction s' as [|d s IH]; [reflexivity|].
      simpl. rewrite IH. reflexivity. }
    assert ((64 <? String.length (String c (s' +:+ PyStr.nl))) = false) as ->
      by (apply Nat.ltb_ge; rewrite Hlen'; lia).
    assert (re_match_name (String c (s' +:+ PyStr.nl)) = true) as ->.
    { unfold re_match_name.
      pose proof (name_run_before_newline (String c s') Hall) as Hrun.
      change (String c s' +:+ PyStr.nl) with (String c (s' +:+ PyStr.nl)) in Hrun.
      simpl in Hall. apply andb_true_iff in Hall as [Hc _].
      destruct (name_run (String c (s' +:+ PyStr.nl))) as [some rest] eqn:Hnr.
      simpl in Hrun. subst rest. simpl in Hnr. rewrite Hc in Hnr.
      injection Hnr as <- _. reflexivity. }
    cbn [negb]. cbn [PyStr.startswith] in *. rewrite Hstart. cbn [orb].
    unfold PyStr.endswith_char.
    pose proof (last_char_before_newline (String c s')) as Hlast.
    change (String c s' +:+ PyStr.nl) with (String c (s' +:+ PyStr.nl)) in Hlast.
    rewrite Hlast.
    assert (Ascii.eqb (ascii_of_nat 10) "-" = false) as -> by reflexivity.
    rewrite contains_consecutive.
    pose proof (consecutive_before_newline (String c s')) as Hc2.
    change (String c s' +:+ PyStr.nl) with (String c (s' +:+ PyStr.nl)) in Hc2.
    rewrite Hc2, Hcons. reflexivity.
  - destruct (Claimed.valid_component (String c s' +:+ PyStr.nl)) eqn:Hv2;
      [|reflexivity].
    apply valid_component_parts in Hv2 as (_ & _ & Hall2 & _).
    exfalso. clear -Hall2.
    induction (String c s') as [|d s IH]; simpl in Hall2.
    + discriminate.
    + apply andb_true_iff in Hall2 as [_ Hall2]. auto.
Qed.

Lemma validate_accepts_trailing_newline_witness :
  validate_skill_name_part ("python-helper" +:+ PyStr.nl) = (true, "")
  /\ Claimed.valid_component ("python-helper" +:+ PyStr.nl) = false.
Proof.
  apply validate_accepts_trailing_newline.
  - reflexivity.
  - simpl. lia.
Defined.

Lemma name_char_not_space c : name_char c = true -> PyStr.isspace c = false.
Proof.
  unfold name_char, PyStr.isspace. cbv zeta. generalize (PyStr.code c) as n.
  intros n Hn.
  repeat match goal with
         | |- context [?a <=? ?b] => destruct (Nat.leb_spec a b)
         | H : context [?a <=? ?b] |- _ => destruct (Nat.leb_spec a b)
         | |- context [?a =? ?b] => destruct (Nat.eqb_spec a b)
         | H : context [?a =? ?b] |- _ => destruct (Nat.eqb_spec a b)
         end; simpl in *; try reflexivity; try discriminate; lia.
Qed.

Lemma rstrip_no_space s :
  Claimed.all_chars name_char s = true -> PyStr.rstrip s = s.
Proof.
  induction s as [|c s IH]; [reflexivity|]. simpl. intros Hall.
  apply andb_true_iff in Hall as [Hc Hs]. rewrite (IH Hs).
  destruct s; [rewrite (name_char_not_space c Hc)|]; reflexivity.
Qed.

Lemma strip_no_space s :
  Claimed.all_chars name_char s = true -> PyStr.strip s = s.
Proof.
  intros Hall. unfold PyStr.strip. rewrite (rstrip_no_space s Hall).
  destruct s as [|c s]; [reflexivity|]. simpl in *.
  apply andb_true_iff in Hall as [Hc _].
  rewrite (name_char_not_space c Hc). reflexivity.
Qed.

Lemma split_join parts :
  parts <> [] ->
  Forall (fun s => PyStr.split "/" s = [s]) parts ->
  PyStr.split "/" (PyStr.join "/" parts) = parts.
Proof.
  intros Hne Hall. induction Hall as [|x l Hx Hl IH]; [congruence|].
  destruct l as [|y l]; [exact Hx|].
  change (PyStr.join "/" (x :: y :: l)) with (x +:+ String "/" (PyStr.join "/" (y :: l))).
  rewrite split_app_sep, Hx, IH by discriminate. reflexivity.
Qed.

Lemma join_truthy sep x l :
  PyStr.truthy x = true -> PyStr.truthy (PyStr.join sep (x :: l)) = true.
Proof. destruct x; [discriminate|]. destruct l; reflexivity. Qed.

(** The parts [parse_skill_path] returns are valid names as they stand. *)
Lemma parse_success_valid path cat name :
  parse_skill_path path = (cat, name, None) ->
  Forall (fun s => Claimed.valid_component s = true) (cat ++ [name]).
Proof.
  intros Hparse. destruct (parse_success_parts _ _ _ Hparse) as [Hparts Hall].
  rewrite <- Hparts in *. rewrite path_parts_trimmed in *.
  unfold Claimed.trimmed_components in *.
  apply Forall_map. apply Forall_map in Hall.
  eapply Forall_impl; [exact Hall|]. intros p Hp. simpl in *.
  rewrite <- (validate_trimmed (PyStr.strip p) (strip_last p)). exact Hp.
Qed.

(** The category path and the name that [parse_skill_path] returns, joined
    with slashes, parse to themselves: the result is in canonical form. *)
Theorem parse_skill_path_canonical path cat name :
  parse_skill_path path = (cat, name, None) ->
  parse_skill_path (PyStr.join "/" (cat ++ [name])) = (cat, name, None).
Proof.
  intros Hparse.
  pose proof (parse_success_valid _ _ _ Hparse) as Hvalid.
  destruct (parse_success_parts _ _ _ Hparse) as [_ Hall].
  assert (cat ++ [name] <> []) as Hne by (destruct cat; discriminate).
  assert (path_parts (PyStr.join "/" (cat ++ [name])) = cat ++ [name]) as Hparts.
  { unfold path_parts. rewrite split_join; [|exact Hne|].
    - clear Hall Hne Hparse.
      induction Hvalid as [|p l Hp _ IH]; [reflexivity|].
      destruct (valid_component_parts p Hp) as (Hpne & _ & Hchars & _).
      cbn [List.filter map]. rewrite (strip_no_space p Hchars).
      apply truthy_nonempty in Hpne. rewrite Hpne. cbn [map].
      rewrite (strip_no_space p Hchars). f_equal. exact IH.
    - eapply Forall_impl; [exact Hall|]. intros p Hp. simpl in Hp.
      apply re_match_name_split. apply validate_re_match. exact Hp. }
  unfold parse_skill_path. rewrite Hparts.
  assert (PyStr.truthy (PyStr.join "/" (cat ++ [name])) = true) as ->.
  { destruct cat as [|c cat]; cbn [app] in *.
    - inversion Hvalid as [|? ? Hp _]; subst.
      destruct (valid_component_parts name Hp) as (Hpne & _).
      apply join_truthy. apply truthy_nonempty. exact Hpne.
    - inversion Hvalid as [|? ? Hp _]; subst.
      destruct (valid_component_parts c Hp) as (Hpne & _).
      apply join_truthy. apply truthy_nonempty. exact Hpne. }
  cbn [negb].
  assert (first_invalid_part (cat ++ [name]) = None) as Hnone.
  { apply first_invalid_forallb. apply forallb_forall. intros p Hp.
    rewrite Forall_forall in Hall. apply Hall. apply list_elem_of_In. exact Hp. }
  rewrite Hnone. rewrite removelast_last, last_last.
  destruct (cat ++ [name]) eqn:Hc; [congruence | reflexivity].
Qed.

Lemma parse_skill_path_canonical_witness :
  parse_skill_path (PyStr.join "/" (["coding"] ++ ["python-helper"]))
  = (["coding"], "python-helper", None).
Proof.
  apply (parse_skill_path_canonical " coding // python-helper ").
  reflexivity.
Defined.

(** ** The shared state, in full *)

Section StateMore.
Context `{Collaborators}.
Variable config : AppConfig.


(** What a call of [_ensure_state_loaded] leaves in the state: both
    entries when it returns, the entries it found when it raises. *)
Lemma ensure_state_loaded_state w o w' :
  _ensure_state_loaded config w = (o, w') ->
  match o with
  | Ret _ => exists r s, state_registry w' = Some r /\ state_scan w' = Some s
  | Raise _ => state_registry w' = state_registry w /\ state_scan w' = state_scan w
  end.
Proof.
  unfold _ensure_state_loaded, with_lock, bind at 1, emit at 1.
  unfold finally, emit, bind at 1, state_is_loaded.
  cbn [state_registry state_scan with_event].
  destruct (match state_registry w with
            | Some _ => match state_scan w with Some _ => true | None => false end
            | None => false
            end) eqn:Hloaded.
  - cbn [ret]. intros [= <- <-]. cbn [state_registry state_scan with_event].
    destruct (state_registry w) as [r|]; [|discriminate].
    destruct (state_scan w) as [s|]; [|discriminate]. eauto.
  - unfold bind, call_load_tags_registry, call_load_index, call_scan_skills,
      call_save_index, set_registry, set_scan, ret.
    simpl.
    destruct (load_tags_registry (fs w) (tags_path config)) as [e|reg]; simpl;
      [intros [= <- <-]; auto|].
    destruct (load_index (fs w) (cache_path config)) as [cached|]; simpl;
      [intros [= <- <-]; simpl; eauto|].
    destruct (scan_skills (fs w) (roots config) reg) as [e|sc]; simpl;
      [intros [= <- <-]; auto|].
    destruct (save_index (fs w) (cache_path config) sc) as [[e|] f]; simpl;
      intros [= <- <-]; simpl; eauto.
Qed.


(** A call of [_ensure_state_loaded] that raises stores nothing: the two
    entries of the state are as before, so a later call starts over. *)
Theorem ensure_state_loaded_failure_stores_nothing w e w' :
  _ensure_state_loaded config w = (Raise e, w') ->
  state_registry w' = state_registry w /\ state_scan w' = state_scan w.
Proof. intros Hrun. exact (ensure_state_loaded_state w (Raise e) w' Hrun). Qed.

(** With a usable cache the scanner is not run and nothing is written:
    the cached result becomes the scan in memory and the filesystem is
    untouched. *)
Theorem ensure_state_loaded_uses_cache w registry cached :
  state_scan w = None ->
  load_tags_registry (fs w) (tags_path config) = inr registry ->
  load_index (fs w) (cache_path config) = Some cached ->
  _ensure_state_loaded config w
  = (Ret tt,
     {| fs := fs w; state_registry := Some registry; state_scan := Some cached;
        trace := trace w ++ [EvAcquire; EvRelease] |}).
Proof.
  intros Hs Hreg Hcache.
  unfold _ensure_state_loaded, with_lock, bind at 1, emit at 1.
  unfold finally, emit, bind at 1, state_is_loaded.
  cbn [state_registry state_scan with_event]. rewrite Hs.
  assert (match state_registry w with Some _ => false | None => false end = false)
    as -> by (destruct (state_registry w); reflexivity).
  unfold bind, call_load_tags_registry, call_load_index, set_registry, set_scan, ret.
  simpl. rewrite Hreg. simpl. rewrite Hcache. simpl.
  unfold with_event. cbn [fs state_registry state_scan trace].
  rewrite <- app_assoc. reflexivity.
Qed.

End StateMore.


Lemma ensure_state_loaded_failure_stores_nothing_witness :
  state_registry
    (snd (@_ensure_state_loaded Sample.collaborators (Sample.config [["r"; "skills"]])
            (Sample.world [Sample.dir ["cache"]; Sample.dir ["cache"; "tags"]])))
  = state_registry (Sample.world [Sample.dir ["cache"]; Sample.dir ["cache"; "tags"]])
  /\ state_scan
       (snd (@_ensure_state_loaded Sample.collaborators (Sample.config [["r"; "skills"]])
               (Sample.world [Sample.dir ["cache"]; Sample.dir ["cache"; "tags"]])))
     = state_scan (Sample.world [Sample.dir ["cache"]; Sample.dir ["cache"; "tags"]]).
Proof.
  apply (@ensure_state_loaded_failure_stores_nothing Sample.collaborators
           (Sample.config [["r"; "skills"]])
           (Sample.world [Sample.dir ["cache"]; Sample.dir ["cache"; "tags"]])
           (EOSError (IsADirectoryError ["cache"; "tags"]))).
  vm_compute. reflexivity.
Defined.

Lemma ensure_state_loaded_uses_cache_witness :
  @_ensure_state_loaded
    (cached_collaborators {| tree := MkTreeNode [] []; skills := [] |})
    (Sample.config [["r"; "skills"]])
    (Sample.world [Sample.dir ["cache"]])
  = (Ret tt,
     {| fs := fs (Sample.world [Sample.dir ["cache"]]);
        state_registry := Some {| allowed_tags := ∅ |};
        state_scan := Some {| tree := MkTreeNode [] []; skills := [] |};
        trace := trace (Sample.world [Sample.dir ["cache"]]) ++ [EvAcquire; EvRelease] |}).
Proof.
  apply (@ensure_state_loaded_uses_cache
           (cached_collaborators {| tree := MkTreeNode [] []; skills := [] |})).
  - reflexivity.
  - vm_compute. reflexivity.
  - reflexivity.
Defined.

(** ** Tag updates, in full *)

Lemma find_end_index_app i front close_delim body :
  Forall (fun line => is_delim line = false) front ->
  is_delim close_delim = true ->
  find_end_index i (front ++ close_delim :: body) = Some (i + List.length front).
Proof.
  intros Hfront Hclose. revert i.
  induction Hfront as [|line front Hline _ IH]; intros i; simpl.
  - rewrite Hclose. f_equal. lia.
  - rewrite Hline, IH. f_equal. lia.
Qed.

Lemma replace_tags_lines_map new_tags_line front :
  replace_tags_lines new_tags_line front
  = (map (fun raw => if is_tags_line raw then new_tags_line else raw) front,
     existsb is_tags_line front).
Proof.
  induction front as [|raw front IH]; [reflexivity|]. simpl. rewrite IH.
  destruct (is_tags_line raw); reflexivity.
Qed.

(** On a file whose text is an opening delimiter line, frontmatter lines,
    a closing delimiter line and a body, [_update_tags_in_skill_md] writes
    the same lines back with every frontmatter line that starts with
    [tags:] replaced by the new tags line, or with that line added at the
    end of the frontmatter when there was none; delimiters and body are
    kept as they are. *)
Theorem update_tags_in_skill_md_rewrites
    skill_md_path new_tags w content open_delim front close_delim body :
  Fs.lookup (fs w) skill_md_path = Some (NFile content) ->
  PyStr.splitlines_keepends (PyStr.universal_newlines content)
  = open_delim :: front ++ close_delim :: body ->
  is_delim open_delim = true ->
  Forall (fun line => is_delim line = false) front ->
  is_delim close_delim = true ->
  let new_tags_line := "tags: " +:+ _format_tags_inline new_tags +:+ PyStr.nl in
  let updated_front :=
    map (fun raw => if is_tags_line raw then new_tags_line else raw) front
    ++ (if existsb is_tags_line front then [] else [new_tags_line]) in
  _update_tags_in_skill_md skill_md_path new_tags w
  = (Ret tt,
     with_event
       (with_fs w
          (<[skill_md_path :=
               NFile (open_delim +:+ concat_str updated_front +:+ close_delim
                      +:+ concat_str body)]> (fs w)))
       (EvWrite skill_md_path)).
Proof.
  intros Hfile Hlines Hopen Hfront Hclose new_tags_line updated_front.
  unfold _update_tags_in_skill_md, bind, read_text, Fs.read_text.
  rewrite Hfile, Hlines, Hopen. cbn [negb].
  rewrite (find_end_index_app 1 front close_delim body Hfront Hclose).
  replace (1 + List.length front - 1) with (List.length front) by lia.
  change (skipn 1 (open_delim :: front ++ close_delim :: body))
    with (front ++ close_delim :: body).
  rewrite firstn_app, firstn_all, Nat.sub_diag. cbn [firstn]. rewrite app_nil_r.
  change (nth (1 + List.length front) (open_delim :: front ++ close_delim :: body) "")
    with (nth (List.length front) (front ++ close_delim :: body) "").
  rewrite nth_middle.
  replace (1 + List.length front + 1) with (S (List.length front + 1)) by lia.
  change (skipn (S (List.length front + 1)) (open_delim :: front ++ close_delim :: body))
    with (skipn (List.length front + 1) (front ++ close_delim :: body)).
  assert (skipn (List.length front + 1) (front ++ close_delim :: body) = body) as ->.
  { rewrite skipn_app, skipn_all2 by lia.
    replace (List.length front + 1 - List.length front) with 1 by lia. reflexivity. }
  fold new_tags_line. rewrite replace_tags_lines_map.
  assert ((if existsb is_tags_line front
           then map (fun raw => if is_tags_line raw then new_tags_line else raw) front
           else map (fun raw => if is_tags_line raw then new_tags_line else raw) front
                ++ [new_tags_line]) = updated_front) as ->.
  { unfold updated_front. destruct (existsb is_tags_line front);
      [rewrite app_nil_r|]; reflexivity. }
  unfold write_text, fs_op, Fs.write_text. rewrite Hfile. reflexivity.
Qed.

Lemma update_tags_in_skill_md_rewrites_witness :
  _update_tags_in_skill_md ["r"; "skills"; "foo"; "SKILL.md"] ["coding"; "python"]
    (Sample.world
       [ Sample.dir ["r"]; Sample.dir ["r"; "skills"]; Sample.dir ["r"; "skills"; "foo"];
         Sample.file ["r"; "skills"; "foo"; "SKILL.md"]
           (PyStr.join PyStr.nl ["---"; "name: foo"; "Tags: [a]"; "---"; "body"]) ])
  = (Ret tt,
     with_event
       (with_fs
          (Sample.world
             [ Sample.dir ["r"]; Sample.dir ["r"; "skills"];
               Sample.dir ["r"; "skills"; "foo"];
               Sample.file ["r"; "skills"; "foo"; "SKILL.md"]
                 (PyStr.join PyStr.nl ["---"; "name: foo"; "Tags: [a]"; "---"; "body"]) ])
          (<[ ["r"; "skills"; "foo"; "SKILL.md"] :=
                NFile (PyStr.join PyStr.nl
                         ["---"; "name: foo"; "tags: [coding, python]"; "---"; "body"]) ]>
             (fs (Sample.world
                    [ Sample.dir ["r"]; Sample.dir ["r"; "skills"];
                      Sample.dir ["r"; "skills"; "foo"];
                      Sample.file ["r"; "skills"; "foo"; "SKILL.md"]
                        (PyStr.join PyStr.nl
                           ["---"; "name: foo"; "Tags: [a]"; "---"; "body"]) ]))))
       (EvWrite ["r"; "skills"; "foo"; "SKILL.md"])).
Proof.
  apply (update_tags_in_skill_md_rewrites
           ["r"; "skills"; "foo"; "SKILL.md"] ["coding"; "python"] _
           (PyStr.join PyStr.nl ["---"; "name: foo"; "Tags: [a]"; "---"; "body"])
           ("---" +:+ PyStr.nl)
           ["name: foo" +:+ PyStr.nl; "Tags: [a]" +:+ PyStr.nl]
           ("---" +:+ PyStr.nl) ["body"]).
  - vm_compute. reflexivity.
  - vm_compute. reflexivity.
  - vm_compute. reflexivity.
  - repeat constructor.
  - vm_compute. reflexivity.
Defined.


Lemma update_tags_in_skill_md_keeps_scan p new_tags w :
  state_scan (snd (_update_tags_in_skill_md p new_tags w)) = state_scan w.
Proof.
  unfold _update_tags_in_skill_md, bind, read_text.
  destruct (Fs.read_text (fs w) p) as [e|text]; [reflexivity|].
  destruct (PyStr.splitlines_keepends text) as [|open_delim after]; [reflexivity|].
  destruct (negb (is_delim open_delim)); [reflexivity|].
  destruct (find_end_index 1 after) as [end_index|]; [|reflexivity].
  destruct (replace_tags_lines _ _) as [replaced found].
  unfold write_text, fs_op.
  destruct (Fs.write_text (fs w) p _) as [e|f]; reflexivity.
Qed.

Section TagToolMore.
Context `{Collaborators}.
Variable config : AppConfig.

Lemma apply_update_returns allowed upd w scan :
  state_scan w = Some scan ->
  exists r w',
    apply_update allowed upd w = (Ret r, w') /\ state_scan w' = Some scan.
Proof.
  intros Hscan. unfold apply_update.
  destruct (negb (PyStr.truthy _)); [eexists _, w; split; [reflexivity | exact Hscan]|].
  destruct (normalize_tags (default [] (upd_tags upd))) as [|t ts] eqn:Htags;
    [eexists _, w; split; [reflexivity | exact Hscan]|].
  destruct (List.filter _ (t :: ts)) as [|bad rest];
    [|eexists _, w; split; [reflexivity | exact Hscan]].
  unfold bind at 1, get_scan. rewrite Hscan.
  destruct (List.find _ (skills scan)) as [skill|];
    [|eexists _, w; split; [reflexivity | exact Hscan]].
  unfold try_except, bind.
  pose proof (update_tags_in_skill_md_keeps_scan (skill_path skill) (t :: ts) w) as Hkeep.
  destruct (_update_tags_in_skill_md (skill_path skill) (t :: ts) w) as [[[]|e] w1];
    cbn [snd] in Hkeep; eexists _, w1; (split; [reflexivity | congruence]).
Qed.

Lemma apply_updates_returns allowed updates w scan :
  state_scan w = Some scan ->
  exists rs w',
    apply_updates allowed updates w = (Ret rs, w')
    /\ List.length rs = List.length updates
    /\ state_scan w' = Some scan.
Proof.
  revert w. induction updates as [|upd rest IH]; intros w Hscan.
  - exists [], w. auto.
  - cbn [apply_updates]. unfold bind at 1.
    destruct (apply_update_returns allowed upd w scan Hscan) as (r & w1 & -> & Hs1).
    unfold bind at 1.
    destruct (IH w1 Hs1) as (rs & w2 & -> & Hlen & Hs2).
    exists (r :: rs), w2. cbn [ret List.length]. auto.
Qed.

(** In apply mode no update stops the batch: when [update_tags] returns,
    its [results] hold one entry for each update, failed or not. *)
Theorem update_tags_one_result_per_update mode updates w d w' :
  PyStr.lower (PyStr.strip (if PyStr.truthy mode then mode else "list")) = "apply" ->
  updates <> [] ->
  update_tags config mode (Some updates) w = (Ret d, w') ->
  exists rs,
    d = [("ok", VBool true); ("results", VList rs)]
    /\ List.length rs = List.length updates.
Proof.
  intros Hmode Hne. unfold update_tags, bind at 1.
  destruct (_ensure_state_loaded config w) as [[[]|e] w0] eqn:Hensure;
    [|discriminate].
  apply ensure_state_loaded_state in Hensure as (r & s & Hr & Hs).
  rewrite Hmode. cbn [String.eqb Ascii.eqb Bool.eqb negb].
  destruct updates as [|upd rest]; [congruence|].
  unfold bind at 1, get_registry. rewrite Hr.
  unfold bind at 1.
  destruct (apply_updates_returns (allowed_tags r) (upd :: rest) w0 s Hs)
    as (rs & w1 & -> & Hlen & _).
  unfold bind, ret.
  destruct (rescan_and_save config w1) as [[[]|e] w2]; [|discriminate].
  intros [= <- <-]. exists rs. auto.
Qed.

End TagToolMore.

Lemma update_tags_one_result_per_update_witness :
  exists rs,
    match fst (@update_tags Sample.collaborators (Sample.config [["r"; "skills"]])
                 " Apply "
                 (Some [ {| upd_skill_id := Some "ghost"; upd_tags := Some ["x"] |};
                         {| upd_skill_id := None; upd_tags := None |} ])
                 (Sample.world [Sample.dir ["cache"]; Sample.dir ["r"];
                                Sample.dir ["r"; "skills"]]))
    with Ret d => d | Raise _ => [] end
    = [("ok", VBool true); ("results", VList rs)]
    /\ List.length rs
       = List.length [ {| upd_skill_id := Some "ghost"; upd_tags := Some ["x"] |};
                       {| upd_skill_id := None; upd_tags := None |} ].
Proof.
  apply (@update_tags_one_result_per_update Sample.collaborators
           (Sample.config [["r"; "skills"]]) " Apply " _
           (Sample.world [Sample.dir ["cache"]; Sample.dir ["r"]; Sample.dir ["r"; "skills"]])
           _
           (snd (@update_tags Sample.collaborators (Sample.config [["r"; "skills"]])
                   " Apply "
                   (Some [ {| upd_skill_id := Some "ghost"; upd_tags := Some ["x"] |};
                           {| upd_skill_id := None; upd_tags := None |} ])
                   (Sample.world [Sample.dir ["cache"]; Sample.dir ["r"];
                                  Sample.dir ["r"; "skills"]])))).
  - vm_compute. reflexivity.
  - discriminate.
  - vm_compute. reflexivity.
Defined.

(** ** Searching and reading skills *)

Section ReadingMore.
Context `{Collaborators}.
Variable config : AppConfig.

Lemma filter_all {A} (f : A -> bool) (l : list A) :
  (forall x, f x = true) -> List.filter f l = l.
Proof.
  intros Hf. induction l as [|x l IH]; [reflexivity|].
  cbn [List.filter]. rewrite Hf, IH. reflexivity.
Qed.

(** With no query, or a blank one, and no tags, [search_skills] returns
    every skill of the index, in the order of the index, and their
    number. *)
Theorem search_skills_without_filter query tags_arg w w1 scan :
  normalize_tags [] = [] ->
  PyStr.strip (default "" query) = "" ->
  default [] tags_arg = [] ->
  _ensure_state_loaded config w = (Ret tt, w1) ->
  state_scan w1 = Some scan ->
  search_skills config query tags_arg w
  = (Ret [ ("ok", VBool true);
           ("count", VInt (List.length (skills scan)));
           ("results", VList (map _summarize_skill (skills scan))) ], w1).
Proof.
  intros Hnorm Hquery Htags Hensure Hscan.
  unfold search_skills, bind. rewrite Hensure. unfold get_scan. rewrite Hscan.
  rewrite Hquery, Htags, Hnorm. cbn [PyStr.lower].
  rewrite filter_all by reflexivity. rewrite length_map. reflexivity.
Qed.

(** [get_skill_details] reads the skill file before it looks at the
    section asked for: when the file of an indexed skill cannot be read,
    the call raises the error of the read, even for a summary. *)
Theorem get_skill_details_needs_file skill_id_arg section max_lines w w1 scan s e :
  _ensure_state_loaded config w = (Ret tt, w1) ->
  state_scan w1 = Some scan ->
  List.find (fun s => String.eqb (skill_id s) skill_id_arg) (skills scan) = Some s ->
  Fs.read_text (fs w1) (skill_path s) = inl e ->
  get_skill_details config skill_id_arg section max_lines w
  = (Raise (EOSError e), w1).
Proof.
  intros Hensure Hscan Hfind Hread.
  unfold get_skill_details, bind. rewrite Hensure. unfold get_scan. rewrite Hscan.
  rewrite Hfind. unfold read_text. rewrite Hread. reflexivity.
Qed.

End ReadingMore.

Lemma search_skills_without_filter_witness :
  @search_skills Sample.collaborators (Sample.config [["r"; "skills"]])
    (Some "   ") (Some [])
    {| fs := ∅; state_registry := Some {| allowed_tags := ∅ |};
       state_scan := Some {| tree := MkTreeNode [] []; skills := [ {| skill_id := "foo";
                        skill_path := ["r"; "skills"; "foo"; "SKILL.md"];
                        frontmatter := {| title := "foo"; description := ""; tags := [] |};
                        description_snapshot := ""; tag_issues := [];
                        category_path := [] |} ] |};
       trace := [] |}
  = (Ret [ ("ok", VBool true);
           ("count", VInt (List.length (skills {| tree := MkTreeNode [] []; skills := [ {| skill_id := "foo";
                        skill_path := ["r"; "skills"; "foo"; "SKILL.md"];
                        frontmatter := {| title := "foo"; description := ""; tags := [] |};
                        description_snapshot := ""; tag_issues := [];
                        category_path := [] |} ] |})));
           ("results", VList (map _summarize_skill (skills {| tree := MkTreeNode [] []; skills := [ {| skill_id := "foo";
                        skill_path := ["r"; "skills"; "foo"; "SKILL.md"];
                        frontmatter := {| title := "foo"; description := ""; tags := [] |};
                        description_snapshot := ""; tag_issues := [];
                        category_path := [] |} ] |}))) ],
     {| fs := ∅; state_registry := Some {| allowed_tags := ∅ |};
        state_scan := Some {| tree := MkTreeNode [] []; skills := [ {| skill_id := "foo";
                        skill_path := ["r"; "skills"; "foo"; "SKILL.md"];
                        frontmatter := {| title := "foo"; description := ""; tags := [] |};
                        description_snapshot := ""; tag_issues := [];
                        category_path := [] |} ] |};
        trace := [EvAcquire; EvRelease] |}).
Proof.
  apply (@search_skills_without_filter Sample.collaborators
           (Sample.config [["r"; "skills"]]) (Some "   ") (Some [])).
  - reflexivity.
  - reflexivity.
  - reflexivity.
  - reflexivity.
  - reflexivity.
Defined.

Lemma get_skill_details_needs_file_witness :
  @get_skill_details Sample.collaborators (Sample.config [["r"; "skills"]])
    "foo" "summary" None
    {| fs := ∅; state_registry := Some {| allowed_tags := ∅ |};
       state_scan :=
         Some {| tree := MkTreeNode [] [];
                 skills :=
                   [ {| skill_id := "foo";
                        skill_path := ["r"; "skills"; "foo"; "SKILL.md"];
                        frontmatter := {| title := "foo"; description := ""; tags := [] |};
                        description_snapshot := ""; tag_issues := [];
                        category_path := [] |} ] |};
       trace := [] |}
  = (Raise (EOSError (FileNotFoundError ["r"; "skills"; "foo"; "SKILL.md"])),
     {| fs := ∅; state_registry := Some {| allowed_tags := ∅ |};
        state_scan :=
          Some {| tree := MkTreeNode [] [];
                  skills :=
                    [ {| skill_id := "foo";
                         skill_path := ["r"; "skills"; "foo"; "SKILL.md"];
                         frontmatter := {| title := "foo"; description := ""; tags := [] |};
                         description_snapshot := ""; tag_issues := [];
                         category_path := [] |} ] |};
        trace := [EvAcquire; EvRelease] |}).
Proof.
  apply (@get_skill_details_needs_file Sample.collaborators
           (Sample.config [["r"; "skills"]]) "foo" "summary" None _ _
           {| tree := MkTreeNode [] [];
              skills :=
                [ {| skill_id := "foo";
                     skill_path := ["r"; "skills"; "foo"; "SKILL.md"];
                     frontmatter := {| title := "foo"; description := ""; tags := [] |};
                     description_snapshot := ""; tag_issues := [];
                     category_path := [] |} ] |}
           {| skill_id := "foo";
              skill_path := ["r"; "skills"; "foo"; "SKILL.md"];
              frontmatter := {| title := "foo"; description := ""; tags := [] |};
              description_snapshot := ""; tag_issues := [];
              category_path := [] |}).
  - reflexivity.
  - reflexivity.
  - reflexivity.
  - reflexivity.
Defined.

(** ** The index after a mutation *)

Lemma same_state_refl w : same_state w w.
Proof. split; reflexivity. Qed.

Lemma same_state_trans w1 w2 w3 :
  same_state w1 w2 -> same_state w2 w3 -> same_state w1 w3.
Proof. intros [H1 H2] [H3 H4]. split; congruence. Qed.

Lemma keeps_state_ret {A} (a : A) : keeps_state (ret a).
Proof. intros w. apply same_state_refl. Qed.

Lemma keeps_state_bind {A B} (m : M A) (k : A -> M B) :
  keeps_state m -> (forall a, keeps_state (k a)) -> keeps_state (bind m k).
Proof.
  intros Hm Hk w. unfold bind. specialize (Hm w).
  destruct (m w) as [[a|e] w1]; [|exact Hm].
  eapply same_state_trans; [exact Hm | apply Hk].
Qed.

Lemma keeps_state_try_except {A} (m : M A) (h : exn -> M A) :
  keeps_state m -> (forall e, keeps_state (h e)) -> keeps_state (try_except m h).
Proof.
  intros Hm Hh w. unfold try_except. specialize (Hm w).
  destruct (m w) as [[a|e] w1]; [exact Hm|].
  eapply same_state_trans; [exact Hm | apply Hh].
Qed.

Lemma keeps_state_attempt {A} (m : M unit) (h : exn -> M A) :
  keeps_state m -> (forall e, keeps_state (h e)) -> keeps_state (attempt m h).
Proof.
  intros Hm Hh. unfold attempt. apply keeps_state_try_except.
  - apply keeps_state_bind; [exact Hm | intros; apply keeps_state_ret].
  - intros e. apply keeps_state_bind; [apply Hh | intros; apply keeps_state_ret].
Qed.

Lemma keeps_state_fs_op op ev : keeps_state (fs_op op ev).
Proof.
  intros w. unfold fs_op. destruct (op (fs w)); split; reflexivity.
Qed.

Lemma keeps_state_rmtree p : keeps_state (rmtree p).
Proof.
  intros w. unfold rmtree. destruct (Fs.rmtree (fs w) p) as [[e|] f];
    split; reflexivity.
Qed.

Ltac keeps_state_step :=
  first
    [ apply keeps_state_ret
    | apply keeps_state_fs_op | apply keeps_state_rmtree
    | (intros ?w; split; reflexivity)
    | apply keeps_state_attempt; [|intros ?]
    | apply keeps_state_try_except; [|intros ?]
    | apply keeps_state_bind; [|intros ?]
    | match goal with
      | |- keeps_state (if ?b then _ else _) => destruct b
      | |- keeps_state (match ?x with _ => _ end) => destruct x
      | |- keeps_state (let '(_, _) := ?x in _) => destruct x
      end ].



Section IndexAfterMutation.
Context `{Collaborators}.
Variable config : AppConfig.

Lemma create_skill_keeps_state roots a : keeps_state (create_skill roots a).
Proof.
  unfold create_skill, create_optional_dirs, rmtree_ignore_errors, path_exists,
    mkdir_parents, mkdir_exist_ok, write_text.
  destruct (parse_skill_path (arg_path a)) as [[cat name] error].
  repeat keeps_state_step.
Qed.

(** What [rescan_and_save] leaves when it returns. *)
Lemma rescan_and_save_ok w registry w' :
  state_registry w = Some registry ->
  rescan_and_save config w = (Ret tt, w') ->
  exists scan,
    scan_skills (fs w) (roots config) registry = inr scan
    /\ state_scan w' = Some scan
    /\ state_registry w' = Some registry
    /\ save_index (fs w) (cache_path config) scan = (None, fs w')
    /\ trace w' = trace w ++ [EvScan; EvSave].
Proof.
  intros Hreg. unfold rescan_and_save, bind, get_registry, call_scan_skills,
    set_scan, get_scan, call_save_index.
  rewrite Hreg.
  destruct (scan_skills (fs w) (roots config) registry) as [e|scan]; [discriminate|].
  cbn [state_scan fs with_event].
  destruct (save_index (fs w) (cache_path config) scan) as [[e|] f] eqn:Hsave;
    [discriminate|].
  intros [= <-]. exists scan.
  cbn [state_scan state_registry fs trace with_fs with_event].
  rewrite <- app_assoc. auto.
Qed.

(** When [create_new_skill] answers [ok]: the state was loaded,
    [create_skill] ran on the configured roots and returned that answer,
    the file it names exists, and then the roots were scanned with the
    registry of the state, the scan was stored as the index in memory and
    saved to the cache, which is the last thing the call did. *)
Theorem create_new_skill_ok_refreshes a w d w' :
  create_new_skill config a w = (Ret d, w') ->
  dict_ok d = true ->
  exists w0 w1 registry scan md content,
    _ensure_state_loaded config w = (Ret tt, w0)
    /\ state_registry w0 = Some registry
    /\ create_skill (roots config) a w0 = (Ret d, w1)
    /\ dict_get d "skill_path" = Some (VStr (PyPath.str md))
    /\ Fs.lookup (fs w1) md = Some (NFile content)
    /\ scan_skills (fs w1) (roots config) registry = inr scan
    /\ state_registry w' = Some registry
    /\ state_scan w' = Some scan
    /\ save_index (fs w1) (cache_path config) scan = (None, fs w')
    /\ trace w' = trace w1 ++ [EvScan; EvSave].
Proof.
  unfold create_new_skill, bind at 1.
  destruct (_ensure_state_loaded config w) as [[[]|e] w0] eqn:Hensure;
    [|discriminate].
  pose proof (ensure_state_loaded_state config _ _ _ Hensure) as (r & s & Hr & Hs).
  unfold bind at 1.
  destruct (create_skill (roots config) a w0) as [[d0|e] w1] eqn:Hcreate;
    [|discriminate].
  destruct (dict_ok d0) eqn:Hok0.
  - unfold bind, ret.
    destruct (rescan_and_save config w1) as [[[]|e] w2] eqn:Hrescan; [|discriminate].
    intros [= <- <-] _.
    destruct (create_skill_keeps_state (roots config) a w0) as [Hr1 _].
    rewrite Hcreate in Hr1. cbn [snd] in Hr1. rewrite Hr in Hr1.
    destruct (rescan_and_save_ok w1 r w2 Hr1 Hrescan)
      as (scan & Hscan & Hstate & Hreg & Hsave & Htrace).
    destruct (create_skill_ok_inv _ _ _ _ _ Hcreate Hok0)
      as (cat & name & target & _ & _ & _ & _ & _ & Hfile & _ & Hpath).
    exists w0, w1, r, scan, (target ++ cat ++ [name; "SKILL.md"]).
    eexists. repeat split; eauto.
  - unfold bind, ret. intros [= <- <-] Hok. congruence.
Qed.


End IndexAfterMutation.

Lemma create_new_skill_ok_refreshes_witness :
  let out :=
    (@create_new_skill Sample.collaborators (Sample.config [["r"; "skills"]])
         (Sample.args "coding/helper" "d")
         (Sample.world [Sample.dir ["r"]; Sample.dir ["r"; "skills"];
                        Sample.dir ["cache"]])) in
  let d := match fst out with Ret d => d | Raise _ => [] end in
  exists w0 w1 registry scan md content,
    @_ensure_state_loaded Sample.collaborators (Sample.config [["r"; "skills"]])
      (Sample.world [Sample.dir ["r"]; Sample.dir ["r"; "skills"];
                        Sample.dir ["cache"]])
    = (Ret tt, w0)
    /\ state_registry w0 = Some registry
    /\ @create_skill Sample.collaborators [["r"; "skills"]]
         (Sample.args "coding/helper" "d") w0 = (Ret d, w1)
    /\ dict_get d "skill_path" = Some (VStr (PyPath.str md))
    /\ Fs.lookup (fs w1) md = Some (NFile content)
    /\ Sample.scan (fs w1) [["r"; "skills"]] registry = inr scan
    /\ state_registry (snd out) = Some registry
    /\ state_scan (snd out) = Some scan
    /\ Sample.save (fs w1) ["cache"; "index"] scan = (None, fs (snd out))
    /\ trace (snd out) = trace w1 ++ [EvScan; EvSave].
Proof.
  cbv zeta.
  apply (@create_new_skill_ok_refreshes Sample.collaborators
           (Sample.config [["r"; "skills"]]) (Sample.args "coding/helper" "d")
           (Sample.world [Sample.dir ["r"]; Sample.dir ["r"; "skills"];
                        Sample.dir ["cache"]])).
  - vm_compute. reflexivity.
  - vm_compute. reflexivity.
Defined.


(** ** A new skill file and the tag update *)

Lemma append_cons (x : ascii) (a b : string) : String x a +:+ b = String x (a +:+ b).
Proof. reflexivity. Qed.

Lemma append_assoc (a b c : string) : (a +:+ b) +:+ c = a +:+ (b +:+ c).
Proof.
  induction a as [|x a IH]; [reflexivity|]. rewrite !append_cons. f_equal. exact IH.
Qed.

Lemma find_end_index_exists i lines :
  Exists (fun line => is_delim line = true) lines ->
  exists j, find_end_index i lines = Some j.
Proof.
  intros Hex. revert i. induction Hex as [line lines Hd | line lines _ IH]; intros i.
  - simpl. rewrite Hd. eauto.
  - simpl. destruct (is_delim line); eauto.
Qed.

(** After any text, a line feed starts a new line: the delimiter line that
    follows it is one of the lines read. *)
Lemma splitlines_delim_after n : forall mid cur rest,
  String.length mid <= n ->
  Exists (fun line => is_delim line = true)
    (PyStr.splitlines_from cur
       (PyStr.universal_newlines (mid +:+ PyStr.nl +:+ delim_line +:+ rest))).
Proof.
  induction n as [|n IH]; intros mid cur rest Hlen.
  - destruct mid; [|simpl in Hlen; lia].
    simpl. apply Exists_cons_tl. apply Exists_cons_hd. reflexivity.
  - destruct mid as [|c mid].
    + simpl. apply Exists_cons_tl. apply Exists_cons_hd. reflexivity.
    + simpl in Hlen.
      change (String c mid +:+ PyStr.nl +:+ delim_line +:+ rest)
        with (String c (mid +:+ PyStr.nl +:+ delim_line +:+ rest)).
      cbn [PyStr.universal_newlines].
      destruct (Ascii.eqb c (ascii_of_nat 13)) eqn:Hc.
      * destruct mid as [|d mid].
        -- simpl. apply Exists_cons_tl. apply Exists_cons_hd. reflexivity.
        -- change (String d mid +:+ PyStr.nl +:+ delim_line +:+ rest)
             with (String d (mid +:+ PyStr.nl +:+ delim_line +:+ rest)).
           simpl in Hlen.
           destruct (Ascii.eqb d (ascii_of_nat 10)) eqn:Hd; rewrite ?Hd.
           ++ apply Ascii.eqb_eq in Hd. subst d.
              cbn [PyStr.splitlines_from]. simpl Ascii.eqb. cbv iota.
              change (PyStr.islinebreak (ascii_of_nat 10)) with true. cbv iota.
              apply Exists_cons_tl. apply IH. lia.
           ++ cbn [PyStr.splitlines_from]. simpl Ascii.eqb. cbv iota.
              change (PyStr.islinebreak (ascii_of_nat 10)) with true. cbv iota.
              apply Exists_cons_tl.
              rewrite <- append_cons. apply (IH (String d mid)). simpl. lia.
      * cbn [PyStr.splitlines_from]. rewrite Hc.
        destruct (PyStr.islinebreak c).
        -- apply Exists_cons_tl. apply IH. lia.
        -- apply IH. lia.
Qed.

Lemma join_cons_nonempty sep x l :
  l <> [] -> PyStr.join sep (x :: l) = x +:+ sep +:+ PyStr.join sep l.
Proof. destruct l; [congruence | reflexivity]. Qed.

Lemma join_snoc sep l x :
  l <> [] -> PyStr.join sep (l ++ [x]) = PyStr.join sep l +:+ sep +:+ x.
Proof.
  induction l as [|y l IH]; [congruence|]. intros _.
  destruct l as [|z l]; [reflexivity|].
  change ((y :: z :: l) ++ [x]) with (y :: ((z :: l) ++ [x])).
  rewrite join_cons_nonempty by (simpl; discriminate).
  rewrite IH by discriminate.
  rewrite (join_cons_nonempty sep y (z :: l)) by discriminate.
  rewrite !append_assoc. reflexivity.
Qed.

(** The text of a new skill file: a delimiter line, the frontmatter, a
    line feed, a delimiter line again, and the body. *)
Lemma generate_skill_markdown_shape name description tags instructions license metadata :
  exists mid rest,
    generate_skill_markdown name description tags instructions license metadata
    = delim_line +:+ mid +:+ PyStr.nl +:+ delim_line +:+ rest.
Proof.
  unfold generate_skill_markdown.
  set (extras := _ ++ _ ++ _ ++ ["---"]).
  assert (exists l, extras = l ++ ["---"]) as [l ->].
  { unfold extras. eexists. rewrite !app_assoc. reflexivity. }
  assert (exists rest,
            match instructions with
            | Some i => if PyStr.truthy i then PyStr.nl +:+ PyStr.nl +:+ i
                        else skill_template
            | None => skill_template
            end = PyStr.nl +:+ rest) as [rest ->].
  { destruct instructions as [i|]; [destruct (PyStr.truthy i)|]; eexists; reflexivity. }
  exists (PyStr.join PyStr.nl (("name: " +:+ name) :: ("description: " +:+ description) :: l)),
    rest.
  change (["---"; "name: " +:+ name; "description: " +:+ description] ++ l ++ ["---"])
    with ("---" :: (("name: " +:+ name) :: ("description: " +:+ description) :: l) ++ ["---"]).
  rewrite join_cons_nonempty by discriminate.
  rewrite join_snoc by discriminate.
  change delim_line with ("---" +:+ PyStr.nl).
  rewrite !append_assoc. reflexivity.
Qed.

Lemma update_tags_in_skill_md_accepts skill_md_path new_tags w mid rest :
  Fs.lookup (fs w) skill_md_path
  = Some (NFile (delim_line +:+ mid +:+ PyStr.nl +:+ delim_line +:+ rest)) ->
  exists content,
    _update_tags_in_skill_md skill_md_path new_tags w
    = (Ret tt,
       with_event (with_fs w (<[skill_md_path := NFile content]> (fs w)))
         (EvWrite skill_md_path)).
Proof.
  intros Hfile.
  unfold _update_tags_in_skill_md, bind, read_text, Fs.read_text.
  rewrite Hfile.
  change (PyStr.splitlines_keepends
            (PyStr.universal_newlines
               (delim_line +:+ mid +:+ PyStr.nl +:+ delim_line +:+ rest)))
    with (delim_line
          :: PyStr.splitlines_from ""
               (PyStr.universal_newlines (mid +:+ PyStr.nl +:+ delim_line +:+ rest))).
  cbv beta iota. change (is_delim delim_line) with true. cbn [negb].
  destruct (find_end_index_exists 1 _
              (splitlines_delim_after (String.length mid) mid "" rest (le_n _)))
    as [j ->].
  destruct (replace_tags_lines _ _) as [replaced found].
  unfold write_text, fs_op, Fs.write_text. rewrite Hfile. eauto.
Qed.

Section Composition.
Context `{Collaborators}.

(** A skill that [create_skill] has just created can have its tags
    updated: the file it wrote has a frontmatter that
    [_update_tags_in_skill_md] accepts, so the update writes the file and
    raises nothing. *)
Theorem created_skill_accepts_tag_update roots a w d w' :
  create_skill roots a w = (Ret d, w') ->
  dict_ok d = true ->
  exists md,
    dict_get d "skill_path" = Some (VStr (PyPath.str md))
    /\ forall new_tags,
         exists content,
           _update_tags_in_skill_md md new_tags w'
           = (Ret tt,
              with_event (with_fs w' (<[md := NFile content]> (fs w'))) (EvWrite md)).
Proof.
  intros Hrun Hok.
  destruct (create_skill_ok_inv roots a w d w' Hrun Hok)
    as (cat & name & target & _ & _ & _ & _ & _ & Hfile & _ & Hpath).
  exists (target ++ cat ++ [name; "SKILL.md"]). split; [exact Hpath|].
  intros new_tags.
  destruct (generate_skill_markdown_shape name (arg_description a)
              (normalize_tags (default [] (arg_tags a)))
              (arg_instructions a) (arg_license a) (arg_metadata a))
    as (mid & rest & Hshape).
  rewrite Hshape in Hfile.
  exact (update_tags_in_skill_md_accepts _ new_tags w' mid rest Hfile).
Qed.
End Composition.

(** ** Cutting a text to a number of lines *)

Lemma append_empty_r (a : string) : a +:+ "" = a.
Proof. induction a as [|x a IH]; [reflexivity|]. rewrite append_cons, IH. reflexivity. Qed.

Lemma no_linebreak_app a b :
  no_linebreak (a +:+ b) = no_linebreak a && no_linebreak b.
Proof.
  induction a as [|x a IH]; [reflexivity|].
  rewrite append_cons. cbn [no_linebreak]. rewrite IH, andb_assoc. reflexivity.
Qed.

Lemma islinebreak_cr c :
  PyStr.islinebreak c = false -> Ascii.eqb c (ascii_of_nat 13) = false.
Proof.
  intros Hc. destruct (Ascii.eqb_spec c (ascii_of_nat 13)) as [->|]; [|reflexivity].
  discriminate Hc.
Qed.

(** The lines [splitlines] gives hold no line boundary. *)
Lemma splitlines_from_no_linebreak n : forall s cur,
  String.length s <= n ->
  no_linebreak cur = true ->
  Forall (fun line => no_linebreak line = true) (PyText.splitlines_from cur s).
Proof.
  induction n as [|n IH]; intros s cur Hlen Hcur.
  - destruct s; [|simpl in Hlen; lia]. simpl. destruct cur; auto.
  - destruct s as [|c s]; [simpl; destruct cur; auto|].
    simpl in Hlen. cbn [PyText.splitlines_from].
    destruct (Ascii.eqb c (ascii_of_nat 13)).
    + destruct s as [|d s]; [auto|]. simpl in Hlen.
      destruct (Ascii.eqb d (ascii_of_nat 10));
        (constructor; [exact Hcur|]); apply IH; simpl; try lia; reflexivity.
    + destruct (PyStr.islinebreak c) eqn:Hc.
      * constructor; [exact Hcur|]. apply IH; [lia | reflexivity].
      * apply IH; [lia|]. rewrite no_linebreak_app, Hcur. cbn [no_linebreak].
        rewrite Hc. reflexivity.
Qed.

(** A text without a line boundary is read as one line, up to the line
    feed that ends it. *)
Lemma splitlines_from_line line : forall cur rest,
  no_linebreak line = true ->
  PyText.splitlines_from cur (line +:+ PyStr.nl +:+ rest)
  = (cur +:+ line) :: PyText.splitlines_from "" rest.
Proof.
  induction line as [|c line IH]; intros cur rest Hline.
  - rewrite append_empty_r. reflexivity.
  - cbn [no_linebreak] in Hline. apply andb_true_iff in Hline as [Hc Hline].
    apply negb_true_iff in Hc.
    rewrite append_cons. cbn [PyText.splitlines_from].
    rewrite (islinebreak_cr c Hc), Hc, IH by exact Hline.
    rewrite append_assoc. reflexivity.
Qed.

Lemma splitlines_from_last line : forall cur,
  no_linebreak line = true ->
  PyText.splitlines_from cur line
  = match cur +:+ line with EmptyString => [] | _ => [cur +:+ line] end.
Proof.
  induction line as [|c line IH]; intros cur Hline.
  - rewrite append_empty_r. reflexivity.
  - cbn [no_linebreak] in Hline. apply andb_true_iff in Hline as [Hc Hline].
    apply negb_true_iff in Hc.
    cbn [PyText.splitlines_from].
    rewrite (islinebreak_cr c Hc), Hc, IH by exact Hline.
    rewrite append_assoc. reflexivity.
Qed.

Lemma splitlines_join lines last :
  Forall (fun line => no_linebreak line = true) lines ->
  lines <> [] ->
  no_linebreak last = true ->
  last <> "" ->
  PyText.splitlines (PyStr.join PyStr.nl lines +:+ PyStr.nl +:+ last)
  = lines ++ [last].
Proof.
  unfold PyText.splitlines.
  induction 1 as [|line lines Hline Hlines IH]; [congruence|]. intros _ Hlast Hne.
  destruct lines as [|line' lines].
  - cbn [PyStr.join app]. rewrite splitlines_from_line by exact Hline.
    rewrite splitlines_from_last by exact Hlast.
    destruct last; [congruence | reflexivity].
  - change (PyStr.join PyStr.nl (line :: line' :: lines))
      with (line +:+ PyStr.nl +:+ PyStr.join PyStr.nl (line' :: lines)).
    rewrite !append_assoc. rewrite splitlines_from_line by exact Hline.
    rewrite IH by (assumption || discriminate). reflexivity.
Qed.

Lemma string_of_uint_no_linebreak u :
  no_linebreak (NilEmpty.string_of_uint u) = true.
Proof. induction u; cbn [NilEmpty.string_of_uint no_linebreak]; auto. Qed.

Lemma truncation_marker_line more :
  no_linebreak (truncation_marker more) = true /\ truncation_marker more <> "".
Proof.
  split; [|discriminate]. unfold truncation_marker, PyStr.str_of_nat.
  rewrite !no_linebreak_app, string_of_uint_no_linebreak. reflexivity.
Qed.

(** A text of more than [max_lines] lines is cut to its first [max_lines]
    lines followed by one line that tells how many were left out. *)
Theorem apply_max_lines_truncates text (max_lines : Z) :
  (0 < max_lines)%Z ->
  Z.to_nat max_lines < List.length (PyText.splitlines text) ->
  PyText.splitlines (_apply_max_lines text (Some max_lines))
  = firstn (Z.to_nat max_lines) (PyText.splitlines text)
    ++ [truncation_marker
          (List.length (PyText.splitlines text) - Z.to_nat max_lines)].
Proof.
  intros Hpos Hlong. unfold _apply_max_lines.
  destruct (Z.leb_spec max_lines 0) as [Hle|_]; [lia|].
  destruct (Nat.leb_spec (List.length (PyText.splitlines text)) (Z.to_nat max_lines))
    as [Hle|_]; [lia|].
  destruct (truncation_marker_line
              (List.length (PyText.splitlines text) - Z.to_nat max_lines))
    as [Hmarker Hne].
  apply splitlines_join; [| |exact Hmarker|exact Hne].
  - apply Forall_take.
    apply (splitlines_from_no_linebreak (String.length text)); [lia | reflexivity].
  - intros Hnil. apply (f_equal (@List.length string)) in Hnil.
    rewrite length_firstn in Hnil. simpl in Hnil. lia.
Qed.

(** ** Extracting a section *)

Lemma find_section_inner section_lower inner : forall i start,
  Forall (fun raw => is_header raw = false) inner ->
  find_section section_lower i inner (Some start) = (Some start, None).
Proof.
  induction inner as [|raw inner IH]; intros i start Hinner; [reflexivity|].
  apply Forall_cons in Hinner as [Hraw Hinner].
  cbn [find_section]. rewrite Hraw. apply IH, Hinner.
Qed.

Lemma find_section_inner_header section_lower inner next rest : forall i start,
  Forall (fun raw => is_header raw = false) inner ->
  is_header next = true ->
  find_section section_lower i (inner ++ next :: rest) (Some start)
  = (Some start, Some (i + List.length inner)).
Proof.
  induction inner as [|raw inner IH]; intros i start Hinner Hnext.
  - cbn [app find_section List.length]. rewrite Hnext, Nat.add_0_r. reflexivity.
  - apply Forall_cons in Hinner as [Hraw Hinner].
    cbn [app find_section List.length]. rewrite Hraw, IH by assumption.
    f_equal. f_equal. lia.
Qed.

Lemma find_section_before section_lower before tail : forall i,
  Forall (fun raw => starts_section section_lower raw = false) before ->
  find_section section_lower i (before ++ tail) None
  = find_section section_lower (i + List.length before) tail None.
Proof.
  induction before as [|raw before IH]; intros i Hbefore.
  - cbn [app List.length]. rewrite Nat.add_0_r. reflexivity.
  - apply Forall_cons in Hbefore as [Hraw Hbefore].
    cbn [app find_section List.length]. unfold starts_section in Hraw.
    destruct (is_header raw); cbn [andb] in Hraw;
      rewrite ?Hraw, IH by assumption; f_equal; lia.
Qed.

(** In a document whose body holds a header naming the section, lines
    without header after it, and then the next header or the end,
    [_extract_section] gives that header and those lines, and no more. *)
Theorem extract_section_finds content section front before header inner rest :
  PyText.splitlines content = front ++ before ++ header :: inner ++ rest ->
  body_start (PyText.splitlines content) = List.length front ->
  Forall (fun raw => starts_section (PyStr.lower section) raw = false) before ->
  starts_section (PyStr.lower section) header = true ->
  Forall (fun raw => is_header raw = false) inner ->
  match rest with [] => True | next :: _ => is_header next = true end ->
  _extract_section content section
  = PyStr.strip (PyStr.join PyStr.nl (header :: inner)).
Proof.
  intros Hlines Hstart Hbefore Hheader Hinner Hrest.
  unfold _extract_section. rewrite Hstart, Hlines.
  rewrite drop_app_length.
  rewrite find_section_before by exact Hbefore.
  apply andb_true_iff in Hheader as [Hh Hc].
  cbn [find_section]. rewrite Hh, Hc.
  assert (PyText.slice (List.length front + List.length before)
            (List.length front + List.length before + 1 + List.length inner)
            (front ++ before ++ header :: inner ++ rest)
          = header :: inner) as Hslice.
  { unfold PyText.slice. rewrite app_assoc.
    replace (List.length front + List.length before)
      with (List.length (front ++ before)) by (rewrite length_app; reflexivity).
    rewrite drop_app_length.
    replace (List.length (front ++ before) + 1 + List.length inner
             - List.length (front ++ before))
      with (List.length (header :: inner)) by (simpl; lia).
    change (header :: inner ++ rest) with ((header :: inner) ++ rest).
    apply take_app_length. }
  destruct rest as [|next rest].
  - rewrite app_nil_r in *. rewrite find_section_inner by exact Hinner.
    replace (List.length (front ++ before ++ header :: inner))
      with (List.length front + List.length before + 1 + List.length inner)
      by (rewrite !length_app; simpl; lia).
    rewrite Hslice. reflexivity.
  - rewrite find_section_inner_header by assumption.
    replace (S (List.length front + List.length before) + List.length inner)
      with (S (List.length front + List.length before + List.length inner)) by lia.
    replace (S (List.length front + List.length before + List.length inner))
      with (List.length front + List.length before + 1 + List.length inner) by lia.
    rewrite Hslice. reflexivity.
Qed.

Lemma extract_section_finds_witness :
  _extract_section
    ("---" +:+ PyStr.nl +:+ "name: x" +:+ PyStr.nl +:+ "---" +:+ PyStr.nl
     +:+ "# Title" +:+ PyStr.nl +:+ "intro" +:+ PyStr.nl
     +:+ "## Instructions" +:+ PyStr.nl +:+ "do this" +:+ PyStr.nl
     +:+ "## Examples" +:+ PyStr.nl +:+ "ex")
    "Instructions"
  = PyStr.strip (PyStr.join PyStr.nl ["## Instructions"; "do this"]).
Proof.
  apply (extract_section_finds _ "Instructions" ["---"; "name: x"; "---"]
           ["# Title"; "intro"] "## Instructions" ["do this"] ["## Examples"; "ex"]).
  - vm_compute. reflexivity.
  - vm_compute. reflexivity.
  - repeat constructor.
  - vm_compute. reflexivity.
  - repeat constructor.
  - vm_compute. reflexivity.
Defined.

Lemma apply_max_lines_truncates_witness :
  PyText.splitlines
    (_apply_max_lines ("a" +:+ PyStr.nl +:+ "b" +:+ PyStr.nl +:+ "c" +:+ PyStr.nl +:+ "d")
       (Some 2%Z))
  = firstn (Z.to_nat 2)
      (PyText.splitlines ("a" +:+ PyStr.nl +:+ "b" +:+ PyStr.nl +:+ "c" +:+ PyStr.nl +:+ "d"))
    ++ [truncation_marker
          (List.length
             (PyText.splitlines
                ("a" +:+ PyStr.nl +:+ "b" +:+ PyStr.nl +:+ "c" +:+ PyStr.nl +:+ "d"))
           - Z.to_nat 2)].
Proof.
  apply (apply_max_lines_truncates
           ("a" +:+ PyStr.nl +:+ "b" +:+ PyStr.nl +:+ "c" +:+ PyStr.nl +:+ "d") 2%Z).
  - lia.
  - vm_compute. lia.
Defined.

Lemma created_skill_accepts_tag_update_witness :
  exists md,
    dict_get
      (match fst (@create_skill Sample.collaborators [["r"; "skills"]]
                    (Sample.args "coding/helper" "d")
                    (Sample.world [Sample.dir ["r"]; Sample.dir ["r"; "skills"]]))
       with Ret d => d | Raise _ => [] end) "skill_path"
    = Some (VStr (PyPath.str md))
    /\ forall new_tags,
         exists content,
           _update_tags_in_skill_md md new_tags
             (snd (@create_skill Sample.collaborators [["r"; "skills"]]
                     (Sample.args "coding/helper" "d")
                     (Sample.world [Sample.dir ["r"]; Sample.dir ["r"; "skills"]])))
           = (Ret tt,
              with_event
                (with_fs
                   (snd (@create_skill Sample.collaborators [["r"; "skills"]]
                           (Sample.args "coding/helper" "d")
                           (Sample.world [Sample.dir ["r"]; Sample.dir ["r"; "skills"]])))
                   (<[md := NFile content]>
                      (fs (snd (@create_skill Sample.collaborators [["r"; "skills"]]
                                  (Sample.args "coding/helper" "d")
                                  (Sample.world
                                     [Sample.dir ["r"]; Sample.dir ["r"; "skills"]]))))))
                (EvWrite md)).
Proof.
  apply (@created_skill_accepts_tag_update Sample.collaborators [["r"; "skills"]]
           (Sample.args "coding/helper" "d")
           (Sample.world [Sample.dir ["r"]; Sample.dir ["r"; "skills"]])).
  - vm_compute. reflexivity.
  - vm_compute. reflexivity.
Defined.
